(** * FmodCMake setup tools: a shallow embedding and its properties

    The repository holds six short Python scripts under [tools/]:
    two downloaders ([get_fmod_api.py], [get_raylib.py]), two installers
    ([install_fmod_api.py], [install_raylib.py]) and two orchestrators
    ([setup_fmod_api.py], [setup_raylib.py]).  Each script is embedded in a
    module of its own; what the scripts take from Python's library
    ([str], [pathlib], [shutil], [tempfile], [subprocess]) is modelled in
    the modules [Py], [Fs] and [Run], what the downloaders take from
    [requests] in [Web], and the processes of the downloaders and the
    orchestrators in [Proc] and [Tools].  The definitions come first, the
    properties after them. *)

From Stdlib Require Import Ascii String.
From stdpp Require Import base option list strings gmap fin_maps pretty.

#[local] Set Warnings "-clear-no-such-hyp".

(* ===================================================================== *)
(** * Python strings and dictionaries *)
(* ===================================================================== *)

Module Py.

(** A [str] is a Rocq [string]; the characters that matter to the scripts
    (platform markers and archive extensions) are ASCII. *)

(** [c.lower()] on one character: 'A'..'Z' move to 'a'..'z'. *)
Definition lower_ascii (c : ascii) : ascii :=
  let n := nat_of_ascii c in
  if (65 <=? n)%nat && (n <=? 90)%nat then ascii_of_nat (n + 32) else c.

(** [s.lower()] *)
Fixpoint lower (s : string) : string :=
  match s with
  | EmptyString => EmptyString
  | String c s' => String (lower_ascii c) (lower s')
  end.

(** [s.startswith(p)] *)
Fixpoint startswith (s p : string) : bool :=
  match p, s with
  | EmptyString, _ => true
  | String _ _, EmptyString => false
  | String a p', String b s' => Ascii.eqb a b && startswith s' p'
  end.

(** [sub in s]: [sub] occurs in [s] at some position. *)
Fixpoint contains (sub s : string) : bool :=
  startswith s sub ||
  match s with
  | EmptyString => false
  | String _ s' => contains sub s'
  end.

(** [s.endswith(suf)]: some tail of [s] is [suf]. *)
Fixpoint endswith (s suf : string) : bool :=
  String.eqb s suf ||
  match s with
  | EmptyString => false
  | String _ s' => endswith s' suf
  end.

(** The last character of a string, when it has one. *)
Fixpoint last_char (s : string) : option ascii :=
  match s with
  | EmptyString => None
  | String c EmptyString => Some c
  | String _ s' => last_char s'
  end.

(** [tmpl.format(version=v)] for templates made of literal text, the
    escapes [{{] and [}}], and named replacement fields [{name}].
    [field] is [Some acc] while the scanner is between the braces of a
    field whose name so far is [acc].  [None] stands for the exception
    Python raises: [KeyError] for a field other than [version],
    [ValueError] for a brace left open or closed alone.  The value put in
    is not scanned again. *)
Fixpoint format_from (tmpl : string) (field : option string)
    (version : string) : option string :=
  match tmpl with
  | EmptyString =>
      match field with
      | None => Some EmptyString
      | Some _ => None
      end
  | String c rest =>
      match field with
      | Some acc =>
          if Ascii.eqb c "}"%char then
            if String.eqb acc "version"
            then String.append version <$> format_from rest None version
            else None
          else if Ascii.eqb c "{"%char then
            if String.eqb acc EmptyString
            then String "{"%char <$> format_from rest None version
            else None
          else format_from rest (Some (acc +:+ String c EmptyString)) version
      | None =>
          if Ascii.eqb c "{"%char then format_from rest (Some EmptyString) version
          else if Ascii.eqb c "}"%char then
            match rest with
            | String "}"%char rest' => String "}"%char <$> format_from rest' None version
            | _ => None
            end
          else String c <$> format_from rest None version
      end
  end.

Definition format (tmpl version : string) : option string :=
  format_from tmpl None version.

(** A [dict] with string keys, in insertion order. *)
Definition dict (V : Type) : Type := list (string * V).

(** [d.get(k)] *)
Fixpoint get {V : Type} (k : string) (d : dict V) : option V :=
  match d with
  | [] => None
  | (k', v) :: d' => if String.eqb k k' then Some v else get k d'
  end.

(** [list(d.keys())] *)
Definition keys {V : Type} (d : dict V) : list string := d.*1.

(** [k in d] *)
Definition mem {V : Type} (k : string) (d : dict V) : bool :=
  bool_decide (is_Some (get k d)).

End Py.

(* ===================================================================== *)
(** * The downloaders: [get_fmod_api.py] and [get_raylib.py] *)
(* ===================================================================== *)

(** The tables of the downloaders come first: the platform table, the
    membership test on it and the substitution of the version into the
    filename template.  Their runs, the requests they send included, are
    in [GetFmodApiRun] and [GetRaylibRun] further down. *)

Module GetFmodApi.

Record profile := { filename : string; path : string }.

Definition PLATFORM_CONFIG : Py.dict profile :=
  [ ("mac",     {| filename := "fmodstudioapi{version}mac-installer.dmg";
                   path := "files/fmodstudio/api/Mac/" |});
    ("linux",   {| filename := "fmodstudioapi{version}linux.tar.gz";
                   path := "files/fmodstudio/api/Linux/" |});
    ("windows", {| filename := "fmodstudioapi{version}win-installer.exe";
                   path := "files/fmodstudio/api/Windows/" |}) ].

(** [main], from the platform check to the computed [filename]:
    [None] is the exit with status 1 on an unsupported platform. *)
Definition main_filename (platform api_version : string) : option string :=
  if negb (Py.mem platform PLATFORM_CONFIG) then None
  else
    config ← Py.get platform PLATFORM_CONFIG;
    Py.format (filename config) api_version.

End GetFmodApi.

Module GetRaylib.

Record profile := { filename : string }.

Definition PLATFORM_CONFIG : Py.dict profile :=
  [ ("mac",     {| filename := "raylib-{version}_macos.tar.gz" |});
    ("linux",   {| filename := "raylib-{version}_linux_amd64.tar.gz" |});
    ("windows", {| filename := "raylib-{version}_win64_msvc16.zip" |}) ].

Definition main_filename (platform raylib_version : string) : option string :=
  if negb (Py.mem platform PLATFORM_CONFIG) then None
  else
    config ← Py.get platform PLATFORM_CONFIG;
    Py.format (filename config) raylib_version.

End GetRaylib.

(* ===================================================================== *)
(** * The orchestrators: [setup_fmod_api.py] and [setup_raylib.py] *)
(* ===================================================================== *)

(** [installer_patterns] is a dict of f-strings, so every entry is the
    concatenation of its literal parts and the version.  [installer_name]
    is [installer_patterns.get(platform)] followed by the test
    [if not installer_name], which also refuses an empty name; [None] is
    the [ValueError("Unknown platform")] that ends the run. *)

Module SetupFmodApi.

Definition installer_patterns (api_version : string) : Py.dict string :=
  [ ("windows", "fmodstudioapi" +:+ api_version +:+ "win-installer.exe");
    ("linux",   "fmodstudioapi" +:+ api_version +:+ "linux.tar.gz");
    ("apple",   "fmodstudioapi" +:+ api_version +:+ "mac-installer.dmg") ].

Definition installer_name (platform api_version : string) : option string :=
  match Py.get platform (installer_patterns api_version) with
  | Some name => if String.eqb name "" then None else Some name
  | None => None
  end.

End SetupFmodApi.

Module SetupRaylib.

Definition installer_patterns (raylib_version : string) : Py.dict string :=
  [ ("mac",     "raylib-" +:+ raylib_version +:+ "_macos.tar.gz");
    ("linux",   "raylib-" +:+ raylib_version +:+ "_linux_amd64.tar.gz");
    ("windows", "raylib-" +:+ raylib_version +:+ "_win64_msvc16.zip") ].

Definition installer_name (platform raylib_version : string) : option string :=
  match Py.get platform (installer_patterns raylib_version) with
  | Some name => if String.eqb name "" then None else Some name
  | None => None
  end.

End SetupRaylib.

(* ===================================================================== *)
(** * The file system, as [pathlib], [shutil] and [tempfile] see it *)
(* ===================================================================== *)

Module Fs.

(** A path is the list of its components below the root; relative paths
    are resolved against the working directory when they are built, and
    [..] and symbolic links are not modelled. *)
Definition path : Type := list string.

Inductive kind := File | Dir.

Global Instance kind_eq_dec : EqDecision kind.
Proof. solve_decision. Defined.

(** A file system maps the paths that exist to what they are; the content
    of files is not modelled. *)
Abbreviation tree := (gmap path kind).

(** [split_on sep s acc]: the pieces of [s] between occurrences of [sep],
    [acc] being the piece read so far. *)
Fixpoint split_on (sep : ascii) (s : string) (acc : string) : list string :=
  match s with
  | EmptyString => [acc]
  | String c s' =>
      if Ascii.eqb c sep then acc :: split_on sep s' EmptyString
      else split_on sep s' (acc +:+ String c EmptyString)
  end.

(** The components of a path written with [/]; empty components and [.]
    are dropped, as [pathlib] does. *)
Definition parts (s : string) : path :=
  filter (λ c, c ≠ "" ∧ c ≠ ".") (split_on "/"%char s "").

(** [p / rel] for a relative [rel] *)
Definition join (p : path) (rel : string) : path := p ++ parts rel.

(** [p.name] *)
Definition name (p : path) : string := default "" (last p).

(** [p.parent]; the root is its own parent. *)
Definition parent (p : path) : path := removelast p.

Definition exists_ (fs : tree) (p : path) : bool :=
  bool_decide (is_Some (fs !! p)).
Definition is_file (fs : tree) (p : path) : bool :=
  bool_decide (fs !! p = Some File).
Definition is_dir (fs : tree) (p : path) : bool :=
  bool_decide (fs !! p = Some Dir).

(** [q] lies strictly below [p]. *)
Definition below (p q : path) : Prop := p `prefix_of` q ∧ p ≠ q.

Global Instance below_dec p q : Decision (below p q).
Proof. unfold below. apply _. Defined.

(** [list(p.rglob(nm))] for a pattern without wildcards: every entry
    below [p], at any depth, whose name is [nm].  The order in which the
    operating system lists entries is not specified; the model lists them
    in the order of the map. *)
Definition rglob (fs : tree) (p : path) (nm : string) : list path :=
  filter (λ q, below p q ∧ name q = nm) (map_to_list fs).*1.

(** [list(p.glob('*'))] and [p.iterdir()]: the entries directly in [p]. *)
Definition children (fs : tree) (p : path) : list path :=
  filter (λ q, q ≠ [] ∧ parent q = p) (map_to_list fs).*1.

(** The entries at and below [src], relative to [src]. *)
Definition subtree (fs : tree) (src : path) : list (path * kind) :=
  omap (λ e, if decide (src `prefix_of` e.1)
             then Some (drop (length src) e.1, e.2) else None)
       (map_to_list fs).

(** Writing the entries [ents] (relative paths) at [dst].  An entry that
    is already there stays as it is: a file written over a file and a
    directory merged into a directory change nothing that is modelled. *)
Definition graft (dst : path) (ents : list (path * kind)) (fs : tree) : tree :=
  fs ∪ list_to_map ((λ e, (dst ++ e.1, e.2)) <$> ents).

(** Some entry of [ents] meets an existing entry of the other kind. *)
Definition clashes (dst : path) (ents : list (path * kind)) (fs : tree) : bool :=
  existsb (λ e, match fs !! (dst ++ e.1) with
                | Some k => bool_decide (k ≠ e.2)
                | None => false
                end) ents.

(** The ancestors of [p] below the root, [p] included. *)
Definition ancestors (p : path) : list (path * kind) :=
  (λ n, (take (S n) p, Dir)) <$> seq 0 (length p).

(** Every existing path lies in existing directories. *)
Definition wf (fs : tree) : Prop :=
  map_Forall (λ p _, Forall (λ e, fs !! e.1 = Some Dir) (ancestors (parent p))) fs.

Global Instance wf_dec fs : Decision (wf fs).
Proof. unfold wf. apply _. Defined.

(** Removing everything at and below [p]. *)
Definition prune (p : path) (fs : tree) : tree :=
  filter (λ e, ¬ p `prefix_of` e.1) fs.

(** Removing everything strictly below [p]. *)
Definition empty_dir (p : path) (fs : tree) : tree :=
  filter (λ e, ¬ below p e.1) fs.

End Fs.

(* ===================================================================== *)
(** * Running a script: state, exceptions and the world outside *)
(* ===================================================================== *)

Module Run.
Import Fs.

(** The exceptions the scripts meet.  [KeyboardInterrupt] and
    [SystemExit] are not subclasses of [Exception]; all others are. *)
Inductive exn :=
| ValueError (m : string)
| RuntimeError (m : string)
| AttributeError (m : string)
| KeyError (k : string)
| FileNotFoundError
| FileExistsError
| NotADirectoryError
| IsADirectoryError
| CalledProcessError
| ShutilError
| OtherError (m : string)
| KeyboardInterrupt
| SystemExit (code : nat).

Global Instance exn_eq_dec : EqDecision exn.
Proof. solve_decision. Defined.

Definition is_Exception (e : exn) : bool :=
  match e with
  | KeyboardInterrupt | SystemExit _ => false
  | _ => true
  end.

(** What a script prints, one constructor per message (or block of
    messages) of the source. *)
Inductive msg :=
| Usage
| InstallerNotFound (p : path)
| Banner
| InstallerFound (name : string)
| PlatformIs (platform : string)
| ErrorIs (e : exn)
| TempDirectory (t : path)
| Extracting (what : string)
| Extracted (what : string)
| CopyingFiles
| Copied (what : string) (n : nat)
| WarnNotFound (what : string)
| NoPluginsConfigured
| CopyingPlugins (n : nat)
| PluginCopied (name : string)
| PluginNotFound (name rel : string)
| CopiedPlugins (k n : nat)
| InstallationComplete
| DeletingInstaller
| Deleted (name : string)
| CleaningUp
| TempRemoved.

Inductive result (A : Type) :=
| Ok (a : A)
| Raise (e : exn).
Global Arguments Ok {A} a.
Global Arguments Raise {A} e.

(** A computation starts on a file system and ends with a value or an
    exception, the file system it leaves and what it has printed. *)
Definition M (A : Type) : Type :=
  gmap path kind → result A * gmap path kind * list msg.

Definition ret {A} (a : A) : M A := λ fs, (Ok a, fs, []).
Definition raise {A} (e : exn) : M A := λ fs, (Raise e, fs, []).
Definition bind {A B} (m : M A) (k : A → M B) : M B := λ fs,
  match m fs with
  | (Ok a, fs1, out1) =>
      match k a fs1 with
      | (r, fs2, out2) => (r, fs2, out1 ++ out2)
      end
  | (Raise e, fs1, out1) => (Raise e, fs1, out1)
  end.

Global Instance M_ret : MRet M := @ret.
Global Instance M_bind : MBind M := λ A B k m, bind m k.

(** [try: body except cls: handler], where [catches] tells the classes
    of the clause. *)
Definition try_except {A} (body : M A) (catches : exn → bool)
    (handler : exn → M A) : M A := λ fs,
  match body fs with
  | (Raise e, fs1, out1) =>
      if catches e then
        match handler e fs1 with
        | (r, fs2, out2) => (r, fs2, out1 ++ out2)
        end
      else (Raise e, fs1, out1)
  | done => done
  end.

(** [try: body finally: final]: an exception of [final] replaces the
    outcome of [body]. *)
Definition try_finally {A} (body : M A) (final : M unit) : M A := λ fs,
  match body fs with
  | (r, fs1, out1) =>
      match final fs1 with
      | (Ok _, fs2, out2) => (r, fs2, out1 ++ out2)
      | (Raise e, fs2, out2) => (Raise e, fs2, out1 ++ out2)
      end
  end.

(** [for x in xs: body x] *)
Fixpoint for_each {A} (xs : list A) (body : A → M unit) : M unit :=
  match xs with
  | [] => ret ()
  | x :: xs' => body x ;; for_each xs' body
  end.

Definition get_files : M (gmap path kind) := λ fs, (Ok fs, fs, []).
Definition put_files (fs : gmap path kind) : M unit := λ _, (Ok (), fs, []).
Definition print (m : msg) : M unit := λ fs, (Ok (), fs, [m]).

(** [sys.exit(code)] *)
Definition sys_exit {A} (code : nat) : M A := raise (SystemExit code).

(** The exit status of the process after the script's [main]; 1 stands
    for the non-zero status of an exception that nothing catches. *)
Definition exit_status {A} (r : result A) : nat :=
  match r with
  | Ok _ => 0
  | Raise (SystemExit code) => code
  | Raise _ => 1
  end.

(** ** Library calls on the file system

    The tree has neither permissions nor links nor devices: a library call
    fails only for a reason that shows in the tree (a missing source, a
    file where a directory is needed or the reverse), and the exception
    classes are those of CPython on POSIX.  What can fail in any way is
    the world outside, further down: the archive tools and the disk-image
    tool. *)

(** [p.mkdir(exist_ok=True)] *)
Definition mkdir (p : path) : M unit :=
  fs ← get_files;
  match fs !! p with
  | Some Dir => ret ()
  | Some File => raise FileExistsError
  | None =>
      if bool_decide (parent p = []) || is_dir fs (parent p)
      then put_files (<[p := Dir]> fs)
      else raise FileNotFoundError
  end.

(** [p.mkdir(parents=True, exist_ok=True)] *)
Definition mkdir_parents (p : path) : M unit :=
  fs ← get_files;
  if clashes [] (ancestors p) fs then raise FileExistsError
  else put_files (graft [] (ancestors p) fs).

(** [shutil.copytree(src, dst, dirs_exist_ok=True)]: the destination
    directory is made first; entries that cannot be written are skipped
    and reported together at the end. *)
Definition copytree (src dst : path) : M unit :=
  fs ← get_files;
  match fs !! src with
  | None => raise FileNotFoundError
  | Some File => raise NotADirectoryError
  | Some Dir =>
      mkdir_parents dst ;;
      fs ← get_files;
      put_files (graft dst (subtree fs src) fs) ;;
      if clashes dst (subtree fs src) fs then raise ShutilError else ret ()
  end.

(** [shutil.copy2(src, dst)]; into [dst] under the name of [src] when
    [dst] is a directory. *)
Definition copy2 (src dst : path) : M unit :=
  fs ← get_files;
  match fs !! src with
  | None => raise FileNotFoundError
  | Some Dir => raise IsADirectoryError
  | Some File =>
      let dst' := if is_dir fs dst then dst ++ [name src] else dst in
      match fs !! dst' with
      | Some Dir => raise IsADirectoryError
      | Some File => ret ()
      | None =>
          if bool_decide (parent dst' = []) || is_dir fs (parent dst')
          then put_files (<[dst' := File]> fs)
          else raise FileNotFoundError
      end
  end.

(** [p.unlink()] *)
Definition unlink (p : path) : M unit :=
  fs ← get_files;
  match fs !! p with
  | Some File => put_files (delete p fs)
  | Some Dir => raise IsADirectoryError
  | None => raise FileNotFoundError
  end.

(** [shutil.rmtree(p, ignore_errors=False)] *)
Definition rmtree (p : path) : M unit :=
  fs ← get_files;
  match fs !! p with
  | Some Dir => put_files (prune p fs)
  | Some File => raise NotADirectoryError
  | None => raise FileNotFoundError
  end.

(** [len(list(dst.glob('*')))] *)
Definition count_entries (dst : path) : M nat :=
  fs ← get_files; ret (length (children fs dst)).

(** ** The world outside the script *)

(** What an archive tool does when it is run on the installer with a
    target directory: the entries it writes there (relative to the
    target) and the exception the call ends with, if any. *)
Record outcome := Outcome { written : list (path * kind); raised : option exn }.

(** How [hdiutil detach] ends; the call is made with [check=False]. *)
Inductive detach_result :=
| Detached
| StillMounted
| DetachRaised (e : exn).

Record env := Env {
  (** the working directory of the process *)
  cwd : path;
  (** [Path(__file__).parent.parent] *)
  PROJECT_ROOT : path;
  (** [tempfile.gettempdir()] and the random names [mkdtemp] draws *)
  tempdir : path;
  temp_names : list string;
  (** [shutil.unpack_archive(installer, temp_dir)] *)
  unpack_archive : path → outcome;
  (** [subprocess.run([seven_zip, 'x', installer, ...], check=True)] *)
  run_7z : string → path → outcome;
  (** [subprocess.run(['hdiutil', 'attach', ...], check=True)]: the entries
      of the volume that appear under the mount point *)
  hdiutil_attach : path → outcome;
  hdiutil_detach : path → detach_result
}.

(** [Path(arg)], resolved against the working directory.  For an argument
    without components (the empty string, [.]) Python's [name] is empty
    while here it is the name of the working directory; the installers
    read the name only of a path that [is_file] has accepted. *)
Definition Path (E : env) (arg : string) : path :=
  if Py.startswith arg "/" then parts arg else cwd E ++ parts arg.

(** [Path(tempfile.mkdtemp(prefix=prefix))]: the first drawn name that
    does not exist yet is created. *)
Definition mkdtemp (E : env) (prefix : string) : M path :=
  fs ← get_files;
  match List.find (λ n, negb (exists_ fs (tempdir E ++ [prefix +:+ n])))
                  (temp_names E) with
  | Some n =>
      let t := tempdir E ++ [prefix +:+ n] in
      put_files (<[t := Dir]> fs) ;; ret t
  | None => raise FileExistsError
  end.

(** A pure result used inside a computation. *)
Definition lift {A} (r : result A) : M A := λ fs, (r, fs, []).

(** An archive tool at work: what it writes lands under [target], then
    the call returns or raises. *)
Definition perform (o : outcome) (target : path) : M unit :=
  fs ← get_files;
  put_files (graft target (written o) fs) ;;
  match raised o with
  | Some e => raise e
  | None => ret ()
  end.

(** [m] keeps the entries at the paths in [P]: whatever the outcome,
    an entry that is there before is there after, unchanged. *)
Definition keeps {A} (P : path → Prop) (m : M A) : Prop :=
  ∀ fs r fs' out q k,
    m fs = (r, fs', out) → P q → fs !! q = Some k → fs' !! q = Some k.

End Run.

(* ===================================================================== *)
(** * The audio-SDK installer: [install_fmod_api.py] *)
(* ===================================================================== *)

Module InstallFmodApi.
Import Fs Run.

(** The value under ['plugins']: a set of paths of single files, or (the
    old format) one directory given as a string.  The set is listed in
    the order of the source. *)
Inductive plugins_value :=
| PluginSet (paths : list string)
| PluginDir (dir : string).

Record api_structure := {
  core_inc_dir : string;
  core_lib_dir : string;
  studio_inc_dir : string;
  studio_lib_dir : string;
  plugins : option plugins_value
}.

Record profile := { lib_subdir : string; api : api_structure }.

Definition PLATFORM_CONFIG : Py.dict profile :=
  [ ("windows",
     {| lib_subdir := "win_x64";
        api := {| core_inc_dir := "api/core/inc";
                  core_lib_dir := "api/core/lib/x64";
                  studio_inc_dir := "api/studio/inc";
                  studio_lib_dir := "api/studio/lib/x64";
                  plugins := Some (PluginSet
                    [ "plugins/fmod_haptics/lib/x64/fmod_haptics.dll";
                      "plugins/resonance_audio/lib/x64/resonanceaudio.dll" ]) |} |});
    ("linux",
     {| lib_subdir := "linux_x64";
        api := {| core_inc_dir := "api/core/inc";
                  core_lib_dir := "api/core/lib/x86_64";
                  studio_inc_dir := "api/studio/inc";
                  studio_lib_dir := "api/studio/lib/x86_64";
                  plugins := Some (PluginSet
                    [ "plugins/resonance_audio/lib/resonanceaudio.so" ]) |} |});
    ("mac",
     {| lib_subdir := "mac";
        api := {| core_inc_dir := "api/core/inc";
                  core_lib_dir := "api/core/lib";
                  studio_inc_dir := "api/studio/inc";
                  studio_lib_dir := "api/studio/lib";
                  plugins := Some (PluginSet
                    [ "plugins/fmod_haptics/lib/fmod_haptics.dylib";
                      "plugins/resonance_audio/lib/resonanceaudio.dylib" ]) |} |}) ].

(** [PLATFORM_CONFIG[platform]] *)
Definition config_of (platform : string) : M profile :=
  match Py.get platform PLATFORM_CONFIG with
  | Some c => ret c
  | None => raise (KeyError platform)
  end.

Definition detect_platform (installer_path : path) : result string :=
  let name := Py.lower (Fs.name installer_path) in
  if Py.contains "win" name && Py.endswith name ".exe" then Ok "windows"
  else if Py.contains "linux" name && Py.endswith name ".tar.gz" then Ok "linux"
  else if Py.contains "mac" name && Py.endswith name ".dmg" then Ok "mac"
  else Raise (ValueError ("Cannot detect platform from installer: "
                          +:+ Fs.name installer_path)).

Definition seven_zip_paths : list string :=
  [ "7z";
    "C:\Program Files\7-Zip\7z.exe";
    "C:\Program Files (x86)\7-Zip\7z.exe" ].

Definition nl : string := String "010"%char EmptyString.

Definition no_extractor_message : string :=
  "Cannot extract Windows installer. Please install 7-Zip:" +:+ nl +:+
  "  1. Download from: https://www.7-zip.org/download.html" +:+ nl +:+
  "  2. Install to default location" +:+ nl +:+
  "  3. Re-run this script" +:+ nl +:+ nl +:+
  "For CI/CD, install 7-Zip in your pipeline:" +:+ nl +:+
  "  winget install -e --id 7zip.7zip" +:+ nl +:+
  "  choco install 7zip  (Chocolatey)" +:+ nl +:+
  "  or use GitHub Actions: actions/setup-7zip".

(** The classes of [except (FileNotFoundError, subprocess.CalledProcessError)] *)
Definition absent_or_failed (e : exn) : bool :=
  bool_decide (e = FileNotFoundError ∨ e = CalledProcessError).

Section WithEnv.
Variable E : env.

Definition FMOD_LIB_DIR : path := PROJECT_ROOT E ++ ["libs"; "fmod"].

(** The [for] loop of [extract_windows_exe] from a given candidate on,
    and the [raise] after it: an invocation that completes returns from
    the function, one that ends in a caught exception moves on to the
    next candidate. *)
Fixpoint try_seven_zip (candidates : list string)
    (installer_path temp_dir : path) : M unit :=
  match candidates with
  | [] => raise (RuntimeError no_extractor_message)
  | seven_zip :: rest =>
      try_except
        (perform (run_7z E seven_zip installer_path) temp_dir ;;
         print (Extracted "7zip"))
        absent_or_failed
        (λ _, try_seven_zip rest installer_path temp_dir)
  end.

Definition extract_windows_exe (installer_path temp_dir : path) : M unit :=
  print (Extracting "Windows installer") ;;
  try_seven_zip seven_zip_paths installer_path temp_dir.

Definition extract_linux_tar (installer_path temp_dir : path) : M unit :=
  print (Extracting "Linux tar") ;;
  perform (unpack_archive E installer_path) temp_dir ;;
  print (Extracted "tar").

Definition hdiutil_detach_call (mount_point : path) : M unit :=
  match hdiutil_detach E mount_point with
  | Detached => fs ← get_files; put_files (empty_dir mount_point fs)
  | StillMounted => ret ()
  | DetachRaised e => raise e
  end.

Definition extract_macos_dmg (installer_path temp_dir : path) : M unit :=
  print (Extracting "macOS DMG") ;;
  let mount_point := temp_dir ++ ["dmg_mount"] in
  mkdir mount_point ;;
  perform (hdiutil_attach E installer_path) mount_point ;;
  try_finally
    (fs ← get_files;
     for_each (children fs mount_point) (λ item,
       fs ← get_files;
       if is_dir fs item
       then copytree item (temp_dir ++ [Fs.name item])
       else copy2 item (temp_dir ++ [Fs.name item])))
    (hdiutil_detach_call mount_point) ;;
  print (Extracted "DMG").

(** New format of [copy_plugins]: one listed file after the other, the
    count of the copied ones being threaded through. *)
Fixpoint copy_plugin_files (plugin_paths : list string)
    (source_root dst_dir : path) (copied_count : nat) : M nat :=
  match plugin_paths with
  | [] => ret copied_count
  | plugin_path :: rest =>
      let src_file := join source_root plugin_path in
      fs ← get_files;
      if exists_ fs src_file then
        copy2 src_file (dst_dir ++ [Fs.name src_file]) ;;
        print (PluginCopied (Fs.name src_file)) ;;
        copy_plugin_files rest source_root dst_dir (copied_count + 1)
      else
        print (PluginNotFound (Fs.name src_file) plugin_path) ;;
        copy_plugin_files rest source_root dst_dir copied_count
  end.

Definition copy_plugins (source_root : path) (platform : string) : M unit :=
  config ← config_of platform;
  match plugins (api config) with
  | None | Some (PluginSet []) | Some (PluginDir "") =>
      print NoPluginsConfigured
  | Some (PluginDir plugin_paths) =>
      let source := join source_root plugin_paths in
      let destination := FMOD_LIB_DIR ++ ["plugins"; lib_subdir config] in
      fs ← get_files;
      if exists_ fs source then
        mkdir_parents (parent destination) ;;
        copytree source destination ;;
        n ← count_entries destination;
        print (Copied "plugins" n)
      else print (WarnNotFound "Plugins")
  | Some (PluginSet plugin_paths) =>
      print (CopyingPlugins (length plugin_paths)) ;;
      let dst_dir := FMOD_LIB_DIR ++ ["plugins"; lib_subdir config] in
      mkdir_parents dst_dir ;;
      copied_count ← copy_plugin_files plugin_paths source_root dst_dir 0;
      print (CopiedPlugins copied_count (length plugin_paths))
  end.

(** One of the four blocks of [copy_api_files], which differ in the
    source, the destination and the words of the messages only. *)
Definition copy_component (what : string) (src dst : path) : M unit :=
  fs ← get_files;
  if exists_ fs src then
    mkdir_parents (parent dst) ;;
    copytree src dst ;;
    n ← count_entries dst;
    print (Copied what n)
  else print (WarnNotFound what).

(** The list [api_dirs] as it stands after the [if not api_dirs]. *)
Definition api_dirs (fs : gmap path kind) (temp_dir : path) : list path :=
  let api_dirs := rglob fs temp_dir "api" in
  if bool_decide (api_dirs = []) then [temp_dir] else api_dirs.

(** [source_root = api_dirs[0].parent if api_dirs else temp_dir] *)
Definition source_root (fs : gmap path kind) (temp_dir : path) : path :=
  match api_dirs fs temp_dir with
  | d :: _ => parent d
  | [] => temp_dir
  end.

Definition copy_api_files (temp_dir : path) (platform : string) : M unit :=
  print CopyingFiles ;;
  config ← config_of platform;
  let api_structure := api config in
  fs ← get_files;
  let source_root := source_root fs temp_dir in
  copy_component "Core headers"
    (join source_root (core_inc_dir api_structure))
    (FMOD_LIB_DIR ++ ["core"; "inc"]) ;;
  copy_component "Core libraries"
    (join source_root (core_lib_dir api_structure))
    (FMOD_LIB_DIR ++ ["core"; "lib"; lib_subdir config]) ;;
  copy_component "Studio headers"
    (join source_root (studio_inc_dir api_structure))
    (FMOD_LIB_DIR ++ ["studio"; "inc"]) ;;
  copy_component "Studio libraries"
    (join source_root (studio_lib_dir api_structure))
    (FMOD_LIB_DIR ++ ["studio"; "lib"; lib_subdir config]) ;;
  copy_plugins source_root platform.

(** The body of the [try] of [main]. *)
Definition install (installer_path temp_dir : path) (platform : string)
    (delete_installer : bool) : M unit :=
  (if String.eqb platform "windows" then extract_windows_exe installer_path temp_dir
   else if String.eqb platform "linux" then extract_linux_tar installer_path temp_dir
   else if String.eqb platform "mac" then extract_macos_dmg installer_path temp_dir
   else ret ()) ;;
  copy_api_files temp_dir platform ;;
  print InstallationComplete ;;
  if delete_installer then
    print DeletingInstaller ;;
    unlink installer_path ;;
    print (Deleted (Fs.name installer_path))
  else ret ().

Definition main (argv : list string) : M unit :=
  if bool_decide (length argv < 2 ∨ 3 < length argv) then
    print Usage ;; sys_exit 1
  else
    let installer_path := Path E (argv !!! 1) in
    let delete_installer :=
      bool_decide (length argv = 3)
      && String.eqb (argv !!! 2) "--delete-installer" in
    fs ← get_files;
    if negb (is_file fs installer_path) then
      print (InstallerNotFound installer_path) ;; sys_exit 1
    else
      print Banner ;;
      platform ← try_except
        (platform ← lift (detect_platform installer_path);
         print (InstallerFound (Fs.name installer_path)) ;;
         print (PlatformIs platform) ;;
         ret platform)
        (λ e, match e with ValueError _ => true | _ => false end)
        (λ e, print (ErrorIs e) ;; sys_exit 1);
      temp_dir ← mkdtemp E "temp_fmod_install_";
      print (TempDirectory temp_dir) ;;
      try_finally
        (try_except
           (install installer_path temp_dir platform delete_installer)
           is_Exception
           (λ e, print (ErrorIs e) ;; sys_exit 1))
        (print CleaningUp ;; rmtree temp_dir ;; print TempRemoved).

End WithEnv.

End InstallFmodApi.

(* ===================================================================== *)
(** * The graphics-library installer: [install_raylib.py] *)
(* ===================================================================== *)

Module InstallRaylib.
Import Fs Run.

Record api_structure := { inc_dir : string; lib_dir : string }.

Record profile := { lib_subdir : string; api : api_structure }.

Definition PLATFORM_CONFIG : Py.dict profile :=
  [ ("windows", {| lib_subdir := "win_x64";
                   api := {| inc_dir := "include"; lib_dir := "lib" |} |});
    ("linux",   {| lib_subdir := "linux_x64";
                   api := {| inc_dir := "include"; lib_dir := "lib" |} |});
    ("mac",     {| lib_subdir := "mac";
                   api := {| inc_dir := "include"; lib_dir := "lib" |} |}) ].

(** [PLATFORM_CONFIG[platform]] *)
Definition config_of (platform : string) : M profile :=
  match Py.get platform PLATFORM_CONFIG with
  | Some c => ret c
  | None => raise (KeyError platform)
  end.

Definition detect_platform (installer_path : path) : result string :=
  let name := Py.lower (Fs.name installer_path) in
  if Py.contains "win" name && Py.endswith name ".zip" then Ok "windows"
  else if Py.contains "linux" name && Py.endswith name ".tar.gz" then Ok "linux"
  else if Py.contains "macos" name && Py.endswith name ".tar.gz" then Ok "mac"
  else Raise (ValueError ("Cannot detect platform from installer: "
                          +:+ Fs.name installer_path)).

(** What the variable [src] of [copy_api_files] holds: a [Path], or the
    [str] of the [else ""] branch. *)
Inductive value :=
| PathValue (p : path)
| StrValue (s : string).

(** [dirs[0] if dirs else ""] *)
Definition first_or_empty (dirs : list path) : value :=
  match dirs with
  | d :: _ => PathValue d
  | [] => StrValue ""
  end.

(** [src.exists()]: a [str] has no such method. *)
Definition exists_method (src : value) : M bool :=
  match src with
  | PathValue p => fs ← get_files; ret (exists_ fs p)
  | StrValue _ => raise (AttributeError "'str' object has no attribute 'exists'")
  end.

(** [shutil.copytree(src, dst, dirs_exist_ok=True)] on such a value; a
    [str] is taken as a path relative to the working directory. *)
Definition copytree_value (E : env) (src : value) (dst : path) : M unit :=
  match src with
  | PathValue p => copytree p dst
  | StrValue s => copytree (Path E s) dst
  end.

Section WithEnv.
Variable E : env.

Definition RAYLIB_LIB_DIR : path := PROJECT_ROOT E ++ ["libs"; "raylib"].

Definition extract_installer (installer_path temp_dir : path) : M unit :=
  print (Extracting "archive") ;;
  perform (unpack_archive E installer_path) temp_dir ;;
  print (Extracted "archive").

(** One of the two blocks of [copy_api_files]. *)
Definition copy_component (what : string) (src : value) (dst : path) : M unit :=
  found ← exists_method src;
  if found : bool then
    mkdir_parents (parent dst) ;;
    copytree_value E src dst ;;
    n ← count_entries dst;
    print (Copied what n)
  else print (WarnNotFound what).

Definition copy_api_files (temp_dir : path) (platform : string) : M unit :=
  print CopyingFiles ;;
  config ← config_of platform;
  let api_structure := api config in
  fs ← get_files;
  let inc_src_dirs := rglob fs temp_dir (inc_dir api_structure) in
  let lib_src_dirs := rglob fs temp_dir (lib_dir api_structure) in
  copy_component "Raylib headers"
    (first_or_empty inc_src_dirs)
    (join RAYLIB_LIB_DIR (inc_dir api_structure)) ;;
  copy_component "Raylib libraries"
    (first_or_empty lib_src_dirs)
    (join RAYLIB_LIB_DIR (lib_dir api_structure) ++ [lib_subdir config]).

(** The body of the [try] of [main]. *)
Definition install (installer_path temp_dir : path) (platform : string)
    (delete_installer : bool) : M unit :=
  extract_installer installer_path temp_dir ;;
  copy_api_files temp_dir platform ;;
  print InstallationComplete ;;
  if delete_installer then
    print DeletingInstaller ;;
    unlink installer_path ;;
    print (Deleted (Fs.name installer_path))
  else ret ().

Definition main (argv : list string) : M unit :=
  if bool_decide (length argv < 2 ∨ 3 < length argv) then
    print Usage ;; sys_exit 1
  else
    let installer_path := Path E (argv !!! 1) in
    let delete_installer :=
      bool_decide (length argv = 3)
      && String.eqb (argv !!! 2) "--delete-installer" in
    fs ← get_files;
    if negb (is_file fs installer_path) then
      print (InstallerNotFound installer_path) ;; sys_exit 1
    else
      print Banner ;;
      platform ← try_except
        (platform ← lift (detect_platform installer_path);
         print (InstallerFound (Fs.name installer_path)) ;;
         print (PlatformIs platform) ;;
         ret platform)
        (λ e, match e with ValueError _ => true | _ => false end)
        (λ e, print (ErrorIs e) ;; sys_exit 1);
      temp_dir ← mkdtemp E "temp_raylib_install_";
      print (TempDirectory temp_dir) ;;
      try_finally
        (try_except
           (install installer_path temp_dir platform delete_installer)
           is_Exception
           (λ e, print (ErrorIs e) ;; sys_exit 1))
        (print CleaningUp ;; rmtree temp_dir ;; print TempRemoved).

End WithEnv.

End InstallRaylib.

(* ===================================================================== *)
(** * The shape the two installers share *)
(* ===================================================================== *)

(** The two installers have the same [main] up to platform detection,
    the prefix of the temporary directory, extraction and the copy step.
    [Shape] writes that common text once, over these four parts, and
    [Script] names the parts of each installer; that each [main] is this
    shape at its parts holds by unfolding (lemma [main_shape]). *)

Module Shape.
Import Fs Run.

(** The body of the [try] of [main]. *)
Definition install (extract : path → path → string → M unit)
    (copy_api_files : path → string → M unit)
    (installer_path temp_dir : path) (platform : string)
    (delete_installer : bool) : M unit :=
  extract installer_path temp_dir platform ;;
  copy_api_files temp_dir platform ;;
  print InstallationComplete ;;
  if delete_installer then
    print DeletingInstaller ;;
    unlink installer_path ;;
    print (Deleted (Fs.name installer_path))
  else ret ().

Definition main (E : env) (detect_platform : path → result string)
    (prefix : string) (install : path → path → string → bool → M unit)
    (argv : list string) : M unit :=
  if bool_decide (length argv < 2 ∨ 3 < length argv) then
    print Usage ;; sys_exit 1
  else
    let installer_path := Path E (argv !!! 1) in
    let delete_installer :=
      bool_decide (length argv = 3)
      && String.eqb (argv !!! 2) "--delete-installer" in
    fs ← get_files;
    if negb (is_file fs installer_path) then
      print (InstallerNotFound installer_path) ;; sys_exit 1
    else
      print Banner ;;
      platform ← try_except
        (platform ← lift (detect_platform installer_path);
         print (InstallerFound (Fs.name installer_path)) ;;
         print (PlatformIs platform) ;;
         ret platform)
        (λ e, match e with ValueError _ => true | _ => false end)
        (λ e, print (ErrorIs e) ;; sys_exit 1);
      temp_dir ← mkdtemp E prefix;
      print (TempDirectory temp_dir) ;;
      try_finally
        (try_except
           (install installer_path temp_dir platform delete_installer)
           is_Exception
           (λ e, print (ErrorIs e) ;; sys_exit 1))
        (print CleaningUp ;; rmtree temp_dir ;; print TempRemoved).

(** What [main] ends with, given what the body of its [try] ended with:
    an [Exception] is reported and turned into exit status 1, anything
    else passes. *)
Definition finish (r1 : result unit) : result unit :=
  match r1 with
  | Ok _ => Ok ()
  | Raise e => if is_Exception e then Raise (SystemExit 1) else Raise e
  end.

End Shape.

Module Script.
Import Fs Run.

Inductive script := install_fmod_api | install_raylib.

Definition main (s : script) : env → list string → M unit :=
  match s with
  | install_fmod_api => InstallFmodApi.main
  | install_raylib => InstallRaylib.main
  end.
Definition detect_platform (s : script) : path → result string :=
  match s with
  | install_fmod_api => InstallFmodApi.detect_platform
  | install_raylib => InstallRaylib.detect_platform
  end.
Definition temp_prefix (s : script) : string :=
  match s with
  | install_fmod_api => "temp_fmod_install_"
  | install_raylib => "temp_raylib_install_"
  end.
Definition extract (s : script) (E : env) (installer_path temp_dir : path)
    (platform : string) : M unit :=
  match s with
  | install_fmod_api =>
      if String.eqb platform "windows" then InstallFmodApi.extract_windows_exe E installer_path temp_dir
      else if String.eqb platform "linux" then InstallFmodApi.extract_linux_tar E installer_path temp_dir
      else if String.eqb platform "mac" then InstallFmodApi.extract_macos_dmg E installer_path temp_dir
      else ret ()
  | install_raylib => InstallRaylib.extract_installer E installer_path temp_dir
  end.
Definition copy_api_files (s : script) (E : env) : path → string → M unit :=
  match s with
  | install_fmod_api => InstallFmodApi.copy_api_files E
  | install_raylib => InstallRaylib.copy_api_files E
  end.

(** [installer_path] and [delete_installer] as [main] computes them from
    the command line. *)
Definition installer_path (E : env) (argv : list string) : path :=
  Path E (argv !!! 1).
Definition delete_installer (argv : list string) : bool :=
  bool_decide (length argv = 3) && String.eqb (argv !!! 2) "--delete-installer".
End Script.

(* ===================================================================== *)
(** * What the specification says, in the terms of the model *)
(* ===================================================================== *)

Module Spec.
Import Fs Run.

(** The lower-cased name of the file contains [marker] and ends in
    [ext]. *)
Definition marked (marker ext : string) (installer_path : path) : Prop :=
  Py.contains marker (Py.lower (Fs.name installer_path)) = true ∧
  Py.endswith (Py.lower (Fs.name installer_path)) ext = true.

Global Instance marked_dec marker ext p : Decision (marked marker ext p).
Proof. unfold marked. apply _. Defined.

(** Detection ends in the platform-detection error. *)
Definition undetected (r : result string) : Prop :=
  ∃ m, r = Raise (ValueError m).

(** The table of the graphics-library installer read row by row, each
    row on its own: a name with the marker and the extension of a row is
    detected as the platform of that row. *)
Definition raylib_rows_alone (installer_path : path) : Prop :=
  (marked "win" ".zip" installer_path →
     InstallRaylib.detect_platform installer_path = Ok "windows") ∧
  (marked "linux" ".tar.gz" installer_path →
     InstallRaylib.detect_platform installer_path = Ok "linux") ∧
  (marked "macos" ".tar.gz" installer_path →
     InstallRaylib.detect_platform installer_path = Ok "mac").

(** The invocation of candidate [c] on the installer completes, or ends
    in one of the two exceptions the loop catches: the program is absent
    ([FileNotFoundError]) or it fails with a non-zero exit status
    ([CalledProcessError], from [check=True]). *)
Definition completes (E : env) (installer_path : path) (c : string) : Prop :=
  raised (run_7z E c installer_path) = None.
Definition fails_or_absent (E : env) (installer_path : path) (c : string) : Prop :=
  raised (run_7z E c installer_path) = Some FileNotFoundError ∨
  raised (run_7z E c installer_path) = Some CalledProcessError.

(** The file system after the candidates [cs] have been run in turn on a
    target directory. *)
Definition after_runs (E : env) (installer_path temp_dir : path)
    (cs : list string) (fs : gmap path kind) : gmap path kind :=
  foldl (λ fs c, graft temp_dir (written (run_7z E c installer_path)) fs) fs cs.

End Spec.

(* ===================================================================== *)
(** * Machines and disks to run the scripts on *)
(* ===================================================================== *)

Module Scenario.
Import Fs Run Script.

(** A machine on which no archive tool is installed, archives unpack to
    nothing and [mkdtemp] draws the names [a], [b]. *)
Definition bare : env :=
  {| cwd := ["work"];
     PROJECT_ROOT := ["proj"];
     tempdir := ["tmp"];
     temp_names := ["a"; "b"];
     unpack_archive := λ _, Outcome [] None;
     run_7z := λ _ _, Outcome [] (Some FileNotFoundError);
     hdiutil_attach := λ _, Outcome [] (Some FileNotFoundError);
     hdiutil_detach := λ _, DetachRaised FileNotFoundError |}.

(** A machine on which [7z] is not on the path, the first fixed 7-Zip
    fails and the second one unpacks the SDK. *)
Definition second_7zip_works : env :=
  {| cwd := ["work"];
     PROJECT_ROOT := ["proj"];
     tempdir := ["tmp"];
     temp_names := ["a"; "b"];
     unpack_archive := λ _, Outcome [] None;
     run_7z := λ exe _,
       if String.eqb exe "7z" then Outcome [] (Some FileNotFoundError)
       else if String.eqb exe "C:\Program Files\7-Zip\7z.exe"
       then Outcome [(["partial"], File)] (Some CalledProcessError)
       else Outcome [(["api"], Dir); (["api"; "core"], Dir);
                     (["api"; "core"; "inc"], Dir);
                     (["api"; "core"; "inc"; "fmod.h"], File)] None;
     hdiutil_attach := λ _, Outcome [] None;
     hdiutil_detach := λ _, Detached |}.

(** A disk with the downloaded archives in the working directory, and a
    tree [api/core/inc] left in the directory of temporary files by some
    other program. *)
Definition disk : gmap path kind :=
  list_to_map
    [ (["tmp"], Dir);
      (["tmp"; "api"], Dir);
      (["tmp"; "api"; "core"], Dir);
      (["tmp"; "api"; "core"; "inc"], Dir);
      (["tmp"; "api"; "core"; "inc"; "stale.h"], File);
      (["work"], Dir);
      (["work"; "raylib-5.5_linux_amd64.tar.gz"], File);
      (["work"; "fmodstudioapi20312linux.tar.gz"], File);
      (["work"; "fmodstudioapi20312win-installer.exe"], File);
      (["proj"], Dir) ].

(** The same disk once [mkdtemp] has made the (empty) temporary
    directory of an installer. *)
Definition fmod_temp : path := ["tmp"; "temp_fmod_install_a"].
Definition raylib_temp : path := ["tmp"; "temp_raylib_install_a"].
Definition disk_with (temp_dir : path) : gmap path kind :=
  <[temp_dir := Dir]> disk.

End Scenario.

(* ===================================================================== *)
(** * What a run may touch, and how its tools may fail *)
(* ===================================================================== *)

Module Frame.
Import Fs Run Script.

(** [q] is [d], above [d] or below [d]. *)
Definition around (d q : path) : Prop := q `prefix_of` d ∨ d `prefix_of` q.

Global Instance around_dec d q : Decision (around d q).
Proof. unfold around. apply _. Defined.


(** The library directory an installer copies into. *)
Definition lib_dir (s : script) (E : env) : path :=
  match s with
  | install_fmod_api => InstallFmodApi.FMOD_LIB_DIR E
  | install_raylib => InstallRaylib.RAYLIB_LIB_DIR E
  end.

(** [m] ends, when it raises, in a subclass of [Exception]. *)
Definition raises_exceptions_only {A} (m : M A) : Prop :=
  ∀ fs e fs' out, m fs = (Raise e, fs', out) → is_Exception e = true.

(** The tools of the machine fail as programs and library calls do: with
    a subclass of [Exception], not with an interrupt or an exit. *)
Definition ordinary (E : env) : Prop :=
  (∀ a e, raised (unpack_archive E a) = Some e → is_Exception e = true) ∧
  (∀ c a e, raised (run_7z E c a) = Some e → is_Exception e = true) ∧
  (∀ a e, raised (hdiutil_attach E a) = Some e → is_Exception e = true) ∧
  (∀ mp e, hdiutil_detach E mp = DetachRaised e → is_Exception e = true).

End Frame.

(* ===================================================================== *)
(** * More machines and disks *)
(* ===================================================================== *)

Module Unpacked.
Import Fs Run Script.

(** The disk of [Scenario] after the graphics-library archive has been
    unpacked into the temporary directory of its installer. *)
Definition raylib_disk : gmap path kind :=
  list_to_map
    [ (["tmp"], Dir);
      (["tmp"; "temp_raylib_install_a"], Dir);
      (["tmp"; "temp_raylib_install_a"; "raylib-5.5_linux_amd64"], Dir);
      (["tmp"; "temp_raylib_install_a"; "raylib-5.5_linux_amd64"; "include"], Dir);
      (["tmp"; "temp_raylib_install_a"; "raylib-5.5_linux_amd64"; "include"; "raylib.h"], File);
      (["tmp"; "temp_raylib_install_a"; "raylib-5.5_linux_amd64"; "lib"], Dir);
      (["tmp"; "temp_raylib_install_a"; "raylib-5.5_linux_amd64"; "lib"; "libraylib.a"], File);
      (["work"], Dir);
      (["work"; "raylib-5.5_linux_amd64.tar.gz"], File);
      (["proj"], Dir) ].

(** A machine with a disk-image tool: the image mounts with one file and
    one directory in it, and unmounts. *)
Definition mac : env :=
  {| cwd := ["work"];
     PROJECT_ROOT := ["proj"];
     tempdir := ["tmp"];
     temp_names := ["a"; "b"];
     unpack_archive := λ _, Outcome [] None;
     run_7z := λ _ _, Outcome [] (Some FileNotFoundError);
     hdiutil_attach := λ _,
       Outcome [(["FMOD Programmers API"], Dir);
                (["FMOD Programmers API"; "api"], Dir);
                (["FMOD Programmers API"; "plugins"], Dir);
                (["FMOD Programmers API"; "plugins"; "resonance_audio"], Dir);
                (["FMOD Programmers API"; "plugins"; "resonance_audio"; "lib"], Dir);
                (["FMOD Programmers API"; "plugins"; "resonance_audio"; "lib";
                  "resonanceaudio.dylib"], File);
                (["README.txt"], File)] None;
     hdiutil_detach := λ _, Detached |}.

(** The counts of the per-file lines of [copy_plugins] in an output. *)
Definition is_copied_line (m : msg) : bool :=
  match m with PluginCopied _ => true | _ => false end.
Definition is_missing_line (m : msg) : bool :=
  match m with PluginNotFound _ _ => true | _ => false end.
Definition copied_lines (out : list msg) : nat :=
  length (List.filter is_copied_line out).
Definition missing_lines (out : list msg) : nat :=
  length (List.filter is_missing_line out).

End Unpacked.

(* ===================================================================== *)
(** * The network, as [requests] shows it to the downloaders *)
(* ===================================================================== *)

Module Web.

(** What [response.json().get(key)] gives: [None] for a key that is
    missing or null, a string, or some other JSON value, of which the
    scripts use the truth value and [str()] only. *)
Inductive jvalue :=
| JNone
| JString (s : string)
| JOther (truth : bool) (text : string).

(** [bool(v)] *)
Definition truthy (v : jvalue) : bool :=
  match v with
  | JNone => false
  | JString s => negb (String.eqb s "")
  | JOther b _ => b
  end.

(** [str(v)], as an f-string and [requests] render a value. *)
Definition str (v : jvalue) : string :=
  match v with
  | JNone => "None"
  | JString s => s
  | JOther _ t => t
  end.

(** The body of a response as [response.json()] reads it. *)
Inductive json :=
| NotJson
| NotAnObject
| Object (fields : Py.dict jvalue).

(** The [content-length] header: absent, not a number, or a number. *)
Inductive length_header :=
| NoLength
| BadLength (s : string)
| Length (n : Z).

Record response := Response {
  status_code : nat;
  text : string;
  body : json;
  content_length : length_header;
  (** the sizes of the chunks [iter_content] yields, in bytes, and the
      error the iteration ends with when the connection breaks *)
  chunks : list nat;
  broken : option string
}.

(** [response.ok], which is also [bool(response)]: [raise_for_status]
    would not raise. *)
Definition ok (r : response) : bool :=
  negb ((400 <=? status_code r)%nat && (status_code r <? 600)%nat).

Inductive method := GET | POST | HEAD.

(** A request as the scripts build it: basic authentication
    ([auth=(user, password)]) and the [Authorization] header when given. *)
Record request := Request {
  meth : method;
  url : string;
  auth : option (string * string);
  authorization : option string;
  stream : bool
}.

(** What comes back: no answer at all (no connection, a timeout, a URL
    that [requests] refuses), or a response. *)
Inductive answer :=
| NoAnswer (m : string)
| Answer (r : response).

End Web.

(* ===================================================================== *)
(** * Processes: the downloaders and the orchestrators at run time *)
(* ===================================================================== *)

Module Proc.
Import Fs.

(** The exceptions the downloaders and the orchestrators meet; all but
    [SystemExit] are subclasses of [Exception].  [HTTPError] and
    [JSONDecodeError] are subclasses of [RequestException], which stands
    here for its other subclasses. *)
Inductive exn :=
| HTTPError (r : Web.response)
| JSONDecodeError
| RequestException (m : string)
| KeyError (k : string)
| ValueError (m : string)
| AttributeError (m : string)
| RuntimeError (m : string)
| FileNotFoundError
| IsADirectoryError
| NotADirectoryError
| SystemExit (code : nat).

Definition is_Exception (e : exn) : bool :=
  match e with
  | SystemExit _ => false
  | _ => true
  end.

(** What is written to standard output, one constructor per message (or
    block of messages) of the sources; the lines of an installer run as a
    child process are those of [Run.msg]. *)
Inductive line :=
| DownloaderUsage
| Unsupported (platform : string)
| Supported (keys : list string)
| Authenticating
| NoToken
| AuthenticationSuccessful
| RequestingLink
| NoUrl
| LinkObtained
| ValidatingLink
| LinkValidated
| Downloading (filename : string)
| Progress (downloaded : nat) (total_size : Z)
| NewLine
| DownloadComplete (filename : string) (file_size : nat)
| HttpErrorIs (e : exn)
| ResponseIs (text : string)
| NetworkErrorIs (e : exn)
| ParsingErrorIs (e : exn)
| UnexpectedErrorIs (e : exn)
| SetupUsage
| SetupHeader (platform version : string) (delete_installer : bool)
| Step1
| Step2
| SetupComplete (delete_installer : bool) (installer_name : string)
| SetupFailed (e : exn)
| Installer (m : Run.msg).

(** The world a process runs in: the files, the requests sent so far and
    the child processes started so far, each with its arguments. *)
Record world := World {
  files : gmap path kind;
  sent : list Web.request;
  started : list (string * list string)
}.

Inductive ended (A : Type) :=
| Returned (a : A)
| Raised (e : exn).
Global Arguments Returned {A} a.
Global Arguments Raised {A} e.

Definition M (A : Type) : Type := world → ended A * world * list line.

Definition ret {A} (a : A) : M A := λ w, (Returned a, w, []).
Definition raise {A} (e : exn) : M A := λ w, (Raised e, w, []).
Definition bind {A B} (m : M A) (k : A → M B) : M B := λ w,
  match m w with
  | (Returned a, w1, out1) =>
      match k a w1 with
      | (r, w2, out2) => (r, w2, out1 ++ out2)
      end
  | (Raised e, w1, out1) => (Raised e, w1, out1)
  end.

Global Instance M_ret : MRet M := @ret.
Global Instance M_bind : MBind M := λ A B k m, bind m k.

(** [try: body except ...: handler]; [catches] tells the exceptions some
    clause takes. *)
Definition try_except {A} (body : M A) (catches : exn → bool)
    (handler : exn → M A) : M A := λ w,
  match body w with
  | (Raised e, w1, out1) =>
      if catches e then
        match handler e w1 with
        | (r, w2, out2) => (r, w2, out1 ++ out2)
        end
      else (Raised e, w1, out1)
  | done => done
  end.

Definition print (l : line) : M unit := λ w, (Returned (), w, [l]).
Definition sys_exit {A} (code : nat) : M A := raise (SystemExit code).

Definition get_files : M (gmap path kind) := λ w, (Returned (files w), w, []).
Definition put_files (fs : gmap path kind) : M unit := λ w,
  (Returned (), World fs (sent w) (started w), []).

(** The exit status of the process; 1 is what the interpreter gives for
    an exception that nothing catches. *)
Definition exit_status {A} (r : ended A) : nat :=
  match r with
  | Returned _ => 0
  | Raised (SystemExit code) => code
  | Raised _ => 1
  end.

(** A whole run of a script as a child process sees it from outside:
    from the arguments and the world to the exit status, the world
    afterwards and what was written. *)
Definition program : Type := list string → world → nat * world * list line.

Definition run_main (main : list string → M unit) : program := λ argv w,
  match main argv w with
  | (r, w', out) => (exit_status r, w', out)
  end.

(** An installer, which works on the files alone. *)
Definition run_installer (main : list string → Run.M unit) : program := λ argv w,
  match main argv (files w) with
  | (r, fs', out) =>
      (Run.exit_status r, World fs' (sent w) (started w), Installer <$> out)
  end.

Section WithWorld.
Variable E : Run.env.
Variable respond : Web.request → Web.answer.

(** [requests.get], [requests.post] and [requests.head] *)
Definition send (r : Web.request) : M Web.response := λ w,
  let w' := World (files w) (sent w ++ [r]) (started w) in
  match respond r with
  | Web.NoAnswer m => (Raised (RequestException m), w', [])
  | Web.Answer resp => (Returned resp, w', [])
  end.

(** [response.raise_for_status()] *)
Definition raise_for_status (r : Web.response) : M unit :=
  if Web.ok r then ret () else raise (HTTPError r).

(** [response.json().get(key)] *)
Definition json_get (r : Web.response) (key : string) : M Web.jvalue :=
  match Web.body r with
  | Web.NotJson => raise JSONDecodeError
  | Web.NotAnObject => raise (AttributeError "object has no attribute 'get'")
  | Web.Object fields => ret (default Web.JNone (Py.get key fields))
  end.

(** [int(response.headers.get('content-length', 0))] *)
Definition total_size_of (r : Web.response) : M Z :=
  match Web.content_length r with
  | Web.NoLength => ret 0%Z
  | Web.BadLength s => raise (ValueError ("invalid literal for int() with base 10: " +:+ s))
  | Web.Length n => ret n
  end.

(** [open(filepath, 'wb')]: the file is made, or emptied when it is
    there; what is written to it afterwards is not modelled. *)
Definition open_wb (p : path) : M unit :=
  fs ← get_files;
  match fs !! p with
  | Some Dir => raise IsADirectoryError
  | Some File => ret ()
  | None =>
      if bool_decide (parent p = []) then put_files (<[p := File]> fs)
      else match fs !! parent p with
           | Some Dir => put_files (<[p := File]> fs)
           | Some File => raise NotADirectoryError
           | None => raise FileNotFoundError
           end
  end.

(** The [for chunk in response.iter_content(...)] loop over the chunks
    still to come, [downloaded] being the count so far. *)
Fixpoint write_chunks (total_size : Z) (chunks : list nat) (downloaded : nat) : M nat :=
  match chunks with
  | [] => ret downloaded
  | chunk :: rest =>
      if bool_decide (chunk ≠ 0) then
        let downloaded := downloaded + chunk in
        (if bool_decide (total_size ≠ 0%Z)
         then print (Progress downloaded total_size) else ret ()) ;;
        write_chunks total_size rest downloaded
      else write_chunks total_size rest downloaded
  end.

(** [download_with_progress], the same function in both downloaders. *)
Definition download_with_progress (url filepath : string) : M nat :=
  response ← send (Web.Request Web.GET url None None true);
  raise_for_status response ;;
  total_size ← total_size_of response;
  open_wb (Run.Path E filepath) ;;
  downloaded ← write_chunks total_size (Web.chunks response) 0;
  match Web.broken response with
  | Some m => raise (RequestException m)
  | None => print NewLine ;; ret downloaded
  end.

(** The four [except] clauses of a downloader's [main], tried in the
    order of the source; each ends in [sys.exit(1)]. *)
Definition report (e : exn) : M unit :=
  match e with
  | HTTPError r =>
      print (HttpErrorIs e) ;;
      print (ResponseIs (if Web.ok r then Web.text r else "No response")) ;;
      sys_exit 1
  | JSONDecodeError | RequestException _ =>
      print (NetworkErrorIs e) ;; sys_exit 1
  | KeyError _ =>
      print (ParsingErrorIs e) ;; sys_exit 1
  | _ =>
      print (UnexpectedErrorIs e) ;; sys_exit 1
  end.

End WithWorld.

End Proc.

Module GetFmodApiRun.
Import Fs Proc.

Definition FMOD_LOGIN_URL : string := "https://www.fmod.com/api-login".
Definition FMOD_DOWNLOAD_BASE : string := "https://www.fmod.com/api-get-download-link".

Section WithWorld.
Variable E : Run.env.
Variable respond : Web.request → Web.answer.

(** The body of the [try] of [main]. *)
Definition fetch (user password download_url filename : string) : M unit :=
  print Authenticating ;;
  login_response ← send respond
    (Web.Request Web.POST FMOD_LOGIN_URL (Some (user, password)) None false);
  raise_for_status login_response ;;
  token ← json_get login_response "token";
  if negb (Web.truthy token) then print NoToken ;; sys_exit 1
  else
    print AuthenticationSuccessful ;;
    print RequestingLink ;;
    link_response ← send respond
      (Web.Request Web.GET download_url None
         (Some ("Bearer " +:+ Web.str token)) false);
    raise_for_status link_response ;;
    url ← json_get link_response "url";
    if negb (Web.truthy url) then print NoUrl ;; sys_exit 1
    else
      print LinkObtained ;;
      print (Downloading filename) ;;
      file_size ← download_with_progress E respond (Web.str url) filename;
      print (DownloadComplete filename file_size).

Definition main (argv : list string) : M unit :=
  if bool_decide (length argv ≠ 5) then
    print DownloaderUsage ;; sys_exit 1
  else
    let user := argv !!! 1 in
    let password := argv !!! 2 in
    let platform := argv !!! 3 in
    let api_version := argv !!! 4 in
    if negb (Py.mem platform GetFmodApi.PLATFORM_CONFIG) then
      print (Unsupported platform) ;;
      print (Supported (Py.keys GetFmodApi.PLATFORM_CONFIG)) ;;
      sys_exit 1
    else
      match Py.get platform GetFmodApi.PLATFORM_CONFIG with
      | None => raise (KeyError platform)
      | Some config =>
          match Py.format (GetFmodApi.filename config) api_version with
          | None => raise (ValueError "format")
          | Some filename =>
              let download_url :=
                FMOD_DOWNLOAD_BASE +:+ "?" +:+
                "path=" +:+ GetFmodApi.path config +:+ "&" +:+
                "filename=" +:+ filename +:+ "&" +:+
                "user=" +:+ user in
              try_except (fetch user password download_url filename)
                is_Exception report
          end
      end.

End WithWorld.

End GetFmodApiRun.

Module GetRaylibRun.
Import Fs Proc.

(** [raylib_releases_base_url.format(version=raylib_version)] *)
Definition base_path (raylib_version : string) : string :=
  "https://github.com/raysan5/raylib/releases/download/" +:+ raylib_version.

Section WithWorld.
Variable E : Run.env.
Variable respond : Web.request → Web.answer.

(** The body of the [try] of [main]. *)
Definition fetch (download_url filename : string) : M unit :=
  print ValidatingLink ;;
  link_response ← send respond
    (Web.Request Web.HEAD download_url None None false);
  raise_for_status link_response ;;
  print LinkValidated ;;
  print (Downloading filename) ;;
  file_size ← download_with_progress E respond download_url filename;
  print (DownloadComplete filename file_size).

Definition main (argv : list string) : M unit :=
  if bool_decide (length argv ≠ 3) then
    print DownloaderUsage ;; sys_exit 1
  else
    let platform := argv !!! 1 in
    let raylib_version := argv !!! 2 in
    if negb (Py.mem platform GetRaylib.PLATFORM_CONFIG) then
      print (Unsupported platform) ;;
      print (Supported (Py.keys GetRaylib.PLATFORM_CONFIG)) ;;
      sys_exit 1
    else
      match Py.get platform GetRaylib.PLATFORM_CONFIG with
      | None => raise (KeyError platform)
      | Some config =>
          match Py.format (GetRaylib.filename config) raylib_version with
          | None => raise (ValueError "format")
          | Some filename =>
              let download_url := base_path raylib_version +:+ "/" +:+ filename in
              try_except (fetch download_url filename) is_Exception report
          end
      end.

End WithWorld.

End GetRaylibRun.

(* ===================================================================== *)
(** * The orchestrators at run time *)
(* ===================================================================== *)

Module Tools.
Import Fs Proc.

Section WithWorld.
Variable E : Run.env.
Variable respond : Web.request → Web.answer.

(** The directory of the scripts, [Path(__file__).parent]: what runs
    when the interpreter is started on a script of that name.  The
    scripts read their arguments from [argv[1]] on; [argv[0]] is given as
    the name of the script. *)
Definition scripts : Py.dict program :=
  [ ("get_fmod_api.py", run_main (GetFmodApiRun.main E respond));
    ("get_raylib.py", run_main (GetRaylibRun.main E respond));
    ("install_fmod_api.py", run_installer (InstallFmodApi.main E));
    ("install_raylib.py", run_installer (InstallRaylib.main E)) ].

(** [subprocess.run([python_exe, script_path] + args)]: the child works on
    the same files and writes to the same output; the interpreter answers
    a script that is not there with status 2. *)
Definition subprocess_run (script_name : string) (args : list string) : M nat := λ w,
  let w0 := World (files w) (sent w) (started w ++ [(script_name, args)]) in
  match Py.get script_name scripts with
  | Some program =>
      match program (script_name :: args) w0 with
      | (returncode, w', out) => (Returned returncode, w', out)
      end
  | None => (Returned 2, w0, [])
  end.

(** [run_command], the same function in both orchestrators. *)
Definition run_command (script_name : string) (args : list string) : M unit :=
  returncode ← subprocess_run script_name args;
  if bool_decide (returncode ≠ 0) then
    raise (RuntimeError (script_name +:+ " failed with exit code "
                         +:+ pretty returncode))
  else ret ().

End WithWorld.

End Tools.

Module SetupFmodApiRun.
Import Fs Proc Tools.

Definition GET_FMOD_API_SCRIPT : string := "get_fmod_api.py".
Definition INSTALL_FMOD_API_SCRIPT : string := "install_fmod_api.py".

Section WithWorld.
Variable E : Run.env.
Variable respond : Web.request → Web.answer.

Definition main (argv : list string) : M unit :=
  if bool_decide (length argv < 5) then
    print SetupUsage ;; sys_exit 1
  else
    let user := argv !!! 1 in
    let password := argv !!! 2 in
    let platform := argv !!! 3 in
    let api_version := argv !!! 4 in
    let delete_installer :=
      bool_decide (5 < length argv)
      && String.eqb (argv !!! 5) "--delete-installer" in
    print (SetupHeader platform api_version delete_installer) ;;
    try_except
      (print Step1 ;;
       run_command E respond GET_FMOD_API_SCRIPT
         [user; password; platform; api_version] ;;
       print Step2 ;;
       match SetupFmodApi.installer_name platform api_version with
       | None => raise (ValueError ("Unknown platform: " +:+ platform))
       | Some installer_name =>
           let install_args :=
             [installer_name]
             ++ (if delete_installer then ["--delete-installer"] else []) in
           run_command E respond INSTALL_FMOD_API_SCRIPT install_args ;;
           print (SetupComplete delete_installer installer_name)
       end)
      is_Exception
      (λ e, print (SetupFailed e) ;; sys_exit 1).

End WithWorld.

End SetupFmodApiRun.

Module SetupRaylibRun.
Import Fs Proc Tools.

Definition GET_RAYLIB_SCRIPT : string := "get_raylib.py".
Definition INSTALL_RAYLIB_SCRIPT : string := "install_raylib.py".

Section WithWorld.
Variable E : Run.env.
Variable respond : Web.request → Web.answer.

Definition main (argv : list string) : M unit :=
  if bool_decide (length argv < 3) then
    print SetupUsage ;; sys_exit 1
  else
    let platform := argv !!! 1 in
    let raylib_version := argv !!! 2 in
    let delete_installer :=
      bool_decide (3 < length argv)
      && String.eqb (argv !!! 3) "--delete-installer" in
    print (SetupHeader platform raylib_version delete_installer) ;;
    try_except
      (print Step1 ;;
       run_command E respond GET_RAYLIB_SCRIPT [platform; raylib_version] ;;
       print Step2 ;;
       match SetupRaylib.installer_name platform raylib_version with
       | None => raise (ValueError ("Unknown platform: " +:+ platform))
       | Some installer_name =>
           let install_args :=
             [installer_name]
             ++ (if delete_installer then ["--delete-installer"] else []) in
           run_command E respond INSTALL_RAYLIB_SCRIPT install_args ;;
           print (SetupComplete delete_installer installer_name)
       end)
      is_Exception
      (λ e, print (SetupFailed e) ;; sys_exit 1).

End WithWorld.

End SetupRaylibRun.

(* ===================================================================== *)
(** * The downloaders and the orchestrators, by name *)
(* ===================================================================== *)

(** The two downloaders and the two orchestrators have the same text up
    to the arguments they take and the tables they read; the properties
    that hold of both are stated over these names. *)

Module Downloader.
Import Fs Proc.

Inductive downloader := get_fmod_api | get_raylib.

Definition main (d : downloader) :
    Run.env → (Web.request → Web.answer) → list string → M unit :=
  match d with
  | get_fmod_api => GetFmodApiRun.main
  | get_raylib => GetRaylibRun.main
  end.

(** The length [sys.argv] must have. *)
Definition argc (d : downloader) : nat :=
  match d with get_fmod_api => 5 | get_raylib => 3 end.

(** [platform] and the version as [main] takes them from [sys.argv]. *)
Definition platform (d : downloader) (argv : list string) : string :=
  match d with get_fmod_api => argv !!! 3 | get_raylib => argv !!! 1 end.
Definition version (d : downloader) (argv : list string) : string :=
  match d with get_fmod_api => argv !!! 4 | get_raylib => argv !!! 2 end.

Definition filename (d : downloader) (argv : list string) : option string :=
  match d with
  | get_fmod_api => GetFmodApi.main_filename (platform d argv) (version d argv)
  | get_raylib => GetRaylib.main_filename (platform d argv) (version d argv)
  end.

(** [platform in PLATFORM_CONFIG] *)
Definition supported (d : downloader) (argv : list string) : bool :=
  match d with
  | get_fmod_api => Py.mem (platform d argv) GetFmodApi.PLATFORM_CONFIG
  | get_raylib => Py.mem (platform d argv) GetRaylib.PLATFORM_CONFIG
  end.

(** A request that carries the password or a token. *)
Definition carries_credentials (r : Web.request) : bool :=
  bool_decide (is_Some (Web.auth r)) || bool_decide (is_Some (Web.authorization r)).

End Downloader.

Module Orchestrator.
Import Fs Proc.

Inductive orchestrator := setup_fmod_api | setup_raylib.

Definition main (o : orchestrator) :
    Run.env → (Web.request → Web.answer) → list string → M unit :=
  match o with
  | setup_fmod_api => SetupFmodApiRun.main
  | setup_raylib => SetupRaylibRun.main
  end.

(** The number of arguments [main] asks for, the script name included. *)
Definition argc (o : orchestrator) : nat :=
  match o with setup_fmod_api => 5 | setup_raylib => 3 end.

Definition downloader (o : orchestrator) : Downloader.downloader :=
  match o with
  | setup_fmod_api => Downloader.get_fmod_api
  | setup_raylib => Downloader.get_raylib
  end.
Definition installer (o : orchestrator) : Script.script :=
  match o with
  | setup_fmod_api => Script.install_fmod_api
  | setup_raylib => Script.install_raylib
  end.

Definition get_script (o : orchestrator) : string :=
  match o with
  | setup_fmod_api => SetupFmodApiRun.GET_FMOD_API_SCRIPT
  | setup_raylib => SetupRaylibRun.GET_RAYLIB_SCRIPT
  end.
Definition install_script (o : orchestrator) : string :=
  match o with
  | setup_fmod_api => SetupFmodApiRun.INSTALL_FMOD_API_SCRIPT
  | setup_raylib => SetupRaylibRun.INSTALL_RAYLIB_SCRIPT
  end.

(** What [main] takes from [sys.argv]. *)
Definition platform (o : orchestrator) (argv : list string) : string :=
  match o with setup_fmod_api => argv !!! 3 | setup_raylib => argv !!! 1 end.
Definition version (o : orchestrator) (argv : list string) : string :=
  match o with setup_fmod_api => argv !!! 4 | setup_raylib => argv !!! 2 end.
Definition delete_installer (o : orchestrator) (argv : list string) : bool :=
  bool_decide (argc o < length argv)
  && String.eqb (argv !!! argc o) "--delete-installer".

(** The arguments handed to the downloader. *)
Definition download_args (o : orchestrator) (argv : list string) : list string :=
  match o with
  | setup_fmod_api => [argv !!! 1; argv !!! 2; argv !!! 3; argv !!! 4]
  | setup_raylib => [argv !!! 1; argv !!! 2]
  end.

Definition installer_name (o : orchestrator) (argv : list string) : option string :=
  match o with
  | setup_fmod_api => SetupFmodApi.installer_name (platform o argv) (version o argv)
  | setup_raylib => SetupRaylib.installer_name (platform o argv) (version o argv)
  end.

(** The arguments handed to the installer. *)
Definition install_args (o : orchestrator) (argv : list string)
    (installer_name : string) : list string :=
  [installer_name]
  ++ (if delete_installer o argv then ["--delete-installer"] else []).

(** The world in which a child process starts. *)
Definition at_start (script_name : string) (args : list string) (w : world) : world :=
  World (files w) (sent w) (started w ++ [(script_name, args)]).

(** The lines an orchestrator prints before it starts the downloader. *)
Definition header (o : orchestrator) (argv : list string) : list line :=
  [SetupHeader (platform o argv) (version o argv) (delete_installer o argv); Step1].

End Orchestrator.

Module Online.
Import Fs Proc.

(** A server that answers every request with status 200; the file comes
    in three chunks, the second of them empty, and its length is
    announced. *)
Definition serving : Web.request → Web.answer := λ r,
  Web.Answer
    {| Web.status_code := 200;
       Web.text := "";
       Web.body := Web.Object [("token", Web.JString "t0k3n");
                               ("url", Web.JString "https://cdn.example/file")];
       Web.content_length := Web.Length 12;
       Web.chunks := [8; 0; 4];
       Web.broken := None |}.

(** A server that refuses the login with status 401. *)
Definition refusing : Web.request → Web.answer := λ r,
  Web.Answer
    {| Web.status_code := 401;
       Web.text := "bad credentials";
       Web.body := Web.NotJson;
       Web.content_length := Web.NoLength;
       Web.chunks := [];
       Web.broken := None |}.

(** A server whose connection breaks after the first chunk of the file. *)
Definition breaking : Web.request → Web.answer := λ r,
  Web.Answer
    {| Web.status_code := 200;
       Web.text := "";
       Web.body := Web.NotJson;
       Web.content_length := Web.NoLength;
       Web.chunks := [8];
       Web.broken := Some "Connection broken" |}.

(** The disk of [Scenario] with nothing sent and nothing started. *)
Definition start : world := World Scenario.disk [] [].

(** A disk with a working directory and a project, and nothing else. *)
Definition fresh : world :=
  World (list_to_map [ (["tmp"], Dir); (["work"], Dir); (["proj"], Dir) ]) [] [].

(** A machine whose archive tool unpacks the graphics library. *)
Definition unpacking : Run.env :=
  {| Run.cwd := ["work"];
     Run.PROJECT_ROOT := ["proj"];
     Run.tempdir := ["tmp"];
     Run.temp_names := ["a"; "b"];
     Run.unpack_archive := λ _,
       Run.Outcome [(["raylib"], Dir);
                    (["raylib"; "include"], Dir);
                    (["raylib"; "include"; "raylib.h"], File);
                    (["raylib"; "lib"], Dir);
                    (["raylib"; "lib"; "libraylib.a"], File)] None;
     Run.run_7z := λ _ _, Run.Outcome [] (Some Run.FileNotFoundError);
     Run.hdiutil_attach := λ _, Run.Outcome [] (Some Run.FileNotFoundError);
     Run.hdiutil_detach := λ _, Run.DetachRaised Run.FileNotFoundError |}.

End Online.

(* ===================================================================== *)
(** * How a downloader conducts itself *)
(* ===================================================================== *)

Module Conduct.
Import Fs Proc.

(** An exception a downloader may end with: [HTTPError] only for a
    response that is not [ok], [SystemExit] only with status 1. *)
Definition mild (e : exn) : Prop :=
  (∀ resp, e = HTTPError resp → Web.ok resp = false) ∧
  (∀ c, e = SystemExit c → c = 1).

(** From [w] to [w'] no process was started, the file system is as it
    was but for a file that may have appeared at [p], the requests sent
    were all [good], and a well-formed file system stayed so. *)
Definition evolves (p : path) (good : Web.request → Prop) (w w' : world) : Prop :=
  started w' = started w ∧
  (∀ q, files w' !! q = files w !! q ∨
        (q = p ∧ files w !! q = None ∧ files w' !! q = Some File)) ∧
  (∃ new, sent w' = sent w ++ new ∧ Forall good new) ∧
  (wf (files w) → wf (files w')).

(** A computation that behaves as a downloader should, whatever the
    network answers: the world evolves as above, a response text is
    printed only as "No response", and an exception it ends with is
    [mild]. *)
Definition tame {A} (p : path) (good : Web.request → Prop) (m : M A) : Prop :=
  ∀ w r w' out, m w = (r, w', out) →
    evolves p good w w' ∧
    (∀ t, ResponseIs t ∈ out → t = "No response") ∧
    (∀ e, r = Raised e → mild e).

(** The requests of [get_fmod_api.py]: the password goes to the login
    address only, the token to the address of the download link only, and
    the request for the file carries neither. *)
Definition fmod_request_ok (user password download_url : string)
    (r : Web.request) : Prop :=
  (∀ c, Web.auth r = Some c →
     c = (user, password) ∧ Web.url r = GetFmodApiRun.FMOD_LOGIN_URL ∧
     Web.meth r = Web.POST) ∧
  (is_Some (Web.authorization r) → Web.url r = download_url) ∧
  (Web.stream r = true → Downloader.carries_credentials r = false).

(** The requests of [get_raylib.py] carry no credentials. *)
Definition raylib_request_ok (r : Web.request) : Prop :=
  Downloader.carries_credentials r = false.

(** The requests either downloader may send. *)
Definition request_ok (d : Downloader.downloader) (argv : list string) (r : Web.request) : Prop :=
  match d with
  | Downloader.get_fmod_api =>
      (∀ c, Web.auth r = Some c →
         c = (argv !!! 1, argv !!! 2) ∧ Web.url r = GetFmodApiRun.FMOD_LOGIN_URL ∧
         Web.meth r = Web.POST) ∧
      (is_Some (Web.authorization r) →
         Py.startswith (Web.url r) GetFmodApiRun.FMOD_DOWNLOAD_BASE = true) ∧
      (Web.stream r = true → Downloader.carries_credentials r = false)
  | Downloader.get_raylib => Downloader.carries_credentials r = false
  end.

End Conduct.

Import Fs Run Script.


(* ===================================================================== *)
(** * Properties of strings *)
(* ===================================================================== *)

Section StringFacts.

Lemma last_char_cons (a : ascii) (s : string) (c : ascii) :
  Py.last_char s = Some c → Py.last_char (String a s) = Some c.
Proof. destruct s; simpl; [discriminate | auto]. Qed.

(** A string that ends in [suf] has the last character of [suf]. *)
Lemma endswith_last_char (s suf : string) (c : ascii) :
  Py.last_char suf = Some c →
  Py.endswith s suf = true → Py.last_char s = Some c.
Proof.
  intros Hc. induction s as [|a s IH]; cbn [Py.endswith].
  - rewrite orb_false_r. intros H%String.eqb_eq. by subst.
  - intros [H%String.eqb_eq | H]%orb_true_iff.
    + by rewrite H.
    + by apply last_char_cons, IH.
Qed.

(** Two extensions with different last characters exclude each other. *)
Lemma endswith_exclusive (s suf1 suf2 : string) (c1 c2 : ascii) :
  Py.last_char suf1 = Some c1 → Py.last_char suf2 = Some c2 → c1 ≠ c2 →
  Py.endswith s suf1 = true → Py.endswith s suf2 = true → False.
Proof.
  intros H1 H2 Hne E1 E2.
  pose proof (endswith_last_char _ _ _ H1 E1).
  pose proof (endswith_last_char _ _ _ H2 E2). congruence.
Qed.

(** [endswith] is the suffix relation. *)
Lemma endswith_spec (s suf : string) :
  Py.endswith s suf = true ↔ ∃ pre, s = pre +:+ suf.
Proof.
  split.
  - induction s as [|a s IH]; cbn [Py.endswith].
    + rewrite orb_false_r. intros H%String.eqb_eq. by exists "".
    + intros [H%String.eqb_eq | H]%orb_true_iff.
      * by exists "".
      * destruct (IH H) as [pre ->]. by exists (String a pre).
  - intros [pre ->]. induction pre as [|a pre IH].
    + change ("" +:+ suf) with suf.
      destruct suf; cbn [Py.endswith]; by rewrite String.eqb_refl.
    + change (String a pre +:+ suf) with (String a (pre +:+ suf)).
      cbn [Py.endswith]. by rewrite IH, orb_true_r.
Qed.

End StringFacts.

(* ===================================================================== *)
(** * File names: downloaders and orchestrators *)
(* ===================================================================== *)

(** C4. For each platform key of each downloader and every version string,
    substituting the version into the platform's filename template gives
    the literal parts of the template around the version; version 20312
    on windows gives [fmodstudioapi20312win-installer.exe]. *)
Theorem filename_template_substitution (v : string) :
  GetFmodApi.main_filename "windows" v = Some ("fmodstudioapi" +:+ v +:+ "win-installer.exe") ∧
  GetFmodApi.main_filename "linux" v = Some ("fmodstudioapi" +:+ v +:+ "linux.tar.gz") ∧
  GetFmodApi.main_filename "mac" v = Some ("fmodstudioapi" +:+ v +:+ "mac-installer.dmg") ∧
  GetRaylib.main_filename "windows" v = Some ("raylib-" +:+ v +:+ "_win64_msvc16.zip") ∧
  GetRaylib.main_filename "linux" v = Some ("raylib-" +:+ v +:+ "_linux_amd64.tar.gz") ∧
  GetRaylib.main_filename "mac" v = Some ("raylib-" +:+ v +:+ "_macos.tar.gz") ∧
  GetFmodApi.main_filename "windows" "20312" = Some "fmodstudioapi20312win-installer.exe".
Proof. repeat split; reflexivity. Qed.

(** The keys the downloaders accept are the three of the table, and no
    other. *)
Lemma get_fmod_api_keys (platform v : string) :
  is_Some (GetFmodApi.main_filename platform v) ↔
  platform ∈ Py.keys GetFmodApi.PLATFORM_CONFIG.
Proof.
  unfold GetFmodApi.main_filename, Py.mem, Py.keys. simpl.
  destruct (String.eqb_spec platform "mac") as [->|?]; [split; [set_solver | by eexists]|].
  destruct (String.eqb_spec platform "linux") as [->|?]; [split; [set_solver | by eexists]|].
  destruct (String.eqb_spec platform "windows") as [->|?]; [split; [set_solver | by eexists]|].
  split; [by intros [? ?] | set_solver].
Qed.

(** The graphics-library orchestrator and its downloader agree on every
    platform and version, also on the platforms both refuse. *)
Lemma setup_raylib_agrees (platform v : string) :
  SetupRaylib.installer_name platform v = GetRaylib.main_filename platform v.
Proof.
  unfold SetupRaylib.installer_name, GetRaylib.main_filename, Py.mem. simpl.
  destruct (String.eqb_spec platform "mac") as [->|?]; [reflexivity|].
  destruct (String.eqb_spec platform "linux") as [->|?]; [reflexivity|].
  destruct (String.eqb_spec platform "windows") as [->|?]; reflexivity.
Qed.

(** The audio-SDK orchestrator and its downloader agree on the two keys
    they share. *)
Lemma setup_fmod_agrees_on_shared_keys (v : string) :
  SetupFmodApi.installer_name "windows" v = GetFmodApi.main_filename "windows" v ∧
  SetupFmodApi.installer_name "linux" v = GetFmodApi.main_filename "linux" v.
Proof. split; reflexivity. Qed.

(** C1. The audio-SDK orchestrator names the macOS platform [apple], its
    downloader names it [mac]: on either key one of the two has a file name
    and the other refuses the platform, so they do not compute the same
    name from the same input, and their key sets differ. *)
Theorem setup_fmod_platform_keys_differ :
  SetupFmodApi.installer_name "apple" "20312" = Some "fmodstudioapi20312mac-installer.dmg" ∧
  GetFmodApi.main_filename "apple" "20312" = None ∧
  GetFmodApi.main_filename "mac" "20312" = Some "fmodstudioapi20312mac-installer.dmg" ∧
  SetupFmodApi.installer_name "mac" "20312" = None ∧
  Py.keys (SetupFmodApi.installer_patterns "20312") = ["windows"; "linux"; "apple"] ∧
  Py.keys GetFmodApi.PLATFORM_CONFIG = ["mac"; "linux"; "windows"].
Proof. repeat split; reflexivity. Qed.

(* ===================================================================== *)
(** * Platform detection *)
(* ===================================================================== *)

Section Detection.
Import Fs Run Spec.

Local Ltac clash_of_extensions :=
  match goal with
  | H1 : Py.endswith ?n ?a = true, H2 : Py.endswith ?n ?b = true |- _ =>
      exfalso; eapply (endswith_exclusive n a b); [reflexivity | reflexivity | | exact H1 | exact H2]; by intros [=]
  end.

(** C5, counterexample: a name with [linux] and [macos] that ends in
    [.tar.gz] carries the marker and the extension of the mac row, and is
    detected as linux. *)
Lemma raylib_rows_alone_fails :
  ¬ raylib_rows_alone ["work"; "raylib-5.5_linux_macos.tar.gz"].
Proof.
  intros (_ & _ & Hmac).
  assert (marked "macos" ".tar.gz" ["work"; "raylib-5.5_linux_macos.tar.gz"]) as Hm
    by (split; reflexivity).
  specialize (Hmac Hm). vm_compute in Hmac. discriminate.
Qed.

(** C5, as amended.  Both installers look at the lower-cased file name
    and try their rows in order.  The audio-SDK installer returns
    [windows], [linux] or [mac] exactly for the names marked
    [win]+[.exe], [linux]+[.tar.gz], [mac]+[.dmg]; the graphics-library
    installer returns [windows] and [linux] exactly for the names marked
    [win]+[.zip] and [linux]+[.tar.gz], and [mac] exactly for the names
    marked [macos]+[.tar.gz] that do not contain [linux].  Each raises the
    detection error exactly for the names no row matches; a name marked
    [win]+[.zip] is not recognised by the audio-SDK installer. *)
Theorem detect_platform_rows (p : path) :
  (InstallFmodApi.detect_platform p = Ok "windows" ↔ marked "win" ".exe" p) ∧
  (InstallFmodApi.detect_platform p = Ok "linux" ↔ marked "linux" ".tar.gz" p) ∧
  (InstallFmodApi.detect_platform p = Ok "mac" ↔ marked "mac" ".dmg" p) ∧
  (undetected (InstallFmodApi.detect_platform p) ↔
     ¬ marked "win" ".exe" p ∧ ¬ marked "linux" ".tar.gz" p ∧ ¬ marked "mac" ".dmg" p) ∧
  (InstallRaylib.detect_platform p = Ok "windows" ↔ marked "win" ".zip" p) ∧
  (InstallRaylib.detect_platform p = Ok "linux" ↔ marked "linux" ".tar.gz" p) ∧
  (InstallRaylib.detect_platform p = Ok "mac" ↔
     marked "macos" ".tar.gz" p ∧ Py.contains "linux" (Py.lower (Fs.name p)) = false) ∧
  (undetected (InstallRaylib.detect_platform p) ↔
     ¬ marked "win" ".zip" p ∧ ¬ marked "linux" ".tar.gz" p ∧ ¬ marked "macos" ".tar.gz" p) ∧
  (marked "win" ".zip" p → undetected (InstallFmodApi.detect_platform p)).
Proof.
  unfold InstallFmodApi.detect_platform, InstallRaylib.detect_platform,
    marked, undetected.
  generalize (Py.lower (Fs.name p)). intros n.
  (* at most one of the four extensions ends the name *)
  destruct (Py.endswith n ".exe") eqn:Eexe, (Py.endswith n ".tar.gz") eqn:Etgz;
    try clash_of_extensions;
    destruct (Py.endswith n ".dmg") eqn:Edmg; try clash_of_extensions;
    destruct (Py.endswith n ".zip") eqn:Ezip; try clash_of_extensions;
    destruct (Py.contains "win" n), (Py.contains "linux" n),
             (Py.contains "mac" n), (Py.contains "macos" n);
    simpl; naive_solver.
Qed.

(** The table at work: an audio-SDK installer for Windows in upper case is
    recognised, and a [.zip] with [win] in its name is not. *)
Lemma detect_platform_rows_witness :
  InstallFmodApi.detect_platform ["work"; "FMODSTUDIOAPI20312WIN-INSTALLER.EXE"]
    = Ok "windows" ∧
  undetected (InstallFmodApi.detect_platform ["work"; "raylib-5.5_win64_msvc16.zip"]).
Proof.
  split.
  - apply (detect_platform_rows ["work"; "FMODSTUDIOAPI20312WIN-INSTALLER.EXE"]).
    split; reflexivity.
  - apply (detect_platform_rows ["work"; "raylib-5.5_win64_msvc16.zip"]).
    split; reflexivity.
Defined.

End Detection.

(* ===================================================================== *)
(** * The computations: inversion and the order of effects *)
(* ===================================================================== *)

Section MonadFacts.
Import Fs Run.

Lemma bind_inv {A B} (m : M A) (k : A → M B) fs r fs' out :
  (m ≫= k) fs = (r, fs', out) →
  (∃ a fs1 out1 out2,
      m fs = (Ok a, fs1, out1) ∧ k a fs1 = (r, fs', out2) ∧ out = out1 ++ out2) ∨
  (∃ e, m fs = (Raise e, fs', out) ∧ r = Raise e).
Proof.
  unfold mbind, M_bind, bind.
  destruct (m fs) as [[[a|e] fs1] out1].
  - destruct (k a fs1) as [[r2 fs2] out2] eqn:Hk. intros [= <- <- <-].
    left. by exists a, fs1, out1, out2.
  - intros [= <- <- <-]. right. by exists e.
Qed.

Lemma bind_ok {A B} (m : M A) (k : A → M B) fs a fs1 out1 :
  m fs = (Ok a, fs1, out1) →
  (m ≫= k) fs = (let '(r, fs2, out2) := k a fs1 in (r, fs2, out1 ++ out2)).
Proof.
  intros H. unfold mbind, M_bind, bind. rewrite H.
  by destruct (k a fs1) as [[??]?].
Qed.

Lemma bind_raise {A B} (m : M A) (k : A → M B) fs e fs1 out1 :
  m fs = (Raise e, fs1, out1) → (m ≫= k) fs = (Raise e, fs1, out1).
Proof. intros H. unfold mbind, M_bind, bind. by rewrite H. Qed.

End MonadFacts.

(* ===================================================================== *)
(** * Extraction of the Windows installer *)
(* ===================================================================== *)

Section SevenZip.
Import Fs Run Spec InstallFmodApi.
Variable E : env.
Variables installer_path temp_dir : path.

Abbreviation completes := (Spec.completes E installer_path).
Abbreviation fails_or_absent := (Spec.fails_or_absent E installer_path).
Abbreviation after_runs := (Spec.after_runs E installer_path temp_dir).

Lemma absent_or_failed_true (c : string) (e : exn) :
  raised (run_7z E c installer_path) = Some e →
  absent_or_failed e = true ↔ fails_or_absent c.
Proof.
  intros He. unfold absent_or_failed, Spec.fails_or_absent. rewrite He.
  rewrite bool_decide_eq_true. naive_solver.
Qed.

(** One candidate: what [perform] leaves. *)
Lemma perform_run (c : string) (fs : gmap path kind) :
  perform (run_7z E c installer_path) temp_dir fs =
  (match raised (run_7z E c installer_path) with
   | Some e => Raise e
   | None => Ok ()
   end,
   graft temp_dir (written (run_7z E c installer_path)) fs, []).
Proof.
  unfold perform, mbind, M_bind, bind, get_files, put_files. simpl.
  by destruct (raised _).
Qed.

(** The loop, from any list of candidates on. *)
Lemma try_seven_zip_order (cands : list string) :
  (∀ c, raised (run_7z E c installer_path) ≠ Some (RuntimeError no_extractor_message)) →
  ∀ fs r fs' out,
    try_seven_zip E cands installer_path temp_dir fs = (r, fs', out) →
    (r = Ok () ↔
       ∃ pre c post, cands = pre ++ c :: post ∧ Forall fails_or_absent pre ∧ completes c) ∧
    (∀ pre c post, cands = pre ++ c :: post → Forall fails_or_absent pre → completes c →
       fs' = after_runs (pre ++ [c]) fs) ∧
    (r = Raise (RuntimeError no_extractor_message) ↔ Forall fails_or_absent cands).
Proof.
  intros Hsub. induction cands as [|c rest IH]; intros fs r fs' out.
  - simpl. intros [= <- <- <-]. split_and!.
    + split; [done|]. intros (pre & c & post & Heq & _). by destruct pre.
    + intros pre c post Heq. by destruct pre.
    + done.
  - cbn [try_seven_zip]. unfold try_except.
    destruct (raised (run_7z E c installer_path)) as [e|] eqn:He.
    + (* the invocation ends in an exception *)
      rewrite (bind_raise _ _ fs e (graft temp_dir (written (run_7z E c installer_path)) fs) [])
        by (rewrite perform_run, He; done).
      destruct (absent_or_failed e) eqn:Hcatch.
      * (* caught: on to the next candidate *)
        apply (absent_or_failed_true c e He) in Hcatch.
        destruct (try_seven_zip E rest installer_path temp_dir _) as [[r2 fs2] out2] eqn:Hrest.
        intros [= <- <- <-].
        destruct (IH _ _ _ _ Hrest) as (IHok & IHfs & IHerr). split_and!.
        -- rewrite IHok. split.
           ++ intros (pre & c' & post & -> & Hpre & Hc').
              exists (c :: pre), c', post. split_and!; [done | by constructor | done].
           ++ intros (pre & c' & post & Heq & Hpre & Hc').
              destruct pre as [|c0 pre]; simplify_eq/=.
              { unfold Spec.completes in Hc'. congruence. }
              exists pre, c', post. by inversion Hpre.
        -- intros pre c' post Heq Hpre Hc'.
           destruct pre as [|c0 pre]; simplify_eq/=.
           { unfold Spec.completes in Hc'. congruence. }
           inversion Hpre; subst. by apply (IHfs pre c' post).
        -- rewrite IHerr. split; [by constructor | by inversion 1].
      * (* not caught: the exception leaves the function *)
        assert (¬ fails_or_absent c) as Hnot.
        { intros Hf. apply (absent_or_failed_true c e He) in Hf. congruence. }
        intros [= <- <- <-]. split_and!.
        -- split; [done|]. intros (pre & c' & post & Heq & Hpre & Hc').
           destruct pre as [|c0 pre]; simplify_eq/=.
           { unfold Spec.completes in Hc'. congruence. }
           by inversion Hpre.
        -- intros pre c' post Heq Hpre Hc'.
           destruct pre as [|c0 pre]; simplify_eq/=.
           { unfold Spec.completes in Hc'. congruence. }
           by inversion Hpre.
        -- split; [intros [= ->]; by destruct (Hsub c) | by inversion 1].
    + (* the invocation completes: the function returns *)
      rewrite (bind_ok _ _ fs () (graft temp_dir (written (run_7z E c installer_path)) fs) [])
        by (rewrite perform_run, He; done).
      cbn. intros [= <- <- <-]. split_and!.
      * split; [|done]. intros _. by exists [], c, rest.
      * intros pre c' post Heq Hpre Hc'.
        destruct pre as [|c0 pre]; simplify_eq/=; [done|].
        inversion Hpre as [|?? [Hf|Hf] ?]; congruence.
      * split; [done|]. inversion 1 as [|?? [Hf|Hf] ?]; congruence.
Qed.

End SevenZip.

(* ===================================================================== *)
(** * What the computations leave alone *)
(* ===================================================================== *)

Section Keeps.
Context {A B : Type}.
Implicit Types P Q : path → Prop.

Lemma keeps_weaken P Q (m : M A) :
  (∀ q, Q q → P q) → keeps P m → keeps Q m.
Proof. intros HPQ Hm fs r fs' out q k Hrun Hq. by eapply Hm; [|apply HPQ]. Qed.

Lemma keeps_ret P (a : A) : keeps P (mret a).
Proof. by intros fs r fs' out q k [= <- <- <-]. Qed.

Lemma keeps_ret' P (a : A) : keeps P (ret a).
Proof. by intros fs r fs' out q k [= <- <- <-]. Qed.

Lemma keeps_raise P e : keeps P (raise e : M A).
Proof. by intros fs r fs' out q k [= <- <- <-]. Qed.

Lemma keeps_sys_exit P n : keeps P (sys_exit n : M A).
Proof. apply keeps_raise. Qed.

Lemma keeps_lift P (r : result A) : keeps P (lift r).
Proof. by intros fs r' fs' out q k [= <- <- <-]. Qed.

Lemma keeps_bind P (m : M A) (f : A → M B) :
  keeps P m → (∀ a, keeps P (f a)) → keeps P (m ≫= f).
Proof.
  intros Hm Hf fs r fs' out q k Hrun Hq Hk.
  apply bind_inv in Hrun as [(a & fs1 & o1 & o2 & H1 & H2 & _) | (e & H1 & _)].
  - eapply Hf; [done..|]. by eapply Hm.
  - by eapply Hm.
Qed.

Lemma keeps_try_except P (body : M A) catches handler :
  keeps P body → (∀ e, keeps P (handler e)) →
  keeps P (try_except body catches handler).
Proof.
  intros Hb Hh fs r fs' out q k. unfold try_except.
  destruct (body fs) as [[[a|e] fs1] o1] eqn:Hbody.
  - intros [= <- <- <-]. by eapply Hb.
  - destruct (catches e).
    + destruct (handler e fs1) as [[r2 fs2] o2] eqn:Hhandler.
      intros [= <- <- <-] Hq Hk. eapply Hh; [done..|]. by eapply Hb.
    + intros [= <- <- <-]. by eapply Hb.
Qed.

Lemma keeps_try_finally P (body : M A) final :
  keeps P body → keeps P final → keeps P (try_finally body final).
Proof.
  intros Hb Hf fs r fs' out q k. unfold try_finally.
  destruct (body fs) as [[r1 fs1] o1] eqn:Hbody.
  destruct (final fs1) as [[[[]|e] fs2] o2] eqn:Hfinal;
    intros [= <- <- <-] Hq Hk; (eapply Hf; [done..|]; by eapply Hb).
Qed.

End Keeps.

Lemma keeps_for_each {A} (P : path → Prop) (xs : list A) (body : A → M unit) :
  (∀ x, keeps P (body x)) → keeps P (for_each xs body).
Proof.
  intros Hb. induction xs as [|x xs IH]; simpl.
  - apply keeps_ret'.
  - by apply keeps_bind.
Qed.

Section KeepsPrimitives.
Implicit Types P : path → Prop.

Lemma keeps_print P m : keeps P (print m).
Proof. by intros fs r fs' out q k [= <- <- <-]. Qed.

Lemma keeps_get_files P : keeps P get_files.
Proof. by intros fs r fs' out q k [= <- <- <-]. Qed.

Lemma graft_keeps (dst : path) (ents : list (path * kind))
    (fs : gmap path kind) (q : path) (k : kind) :
  fs !! q = Some k → graft dst ents fs !! q = Some k.
Proof. intros H. unfold graft. by apply lookup_union_Some_l. Qed.

Lemma insert_fresh_keeps (fs : gmap path kind) (p q : path) (v k : kind) :
  fs !! p = None → fs !! q = Some k → <[p := v]> fs !! q = Some k.
Proof. intros Hp Hq. rewrite lookup_insert_ne; [done|]. congruence. Qed.

Local Ltac run_primitive :=
  intros fs r fs' out q k;
  unfold mbind, M_bind, bind, get_files, put_files, raise, ret, mret, M_ret;
  repeat (case_match; simplify_eq/=); intros; simplify_eq/=;
  eauto using graft_keeps, insert_fresh_keeps.

Lemma keeps_mkdir P p : keeps P (mkdir p).
Proof. unfold mkdir. run_primitive. Qed.

Lemma keeps_mkdir_parents P p : keeps P (mkdir_parents p).
Proof. unfold mkdir_parents. run_primitive. Qed.

Lemma keeps_copytree P src dst : keeps P (copytree src dst).
Proof. unfold copytree, mkdir_parents. run_primitive. Qed.

Lemma keeps_copy2 P src dst : keeps P (copy2 src dst).
Proof. unfold copy2. run_primitive. Qed.

Lemma keeps_count_entries P dst : keeps P (count_entries dst).
Proof. unfold count_entries. run_primitive. Qed.

Lemma keeps_perform P o target : keeps P (perform o target).
Proof. unfold perform. run_primitive. Qed.

Lemma keeps_unlink p : keeps (λ q, q ≠ p) (unlink p).
Proof.
  unfold unlink. run_primitive. by rewrite lookup_delete_ne.
Qed.

Lemma keeps_rmtree p : keeps (λ q, ¬ p `prefix_of` q) (rmtree p).
Proof.
  unfold rmtree, prune. run_primitive.
  by apply map_lookup_filter_Some_2.
Qed.

End KeepsPrimitives.

(** Each installer's [main] is the common shape at its own parts. *)
Lemma main_shape (s : script) (E : env) :
  main s E =
  Shape.main E (detect_platform s) (temp_prefix s)
    (Shape.install (extract s E) (copy_api_files s E)).
Proof. by destruct s. Qed.

Section KeepsInstall.
Variable E : env.
Implicit Types P : path → Prop.

Local Ltac keeps_step :=
  first
    [ apply keeps_mkdir | apply keeps_mkdir_parents | apply keeps_copytree
    | apply keeps_copy2 | apply keeps_count_entries | apply keeps_perform
    | apply keeps_print | apply keeps_get_files | apply keeps_ret | apply keeps_ret'
    | apply keeps_raise | apply keeps_lift
    | apply keeps_for_each; intros ?
    | apply keeps_bind; [|intros ?]
    | progress case_match ].

Local Ltac keeps_all := repeat keeps_step.

Lemma keeps_try_seven_zip P cands a t :
  keeps P (InstallFmodApi.try_seven_zip E cands a t).
Proof.
  induction cands as [|c cands IH]; simpl; [apply keeps_raise|].
  apply keeps_try_except; [keeps_all | intros _; apply IH].
Qed.

Lemma keeps_extract_windows_exe P a t :
  keeps P (InstallFmodApi.extract_windows_exe E a t).
Proof. unfold InstallFmodApi.extract_windows_exe. keeps_all. apply keeps_try_seven_zip. Qed.

Lemma keeps_extract_linux_tar P a t :
  keeps P (InstallFmodApi.extract_linux_tar E a t).
Proof. unfold InstallFmodApi.extract_linux_tar. keeps_all. Qed.

Lemma keeps_hdiutil_detach_call mp :
  keeps (λ q, ¬ below mp q) (InstallFmodApi.hdiutil_detach_call E mp).
Proof.
  unfold InstallFmodApi.hdiutil_detach_call. destruct (hdiutil_detach E mp).
  - intros fs r fs' out q k [= <- <- <-] Hq Hk.
    unfold empty_dir. by apply map_lookup_filter_Some_2.
  - apply keeps_ret'.
  - apply keeps_raise.
Qed.

Lemma below_app (t : path) (c : string) (q : path) :
  below (t ++ [c]) q → below t q.
Proof.
  intros [[r ->] Hne]. split.
  - exists ([c] ++ r). by rewrite (assoc_L (++)).
  - intros Heq. apply (f_equal length) in Heq. rewrite !length_app in Heq. simpl in Heq. lia.
Qed.

Lemma keeps_extract_macos_dmg a t :
  keeps (λ q, ¬ below t q) (InstallFmodApi.extract_macos_dmg E a t).
Proof.
  unfold InstallFmodApi.extract_macos_dmg. keeps_all.
  apply keeps_try_finally; [keeps_all|].
  eapply keeps_weaken; [|apply keeps_hdiutil_detach_call].
  intros q Hq Hb. by apply Hq, (below_app t "dmg_mount").
Qed.

Lemma keeps_copy_plugin_files P paths root dst n :
  keeps P (InstallFmodApi.copy_plugin_files paths root dst n).
Proof.
  revert n. induction paths as [|p paths IH]; intros n; simpl; keeps_all; apply IH.
Qed.

Lemma keeps_fmod_copy_api_files P t platform :
  keeps P (InstallFmodApi.copy_api_files E t platform).
Proof.
  unfold InstallFmodApi.copy_api_files, InstallFmodApi.copy_component,
    InstallFmodApi.copy_plugins, InstallFmodApi.config_of.
  keeps_all; apply keeps_copy_plugin_files.
Qed.

Lemma keeps_raylib_copy_api_files P t platform :
  keeps P (InstallRaylib.copy_api_files E t platform).
Proof.
  unfold InstallRaylib.copy_api_files, InstallRaylib.copy_component,
    InstallRaylib.exists_method, InstallRaylib.copytree_value, InstallRaylib.config_of.
  keeps_all.
Qed.

Lemma keeps_extract (s : script) a t platform :
  keeps (λ q, ¬ below t q) (extract s E a t platform).
Proof.
  destruct s; simpl.
  - repeat case_match; auto using keeps_extract_windows_exe,
      keeps_extract_linux_tar, keeps_extract_macos_dmg, keeps_ret'.
  - unfold InstallRaylib.extract_installer. keeps_all.
Qed.

Lemma keeps_copy_api_files (s : script) P t platform :
  keeps P (copy_api_files s E t platform).
Proof. destruct s; [apply keeps_fmod_copy_api_files | apply keeps_raylib_copy_api_files]. Qed.

End KeepsInstall.

(* ===================================================================== *)
(** * Runs of the installers *)
(* ===================================================================== *)

Section FsFacts.


Lemma lookup_prune_Some (t q : path) (k : kind) (fs : gmap path kind) :
  ¬ t `prefix_of` q → fs !! q = Some k → prune t fs !! q = Some k.
Proof. intros Hp Hq. unfold prune. by apply map_lookup_filter_Some_2. Qed.

(** In a well-formed file system the directories above an entry exist. *)
Lemma wf_above (fs : gmap path kind) (p q : path) (k : kind) :
  wf fs → fs !! p = Some k → below q p → q ≠ [] → fs !! q = Some Dir.
Proof.
  intros Hwf Hp [[r ->] Hne] Hq.
  assert (r ≠ []) as Hr by (intros ->; by rewrite app_nil_r in Hne).
  specialize (Hwf _ _ Hp). simpl in Hwf.
  rewrite Forall_forall in Hwf.
  apply (Hwf (q, Dir)).
  unfold ancestors, parent. rewrite removelast_app by done.
  assert (0 < length q) by (destruct q; [done | simpl; lia]).
  apply list_elem_of_fmap. exists (pred (length q)). split.
  - f_equal. replace (S (pred (length q))) with (length q) by lia.
    by rewrite take_app_length.
  - apply elem_of_seq. rewrite length_app. lia.
Qed.

(** An entry that exists does not lie under a directory that does not. *)
Lemma wf_not_under (fs : gmap path kind) (p t : path) (k : kind) :
  wf fs → fs !! p = Some k → fs !! t = None → t ≠ [] → ¬ t `prefix_of` p.
Proof.
  intros Hwf Hp Ht Hne Hpre.
  destruct (decide (t = p)) as [->|Hneq]; [congruence|].
  assert (fs !! t = Some Dir) by (eapply wf_above; [done..| by split |done]).
  congruence.
Qed.

Lemma mkdtemp_run (E : env) (prefix : string) (fs : gmap path kind) :
  (∃ n, let t : path := tempdir E ++ [prefix +:+ n] in
        mkdtemp E prefix fs = (Ok t, <[t := Dir]> fs, []) ∧ fs !! t = None) ∨
  mkdtemp E prefix fs = (Raise FileExistsError, fs, []).
Proof.
  unfold mkdtemp, mbind, M_bind, bind, get_files. simpl.
  destruct (List.find _ (temp_names E)) as [n|] eqn:Hfind.
  - left. exists n. split; [done|].
    apply find_some in Hfind as [_ Hfresh].
    apply negb_true_iff, bool_decide_eq_false in Hfresh.
    by apply eq_None_not_Some.
  - by right.
Qed.

End FsFacts.

Section InstallRun.
Variable extract : path → path → string → M unit.
Variable copy_api_files : path → string → M unit.
Variables a t : path.
Variable platform : string.
Hypothesis keeps_extract : keeps (λ q, ¬ below t q) (extract a t platform).
Hypothesis keeps_copy : keeps (λ q, ¬ below t q) (copy_api_files t platform).

(** The body of the [try] leaves alone what is neither in the temporary
    directory nor the installer. *)
Lemma keeps_install (del : bool) :
  keeps (λ q, ¬ below t q ∧ q ≠ a)
    (Shape.install extract copy_api_files a t platform del).
Proof.
  unfold Shape.install.
  apply keeps_bind; [by eapply keeps_weaken; [|apply keeps_extract]; intros ? []|intros _].
  apply keeps_bind; [by eapply keeps_weaken; [|apply keeps_copy]; intros ? []|intros _].
  apply keeps_bind; [apply keeps_print|intros _].
  destruct del; [|apply keeps_ret'].
  apply keeps_bind; [apply keeps_print|intros _].
  apply keeps_bind; [|intros _; apply keeps_print].
  eapply keeps_weaken; [|apply keeps_unlink]. by intros ? [].
Qed.

(** The installer is still there after the body of the [try], unless the
    deletion was asked for and every step before it returned. *)
Lemma install_run (del : bool) (fs0 fs1 : gmap path kind) r1 out1 :
  Shape.install extract copy_api_files a t platform del fs0 = (r1, fs1, out1) →
  fs0 !! a = Some File → ¬ below t a →
  (fs1 !! a = Some File ∧ (r1 = Ok () → del = false)) ∨
  (fs1 !! a = None ∧ del = true ∧ r1 = Ok () ∧ InstallationComplete ∈ out1).
Proof.
  intros Hrun Ha Hout. unfold Shape.install in Hrun.
  apply bind_inv in Hrun as [([] & fsA & oA & oA' & HA & Hrun & ->) | (e & HA & ->)];
    [|left; split; [by eapply keeps_extract|done]].
  assert (fsA !! a = Some File) as HaA by (by eapply keeps_extract).
  apply bind_inv in Hrun as [([] & fsB & oB & oB' & HB & Hrun & ->) | (e & HB & ->)];
    [|left; split; [by eapply keeps_copy|done]].
  assert (fsB !! a = Some File) as HaB by (by eapply keeps_copy).
  apply bind_inv in Hrun as [([] & fsC & oC & oC' & [= <- <-] & Hrun & ->) | (e & [=] & _)].
  destruct del.
  - right.
    revert Hrun. unfold unlink, mbind, M_bind, bind, get_files, put_files, print.
    simpl. rewrite HaB. simpl. intros [= <- <- <-].
    split_and!; [by rewrite lookup_delete_eq|done|done|set_solver].
  - left. injection Hrun as <- <- <-. done.
Qed.

End InstallRun.

Section MainRun.
Variable E : env.
Variable detect : path → result string.
Variable prefix : string.
Variable install : path → path → string → bool → M unit.
Hypothesis detect_total :
  ∀ p, (∃ pf, detect p = Ok pf) ∨ Spec.undetected (detect p).
Hypothesis keeps_install :
  ∀ a t pf del, keeps (λ q, ¬ below t q ∧ q ≠ a) (install a t pf del).

Lemma main_run (argv : list string) (fs fs' : gmap path kind) r out :
  Shape.main E detect prefix install argv fs = (r, fs', out) →
  let a := installer_path E argv in
  (fs' = fs ∧ exit_status r = 1 ∧
     ((length argv < 2 ∨ 3 < length argv) ∨ is_file fs a = false ∨
      Spec.undetected (detect a) ∨
      mkdtemp E prefix fs = (Raise FileExistsError, fs, []))) ∨
  (∃ pf t r1 fs1 out1,
     (2 ≤ length argv ≤ 3) ∧ fs !! a = Some File ∧ detect a = Ok pf ∧
     mkdtemp E prefix fs = (Ok t, <[t := Dir]> fs, []) ∧
     fs !! t = None ∧ t ≠ [] ∧
     install a t pf (delete_installer argv) (<[t := Dir]> fs) = (r1, fs1, out1) ∧
     fs1 !! t = Some Dir ∧
     fs' = prune t fs1 ∧ r = Shape.finish r1 ∧ (∀ m, m ∈ out1 → m ∈ out)).
Proof.
  intros Hrun a. unfold Shape.main in Hrun.
  case_bool_decide as Hlen.
  { left. injection Hrun as <- <- <-. auto. }
  fold (installer_path E argv) in Hrun. fold a in Hrun.
  fold (delete_installer argv) in Hrun.
  apply bind_inv in Hrun as [(fs0 & ? & ? & o & [= -> <- <-] & Hrun & ->) | (? & [=] & _)].
  destruct (is_file fs0 a) eqn:Hfile; simpl in Hrun.
  2: { left. injection Hrun as <- <- <-. auto. }
  apply bool_decide_eq_true in Hfile.
  apply bind_inv in Hrun as [([] & ? & ? & o1 & [= <- <-] & Hrun & ->) | (? & [=] & _)].
  apply bind_inv in Hrun as [(pf & fsD & oD & o2 & HD & Hrun & ->) | (e & HD & ->)].
  2: { (* detection failed *)
    left. revert HD. unfold try_except, lift, mbind, M_bind, bind. simpl.
    destruct (detect_total a) as [[pf Hpf] | [m Hm]].
    - rewrite Hpf. simpl. intros [=].
    - rewrite Hm. simpl. intros [= <- <-]. split_and!; [done..|].
      right; right; left. by exists m. }
  assert (fsD = fs0 ∧ detect a = Ok pf) as [-> Hdet].
  { revert HD. unfold try_except, lift, mbind, M_bind, bind. simpl.
    destruct (detect_total a) as [[pf' Hpf] | [m Hm]].
    - rewrite Hpf. simpl. by intros [= <- <- <-].
    - rewrite Hm. simpl. intros [=]. }
  destruct (mkdtemp_run E prefix fs0) as [(n & Hmk & Hfresh) | Hmk];
    simpl in Hmk.
  2: { left. rewrite (bind_raise _ _ _ _ _ _ Hmk) in Hrun.
       injection Hrun as <- <- <-. auto 10. }
  set (t := tempdir E ++ [prefix +:+ n] : path) in *.
  assert (t ≠ []) as Ht by (subst t; by destruct (tempdir E)).
  clearbody t a.
  assert (a ≠ t) as Hat by congruence.
  apply bind_inv in Hrun as [(t' & fsM & oM & oT & HM & HT & ->) | (e & HM & ->)];
    rewrite Hmk in HM; [injection HM as <- <- <- | discriminate].
  apply bind_inv in HT as [([] & ? & ? & o3 & [= <- <-] & HT & ->) | (? & [=] & _)].
  unfold try_finally, try_except in HT.
  destruct (install a t pf (delete_installer argv) (<[t:=Dir]> fs0))
    as [[r1 fs1] out1] eqn:Hinst.
  assert (fs1 !! t = Some Dir) as Htdir.
  { eapply keeps_install; [exact Hinst | | by rewrite lookup_insert_eq].
    split; [|done]. by intros [_ ?]. }
  right. exists pf, t, r1, fs1, out1.
  assert (∀ fsx, (print CleaningUp ≫= λ _, rmtree t ≫= λ _, print TempRemoved) fsx =
            match fsx !! (t : path) with
            | Some Dir => (Ok (), prune t fsx, [CleaningUp; TempRemoved])
            | Some File => (Raise NotADirectoryError, fsx, [CleaningUp])
            | None => (Raise FileNotFoundError, fsx, [CleaningUp])
            end) as Hfinal.
  { intros fsx. unfold rmtree, mbind, M_bind, bind, print, get_files, put_files, raise.
    cbv beta iota. destruct (fsx !! _) as [[]|]; reflexivity. }
  split_and!; try done; try lia.
  - destruct r1 as [[]|e]; [|destruct (is_Exception e) eqn:Hexc].
    + rewrite Hfinal, Htdir in HT. by injection HT as <- <- <-.
    + simpl in HT. rewrite Hfinal, Htdir in HT. by injection HT as <- <- <-.
    + rewrite Hfinal, Htdir in HT. by injection HT as <- <- <-.
  - destruct r1 as [[]|e]; [|destruct (is_Exception e) eqn:Hexc].
    + rewrite Hfinal, Htdir in HT. by injection HT as <- <- <-.
    + simpl in HT. rewrite Hfinal, Htdir in HT. injection HT as <- <- <-.
      simpl. by rewrite Hexc.
    + rewrite Hfinal, Htdir in HT. injection HT as <- <- <-. simpl. by rewrite Hexc.
  - intros m Hm.
    destruct r1 as [[]|e]; [|destruct (is_Exception e) eqn:Hexc].
    + rewrite Hfinal, Htdir in HT. injection HT as <- <- <-. set_solver.
    + simpl in HT. rewrite Hfinal, Htdir in HT. injection HT as <- <- <-. set_solver.
    + rewrite Hfinal, Htdir in HT. injection HT as <- <- <-. set_solver.
Qed.

End MainRun.

Section Instances.
Variable s : script.
Variable E : env.

Lemma detect_platform_total (p : path) :
  (∃ pf, detect_platform s p = Ok pf) ∨ Spec.undetected (detect_platform s p).
Proof.
  destruct s; simpl;
    unfold InstallFmodApi.detect_platform, InstallRaylib.detect_platform,
      Spec.undetected;
    repeat case_match; eauto.
Qed.

Lemma keeps_script_install (a t : path) (pf : string) (del : bool) :
  keeps (λ q, ¬ below t q ∧ q ≠ a)
    (Shape.install (extract s E) (copy_api_files s E) a t pf del).
Proof. apply keeps_install; [apply keeps_extract | apply keeps_copy_api_files]. Qed.

Lemma script_run (argv : list string) (fs fs' : gmap path kind) r out :
  main s E argv fs = (r, fs', out) →
  let a := installer_path E argv in
  (fs' = fs ∧ exit_status r = 1 ∧
     ((length argv < 2 ∨ 3 < length argv) ∨ is_file fs a = false ∨
      Spec.undetected (detect_platform s a) ∨
      mkdtemp E (temp_prefix s) fs = (Raise FileExistsError, fs, []))) ∨
  (∃ pf t r1 fs1 out1,
     (2 ≤ length argv ≤ 3) ∧ fs !! a = Some File ∧ detect_platform s a = Ok pf ∧
     mkdtemp E (temp_prefix s) fs = (Ok t, <[t := Dir]> fs, []) ∧
     fs !! t = None ∧ t ≠ [] ∧
     Shape.install (extract s E) (copy_api_files s E) a t pf
       (delete_installer argv) (<[t := Dir]> fs) = (r1, fs1, out1) ∧
     fs1 !! t = Some Dir ∧
     fs' = prune t fs1 ∧ r = Shape.finish r1 ∧ (∀ m, m ∈ out1 → m ∈ out)).
Proof.
  rewrite main_shape. apply main_run.
  - apply detect_platform_total.
  - apply keeps_script_install.
Qed.

(** What a run does to the installer. *)
Lemma script_run_installer (argv : list string) (fs fs' : gmap path kind) r out :
  wf fs → main s E argv fs = (r, fs', out) →
  let a := installer_path E argv in
  fs !! a = Some File →
  (fs' !! a = Some File ∧ (r = Ok () → delete_installer argv = false)) ∨
  (fs' !! a = None ∧ delete_installer argv = true ∧ r = Ok () ∧
   InstallationComplete ∈ out).
Proof.
  intros Hwf Hrun a Ha.
  apply script_run in Hrun. cbv zeta in Hrun. fold a in Hrun.
  destruct Hrun
    as [(-> & Hst & _) | (pf & t & r1 & fs1 & out1 & _ & _ & _ & _ & Hfresh & Hne
                           & Hinst & Htdir & -> & -> & Hout)].
  { left. split; [done|]. intros ->. done. }
  assert (¬ t `prefix_of` a) as Hnot by (by eapply wf_not_under).
  assert (¬ below t a) as Hnb by (by intros [? _]).
  assert (a ≠ t) as Hat by congruence.
  destruct (install_run _ _ a t pf (keeps_extract E s a t pf)
              (keeps_copy_api_files E s _ t pf) _ _ _ _ _ Hinst)
    as [[Hkept Hok] | (Hgone & Hdel & -> & Hic)];
    [by rewrite lookup_insert_ne | done | |].
  - left. split; [by apply lookup_prune_Some|].
    destruct r1 as [[]|e]; [auto|]. simpl. by destruct (is_Exception e).
  - right. split_and!; [|done|done|by apply Hout].
    unfold prune. apply map_lookup_filter_None_2. by left.
Qed.

End Instances.

(* ===================================================================== *)
(** * The install routine *)
(* ===================================================================== *)

(** C10. When the installer path given on the command line does not name
    an existing file, either installer prints that the installer was not
    found and exits with status 1; the file system is left as it was, so
    no temporary directory was made and the library tree is untouched. *)
Theorem missing_installer_exits_early (s : script) (E : env)
    (argv : list string) (fs : gmap path kind) :
  2 ≤ length argv ≤ 3 →
  is_file fs (installer_path E argv) = false →
  main s E argv fs =
    (Raise (SystemExit 1), fs, [InstallerNotFound (installer_path E argv)]) ∧
  exit_status (main s E argv fs).1.1 = 1.
Proof.
  intros Hlen Hfile.
  assert (main s E argv fs =
    (Raise (SystemExit 1), fs, [InstallerNotFound (installer_path E argv)])) as Heq.
  { rewrite main_shape. unfold Shape.main.
    rewrite bool_decide_eq_false_2 by lia.
    fold (installer_path E argv).
    unfold mbind, M_bind, bind, get_files. by rewrite Hfile. }
  by rewrite Heq.
Qed.

(** On the bare machine, an installer name that is not on the disk. *)
Lemma missing_installer_exits_early_witness :
  main install_fmod_api Scenario.bare ["install_fmod_api.py"; "nowhere-win.exe"]
    Scenario.disk =
    (Raise (SystemExit 1), Scenario.disk,
     [InstallerNotFound ["work"; "nowhere-win.exe"]]) ∧
  exit_status (main install_fmod_api Scenario.bare
                 ["install_fmod_api.py"; "nowhere-win.exe"] Scenario.disk).1.1 = 1.
Proof.
  apply (missing_installer_exits_early install_fmod_api Scenario.bare
           ["install_fmod_api.py"; "nowhere-win.exe"] Scenario.disk).
  - simpl. lia.
  - vm_compute. reflexivity.
Defined.


Lemma triple_eta {A B C} (x : A * B * C) : x = (x.1.1, x.1.2, x.2).
Proof. by destruct x as [[??]?]. Qed.




(** C9. A last argument other than [--delete-installer] changes nothing:
    the run is the run without it, so no usage error is raised and no
    deletion is asked for, and an installer file that was there at the
    start is there at the end. *)
Theorem unknown_flag_is_ignored (s : script) (E : env)
    (script_name installer flag : string) (fs : gmap path kind) :
  flag ≠ "--delete-installer" →
  main s E [script_name; installer; flag] fs = main s E [script_name; installer] fs ∧
  (wf fs → fs !! Path E installer = Some File →
   (main s E [script_name; installer; flag] fs).1.2 !! Path E installer = Some File).
Proof.
  intros Hflag.
  assert (delete_installer [script_name; installer; flag] = false) as Hdel.
  { unfold delete_installer. simpl. by apply String.eqb_neq. }
  split.
  - rewrite !main_shape. unfold Shape.main.
    fold (delete_installer [script_name; installer; flag]).
    fold (delete_installer [script_name; installer]).
    rewrite Hdel. reflexivity.
  - intros Hwf Ha.
    destruct (main s E [script_name; installer; flag] fs) as [[r fs'] out] eqn:Hrun.
    destruct (script_run_installer s E _ fs fs' r out Hwf Hrun Ha)
      as [[Hkept _] | (_ & Hdel' & _)]; [done | congruence].
Qed.

(** [--delete] is not [--delete-installer]. *)
Lemma unknown_flag_is_ignored_witness :
  main install_raylib Scenario.bare
    ["install_raylib.py"; "raylib-5.5_linux_amd64.tar.gz"; "--delete"] Scenario.disk =
  main install_raylib Scenario.bare
    ["install_raylib.py"; "raylib-5.5_linux_amd64.tar.gz"] Scenario.disk ∧
  (main install_raylib Scenario.bare
     ["install_raylib.py"; "raylib-5.5_linux_amd64.tar.gz"; "--delete"] Scenario.disk).1.2
    !! ["work"; "raylib-5.5_linux_amd64.tar.gz"] = Some File.
Proof.
  assert ("--delete" ≠ "--delete-installer") as Hflag by discriminate.
  split.
  - exact (proj1 (unknown_flag_is_ignored install_raylib Scenario.bare
             "install_raylib.py" "raylib-5.5_linux_amd64.tar.gz" "--delete"
             Scenario.disk Hflag)).
  - apply (proj2 (unknown_flag_is_ignored install_raylib Scenario.bare
             "install_raylib.py" "raylib-5.5_linux_amd64.tar.gz" "--delete"
             Scenario.disk Hflag)).
    + apply (bool_decide_eq_true_1 (wf Scenario.disk)). vm_compute. reflexivity.
    + vm_compute. reflexivity.
Defined.

(** C8. [extract_windows_exe] runs the candidates ['7z'], then the 7-Zip of
    [Program Files], then the one of [Program Files (x86)].  It returns
    exactly when some candidate completes after all candidates before it
    were absent or failed, and then no later candidate has been run; it
    raises the [RuntimeError] that names 7-Zip and tells how to install it
    exactly when every candidate is absent or fails.  ([subprocess.run]
    itself does not raise that [RuntimeError].) *)
Theorem extract_windows_exe_order (E : env) (installer_path temp_dir : path)
    (fs fs' : gmap path kind) r out :
  (∀ c, raised (run_7z E c installer_path)
        ≠ Some (RuntimeError InstallFmodApi.no_extractor_message)) →
  InstallFmodApi.extract_windows_exe E installer_path temp_dir fs = (r, fs', out) →
  InstallFmodApi.seven_zip_paths =
    ["7z"; "C:\Program Files\7-Zip\7z.exe"; "C:\Program Files (x86)\7-Zip\7z.exe"] ∧
  (r = Ok () ↔
     ∃ pre c post, InstallFmodApi.seven_zip_paths = pre ++ c :: post ∧
       Forall (Spec.fails_or_absent E installer_path) pre ∧
       Spec.completes E installer_path c) ∧
  (∀ pre c post, InstallFmodApi.seven_zip_paths = pre ++ c :: post →
     Forall (Spec.fails_or_absent E installer_path) pre →
     Spec.completes E installer_path c →
     fs' = Spec.after_runs E installer_path temp_dir (pre ++ [c]) fs) ∧
  (r = Raise (RuntimeError InstallFmodApi.no_extractor_message) ↔
     Forall (Spec.fails_or_absent E installer_path) InstallFmodApi.seven_zip_paths) ∧
  Py.contains "7-Zip" InstallFmodApi.no_extractor_message = true ∧
  Py.contains "https://www.7-zip.org/download.html"
    InstallFmodApi.no_extractor_message = true.
Proof.
  intros Hsub Hrun. unfold InstallFmodApi.extract_windows_exe in Hrun.
  apply bind_inv in Hrun as [([] & ? & ? & o & [= <- <-] & Hrun & ->) | (? & [=] & _)].
  destruct (try_seven_zip_order E installer_path temp_dir _ Hsub _ _ _ _ Hrun)
    as (Hok & Hfs & Herr).
  split_and!; try done.
Qed.

(** ['7z'] is absent, the first fixed 7-Zip fails, the second completes:
    the function returns. *)
Lemma extract_windows_exe_order_witness :
  (InstallFmodApi.extract_windows_exe Scenario.second_7zip_works
     ["work"; "fmodstudioapi20312win-installer.exe"] Scenario.fmod_temp
     (Scenario.disk_with Scenario.fmod_temp)).1.1 = Ok ().
Proof.
  refine (proj2 (proj1 (proj2 (extract_windows_exe_order Scenario.second_7zip_works
    ["work"; "fmodstudioapi20312win-installer.exe"] Scenario.fmod_temp
    (Scenario.disk_with Scenario.fmod_temp) _ _ _ _ (triple_eta _)))) _).
  - intros c. simpl. repeat case_match; discriminate.
  - exists ["7z"; "C:\Program Files\7-Zip\7z.exe"],
      "C:\Program Files (x86)\7-Zip\7z.exe", [].
    split_and!; [reflexivity | | reflexivity].
    constructor; [left; reflexivity | constructor; [right; reflexivity | constructor]].
Defined.

(* ===================================================================== *)
(** * The copy step *)
(* ===================================================================== *)

(** Without an entry named [api] below the temporary directory, the
    source root of the audio-SDK installer is the parent of the temporary
    directory. *)
Lemma source_root_without_api (fs : gmap path kind) (temp_dir : path) :
  rglob fs temp_dir "api" = [] →
  InstallFmodApi.source_root fs temp_dir = parent temp_dir.
Proof.
  intros H. unfold InstallFmodApi.source_root, InstallFmodApi.api_dirs.
  by rewrite H.
Qed.

(** C2. With an empty temporary directory [/tmp/temp_fmod_install_a], no
    entry named [api] is found, [api_dirs] becomes the list holding the
    temporary directory, and the source root is its parent [/tmp], not the
    temporary directory; the core headers are then looked up at
    [/tmp/api/core/inc], and what another program left there is copied
    into the library tree. *)
Theorem source_root_is_parent_of_temp_dir :
  rglob (Scenario.disk_with Scenario.fmod_temp) Scenario.fmod_temp "api" = [] ∧
  InstallFmodApi.source_root (Scenario.disk_with Scenario.fmod_temp) Scenario.fmod_temp
    = ["tmp"] ∧
  InstallFmodApi.source_root (Scenario.disk_with Scenario.fmod_temp) Scenario.fmod_temp
    ≠ Scenario.fmod_temp ∧
  (InstallFmodApi.copy_api_files Scenario.bare Scenario.fmod_temp "linux"
     (Scenario.disk_with Scenario.fmod_temp)).1.2
    !! ["proj"; "libs"; "fmod"; "core"; "inc"; "stale.h"] = Some File.
Proof.
  split; [vm_compute; reflexivity|].
  split; [vm_compute; reflexivity|].
  split; [vm_compute; discriminate|].
  vm_compute; reflexivity.
Qed.

(** With nothing named [include] below the temporary directory, the copy
    step of the graphics-library installer raises [AttributeError] on
    every supported platform. *)
Lemma raylib_copy_without_include (E : env) (fs : gmap path kind)
    (temp_dir : path) (platform : string) :
  platform ∈ Py.keys InstallRaylib.PLATFORM_CONFIG →
  rglob fs temp_dir "include" = [] →
  InstallRaylib.copy_api_files E temp_dir platform fs =
    (Raise (AttributeError "'str' object has no attribute 'exists'"), fs, [CopyingFiles]).
Proof.
  intros Hp Hglob.
  assert (platform = "windows" ∨ platform = "linux" ∨ platform = "mac") as Hcases
    by (simpl in Hp; set_solver).
  unfold InstallRaylib.copy_api_files, InstallRaylib.copy_component,
    InstallRaylib.config_of, mbind, M_bind, bind, print, get_files.
  destruct Hcases as [-> | [-> | ->]]; simpl; by rewrite Hglob.
Qed.

(** C3. With an empty temporary directory the copy step of the
    graphics-library installer does not warn: on each supported platform
    it raises [AttributeError], since [src] is the string [""], and the run
    of the script ends with status 1 after printing that error.  The copy
    step of the audio-SDK installer, which looks below the parent of the
    temporary directory, adds a file to the library tree. *)
Theorem empty_workspace_copy_step :
  (InstallRaylib.copy_api_files Scenario.bare Scenario.raylib_temp "windows"
     (Scenario.disk_with Scenario.raylib_temp)).1.1
    = Raise (AttributeError "'str' object has no attribute 'exists'") ∧
  (InstallRaylib.copy_api_files Scenario.bare Scenario.raylib_temp "linux"
     (Scenario.disk_with Scenario.raylib_temp)).1.1
    = Raise (AttributeError "'str' object has no attribute 'exists'") ∧
  (InstallRaylib.copy_api_files Scenario.bare Scenario.raylib_temp "mac"
     (Scenario.disk_with Scenario.raylib_temp)).1.1
    = Raise (AttributeError "'str' object has no attribute 'exists'") ∧
  (main install_raylib Scenario.bare
     ["install_raylib.py"; "raylib-5.5_linux_amd64.tar.gz"] Scenario.disk).1.1
    = Raise (SystemExit 1) ∧
  (main install_raylib Scenario.bare
     ["install_raylib.py"; "raylib-5.5_linux_amd64.tar.gz"] Scenario.disk).2
    = [ Banner; InstallerFound "raylib-5.5_linux_amd64.tar.gz"; PlatformIs "linux";
        TempDirectory Scenario.raylib_temp;
        Extracting "archive"; Extracted "archive"; CopyingFiles;
        ErrorIs (AttributeError "'str' object has no attribute 'exists'");
        CleaningUp; TempRemoved ] ∧
  Scenario.disk !! ["proj"; "libs"; "fmod"; "core"; "inc"; "stale.h"] = None ∧
  (InstallFmodApi.copy_api_files Scenario.bare Scenario.fmod_temp "linux"
     (Scenario.disk_with Scenario.fmod_temp)).1.2
    !! ["proj"; "libs"; "fmod"; "core"; "inc"; "stale.h"] = Some File.
Proof.
  split; [vm_compute; reflexivity|].
  split; [vm_compute; reflexivity|].
  split; [vm_compute; reflexivity|].
  split; [vm_compute; reflexivity|].
  split; [vm_compute; reflexivity|].
  split; vm_compute; reflexivity.
Qed.

(** On a disk where the parent of the temporary directory holds no [api]
    tree, the audio-SDK copy step on an empty temporary directory warns
    five times over and adds directories only. *)
Lemma fmod_copy_empty_workspace_warns :
  let fs := delete ["tmp"; "api"; "core"; "inc"] (Scenario.disk_with Scenario.fmod_temp) in
  let run := InstallFmodApi.copy_api_files Scenario.bare Scenario.fmod_temp "linux" fs in
  run.1.1 = Ok () ∧
  run.2 = [ CopyingFiles; WarnNotFound "Core headers"; WarnNotFound "Core libraries";
            WarnNotFound "Studio headers"; WarnNotFound "Studio libraries";
            CopyingPlugins 1;
            PluginNotFound "resonanceaudio.so" "plugins/resonance_audio/lib/resonanceaudio.so";
            CopiedPlugins 0 1 ] ∧
  filter (λ e, e.2 = File) (map_to_list run.1.2)
    = filter (λ e, e.2 = File) (map_to_list fs).
Proof.
  split; [vm_compute; reflexivity|].
  split; vm_compute; reflexivity.
Qed.

(* ===================================================================== *)
(** * From the downloaded name to the detected platform *)
(* ===================================================================== *)

Section MoreStringFacts.

Lemma app_cons (a : ascii) (s t : string) : String a s +:+ t = String a (s +:+ t).
Proof. reflexivity. Qed.


Lemma app_assoc_string (a b c : string) : (a +:+ b) +:+ c = a +:+ (b +:+ c).
Proof. induction a as [|x a IH]; [done|]. by rewrite !app_cons, IH. Qed.

Lemma lower_app (a b : string) : Py.lower (a +:+ b) = Py.lower a +:+ Py.lower b.
Proof. induction a as [|x a IH]; [done|]. rewrite app_cons. simpl. by rewrite IH. Qed.

Lemma contains_app_r (sub a b : string) :
  Py.contains sub b = true → Py.contains sub (a +:+ b) = true.
Proof.
  intros H. induction a as [|x a IH]; [done|].
  rewrite app_cons. cbn [Py.contains]. rewrite IH. apply orb_true_r.
Qed.

Lemma endswith_app_r (a b suf : string) :
  Py.endswith b suf = true → Py.endswith (a +:+ b) suf = true.
Proof.
  rewrite !endswith_spec. intros [pre ->]. exists (a +:+ pre).
  by rewrite app_assoc_string.
Qed.

(** An extension other than the one a name ends in does not end it. *)
Lemma endswith_other (s suf1 suf2 : string) (c1 c2 : ascii) :
  Py.last_char suf1 = Some c1 → Py.last_char suf2 = Some c2 → c1 ≠ c2 →
  Py.endswith s suf1 = true → Py.endswith s suf2 = false.
Proof.
  intros H1 H2 Hne E1. destruct (Py.endswith s suf2) eqn:E2; [|done].
  by destruct (endswith_exclusive s suf1 suf2 c1 c2).
Qed.



End MoreStringFacts.

Section NameRoundTrip.

(** The names the downloaders can compute. *)
Lemma fmod_filename_cases (platform v n : string) :
  GetFmodApi.main_filename platform v = Some n →
  (platform = "windows" ∧ n = "fmodstudioapi" +:+ v +:+ "win-installer.exe") ∨
  (platform = "linux" ∧ n = "fmodstudioapi" +:+ v +:+ "linux.tar.gz") ∨
  (platform = "mac" ∧ n = "fmodstudioapi" +:+ v +:+ "mac-installer.dmg").
Proof.
  unfold GetFmodApi.main_filename, Py.mem. cbn [Py.get GetFmodApi.PLATFORM_CONFIG].
  destruct (String.eqb_spec platform "mac") as [->|?].
  { intros [= <-]. right; right. by split. }
  destruct (String.eqb_spec platform "linux") as [->|?].
  { intros [= <-]. right; left. by split. }
  destruct (String.eqb_spec platform "windows") as [->|?].
  { intros [= <-]. left. by split. }
  done.
Qed.


Local Ltac ends_in :=
  rewrite !lower_app; do 2 apply endswith_app_r; reflexivity.
Local Ltac has_marker :=
  rewrite !lower_app; do 2 apply contains_app_r; reflexivity.
Local Ltac other_ext E c1 c2 :=
  rewrite (endswith_other _ _ _ c1 c2 eq_refl eq_refl ltac:(by intros [=]) E).

(** X1. The file the audio-SDK downloader writes is recognised by the
    audio-SDK installer as an installer for the platform it was downloaded
    for, whatever the version string. *)
Theorem fmod_download_is_detected (platform v n : string) (p : path) :
  GetFmodApi.main_filename platform v = Some n →
  Fs.name p = n →
  InstallFmodApi.detect_platform p = Ok platform.
Proof.
  intros Hn Hp. unfold InstallFmodApi.detect_platform. rewrite Hp. clear Hp p.
  destruct (fmod_filename_cases _ _ _ Hn) as [[-> ->] | [[-> ->] | [-> ->]]]; clear Hn.
  - (* windows *)
    assert (Py.endswith (Py.lower ("fmodstudioapi" +:+ v +:+ "win-installer.exe")) ".exe" = true)
      as -> by ends_in.
    assert (Py.contains "win" (Py.lower ("fmodstudioapi" +:+ v +:+ "win-installer.exe")) = true)
      as -> by has_marker.
    done.
  - (* linux *)
    assert (Py.endswith (Py.lower ("fmodstudioapi" +:+ v +:+ "linux.tar.gz")) ".tar.gz" = true)
      as E by ends_in.
    rewrite (endswith_other _ ".tar.gz" ".exe" "z" "e" eq_refl eq_refl ltac:(by intros [=]) E).
    rewrite E, !andb_false_r.
    assert (Py.contains "linux" (Py.lower ("fmodstudioapi" +:+ v +:+ "linux.tar.gz")) = true)
      as -> by has_marker.
    done.
  - (* mac *)
    assert (Py.endswith (Py.lower ("fmodstudioapi" +:+ v +:+ "mac-installer.dmg")) ".dmg" = true)
      as E by ends_in.
    rewrite (endswith_other _ ".dmg" ".exe" "g" "e" eq_refl eq_refl ltac:(by intros [=]) E).
    rewrite (endswith_other _ ".dmg" ".tar.gz" "g" "z" eq_refl eq_refl ltac:(by intros [=]) E).
    rewrite E, !andb_false_r.
    assert (Py.contains "mac" (Py.lower ("fmodstudioapi" +:+ v +:+ "mac-installer.dmg")) = true)
      as -> by has_marker.
    done.
Qed.



Lemma fmod_download_is_detected_witness :
  InstallFmodApi.detect_platform ["work"; "fmodstudioapi20312linux.tar.gz"] = Ok "linux".
Proof.
  apply (fmod_download_is_detected "linux" "20312" "fmodstudioapi20312linux.tar.gz");
    reflexivity.
Defined.


End NameRoundTrip.

(* ===================================================================== *)
(** * What a run of an installer changes *)
(* ===================================================================== *)

Section ChangesOnly.
Import Frame.
Implicit Types P Q : path → Prop.














Local Ltac run_primitive :=
  intros fs r fs' out q;
  unfold mbind, M_bind, bind, get_files, put_files, raise, ret, mret, M_ret;
  repeat (case_match; simplify_eq/=); intros; simplify_eq/=.



Lemma around_prefix (d q : path) : q `prefix_of` d → around d q.
Proof. by left. Qed.






End ChangesOnly.

Section ChangesOnlyInstall.
Import Frame.
Variable E : env.

















End ChangesOnlyInstall.

Section InstallFrame.
Import Frame.


(** X3. Nothing that exists before a run of an installer is removed or
    changed by it, except the installer file itself. *)
Theorem install_keeps_what_was_there (s : script) (E : env) (argv : list string)
    (fs fs' : gmap path kind) r out :
  wf fs →
  main s E argv fs = (r, fs', out) →
  ∀ q k, fs !! q = Some k → q ≠ installer_path E argv → fs' !! q = Some k.
Proof.
  intros Hwf Hrun q k Hq Hqa.
  apply script_run in Hrun. cbv zeta in Hrun.
  destruct Hrun
    as [(-> & _) | (pf & t & r1 & fs1 & out1 & _ & _ & _ & _ & Hfresh & Hne
                    & Hinst & _ & -> & _)]; [done|].
  assert (¬ t `prefix_of` q) as Hnot by (by eapply wf_not_under).
  assert (q ≠ t) as Hqt by congruence.
  apply lookup_prune_Some; [done|].
  eapply keeps_script_install; [exact Hinst | | by rewrite lookup_insert_ne].
  split; [by intros [? _] | done].
Qed.


Lemma install_keeps_what_was_there_witness :
  (main install_fmod_api Scenario.second_7zip_works
     ["install_fmod_api.py"; "fmodstudioapi20312win-installer.exe"; "--delete-installer"]
     Scenario.disk).1.2
    !! ["work"; "raylib-5.5_linux_amd64.tar.gz"] = Some File.
Proof.
  refine (install_keeps_what_was_there install_fmod_api Scenario.second_7zip_works
           ["install_fmod_api.py"; "fmodstudioapi20312win-installer.exe"; "--delete-installer"]
           Scenario.disk _ _ _ _ (triple_eta _) _ _ _ _).
  - apply (bool_decide_eq_true_1 (wf Scenario.disk)). vm_compute. reflexivity.
  - vm_compute. reflexivity.
  - vm_compute. discriminate.
Defined.


End InstallFrame.

(* ===================================================================== *)
(** * What the copy step copies *)
(* ===================================================================== *)

Section CopyFacts.

(** The entries of a subtree are the entries of the tree below its root. *)
Lemma elem_of_subtree (fs : gmap path kind) (src rel : path) (k : kind) :
  (rel, k) ∈ subtree fs src ↔ fs !! (src ++ rel) = Some k.
Proof.
  unfold subtree. rewrite list_elem_of_omap. split.
  - intros ([p k'] & Hin & Hf). simpl in Hf.
    destruct (decide (src `prefix_of` p)) as [[r ->]|]; [|done].
    injection Hf as <- <-. rewrite drop_app_length.
    by apply elem_of_map_to_list.
  - intros H. exists (src ++ rel, k). split; [by apply elem_of_map_to_list|].
    simpl. rewrite decide_True by (by eexists). by rewrite drop_app_length.
Qed.

(** Grafting a subtree that does not clash puts every entry of it in
    place. *)
Lemma lookup_graft_subtree (fs0 : gmap path kind) (src dst rel : path) (k : kind) :
  clashes dst (subtree fs0 src) fs0 = false →
  fs0 !! (src ++ rel) = Some k →
  graft dst (subtree fs0 src) fs0 !! (dst ++ rel) = Some k.
Proof.
  intros Hclash Hsrc. unfold graft.
  destruct (fs0 !! (dst ++ rel)) as [k'|] eqn:Hdst.
  - (* already there: of the same kind *)
    apply lookup_union_Some_l. rewrite Hdst. f_equal.
    unfold clashes in Hclash.
    apply not_true_iff_false in Hclash. rewrite existsb_exists in Hclash.
    destruct (decide (k' = k)) as [->|Hne]; [done|].
    exfalso. apply Hclash. exists (rel, k). split.
    + apply list_elem_of_In. by apply elem_of_subtree.
    + simpl. rewrite Hdst. by apply bool_decide_eq_true.
  - rewrite lookup_union_r by done.
    apply elem_of_list_to_map_1'.
    + intros y ([rel' k'] & [= Hrel ->] & Hin)%list_elem_of_fmap.
      simpl in Hrel. apply (inj (dst ++.)) in Hrel as <-.
      apply elem_of_subtree in Hin. congruence.
    + apply list_elem_of_fmap. exists (rel, k). split; [done|].
      by apply elem_of_subtree.
Qed.

(** [copytree] that returns has put every entry of the source at the
    destination. *)
Lemma copytree_copies (src dst : path) (fs fs' : gmap path kind) out :
  copytree src dst fs = (Ok (), fs', out) →
  fs !! src = Some Dir ∧ out = [] ∧
  ∀ rel k, fs !! (src ++ rel) = Some k → fs' !! (dst ++ rel) = Some k.
Proof.
  unfold copytree, mkdir_parents, mbind, M_bind, bind, get_files, put_files, raise, ret.
  destruct (fs !! src) as [[]|] eqn:Hsrc; [done| |done].
  destruct (clashes [] (ancestors dst) fs) eqn:Hanc; [done|].
  set (fs0 := graft [] (ancestors dst) fs).
  destruct (clashes dst (subtree fs0 src) fs0) eqn:Hclash; [done|].
  intros [= <- <-]. split_and!; [done..|].
  intros rel k Hrel. apply lookup_graft_subtree; [done|].
  by apply graft_keeps.
Qed.


(** What [rglob] lists is there. *)
Lemma rglob_exists (fs : gmap path kind) (p q : path) (nm : string) :
  q ∈ rglob fs p nm → is_Some (fs !! q) ∧ below p q ∧ name q = nm.
Proof.
  unfold rglob. intros [[Hb Hn] Hin]%list_elem_of_filter.
  apply list_elem_of_fmap in Hin as ([q' k] & -> & Hin).
  apply elem_of_map_to_list in Hin. simpl in *. eauto.
Qed.

Lemma head_rglob_exists (fs : gmap path kind) (p q : path) (nm : string) :
  head (rglob fs p nm) = Some q → is_Some (fs !! q) ∧ below p q ∧ name q = nm.
Proof.
  intros H. apply rglob_exists. destruct (rglob fs p nm); simplify_eq/=. left.
Qed.

(** [mkdir_parents] removes nothing. *)
Lemma mkdir_parents_run (p : path) (fs fs' : gmap path kind) r out :
  mkdir_parents p fs = (r, fs', out) →
  out = [] ∧ ∀ q k, fs !! q = Some k → fs' !! q = Some k.
Proof.
  unfold mkdir_parents, mbind, M_bind, bind, get_files, put_files, raise.
  destruct (clashes _ _ _); intros [= <- <- <-]; (split; [done|]); [done|].
  intros q k. apply graft_keeps.
Qed.

Lemma copytree_silent (src dst : path) (fs fs' : gmap path kind) r out :
  copytree src dst fs = (r, fs', out) → out = [].
Proof.
  unfold copytree, mkdir_parents, mbind, M_bind, bind, get_files, put_files, raise, ret.
  destruct (fs !! src) as [[]|]; [by intros [= <- <- <-]| |by intros [= <- <- <-]].
  destruct (clashes [] _ fs); [by intros [= <- <- <-]|].
  destruct (clashes dst _ _); by intros [= <- <- <-].
Qed.



Section RaylibCopy.
Variable E : env.

Lemma raylib_copy_component_run (what : string) (src dst : path)
    (fs fs' : gmap path kind) r out :
  is_Some (fs !! src) →
  InstallRaylib.copy_component E what (InstallRaylib.PathValue src) dst fs = (r, fs', out) →
  (∀ q k, fs !! q = Some k → fs' !! q = Some k) ∧
  (∀ w, WarnNotFound w ∉ out) ∧
  (r = Ok () →
     ∀ rel k, fs !! (src ++ rel) = Some k → fs' !! (dst ++ rel) = Some k).
Proof.
  intros Hex Hrun.
  assert (∀ q k, fs !! q = Some k → fs' !! q = Some k) as Hkeep.
  { intros q k Hq. eapply (keeps_bind (λ _, True)); [| |exact Hrun|done|done].
    - unfold InstallRaylib.exists_method.
      apply keeps_bind; [apply keeps_get_files|intros ?; apply keeps_ret].
    - intros []; [|apply keeps_print].
      apply keeps_bind; [apply keeps_mkdir_parents|intros _].
      apply keeps_bind; [apply keeps_copytree|intros _].
      apply keeps_bind; [apply keeps_count_entries|intros ?; apply keeps_print]. }
  split; [done|].
  revert Hrun. unfold InstallRaylib.copy_component, InstallRaylib.exists_method,
    InstallRaylib.copytree_value.
  intros Hrun.
  apply bind_inv in Hrun as [(b & fs0 & ob & o & Hb & Hrun & ->) | (? & Hb & _)].
  2: { revert Hb. unfold mbind, M_bind, bind, get_files. simpl. done. }
  assert (b = true ∧ fs0 = fs ∧ ob = []) as (-> & -> & ->).
  { revert Hb. unfold mbind, M_bind, bind, get_files, exists_. simpl.
    rewrite bool_decide_eq_true_2 by done. by intros [= <- <- <-]. }
  apply bind_inv in Hrun as [([] & fs1 & o1 & o1' & Hmk & Hrun & ->) | (? & Hmk & ->)].
  2: { apply mkdir_parents_run in Hmk as [-> _]. split; [set_solver|done]. }
  apply mkdir_parents_run in Hmk as [-> Hkeep1].
  apply bind_inv in Hrun as [([] & fs2 & o2 & o2' & Hcp & Hrun & ->) | (ecp & Hcp & ->)].
  2: { apply copytree_silent in Hcp as ->. split; [set_solver|done]. }
  apply copytree_copies in Hcp as (Hsrc & -> & Hcopies).
  injection Hrun as <- <- <-. split; [set_solver|]. eauto.
Qed.


(** X7. The copy step of the graphics-library installer never prints the
    warning that headers or libraries were not found, however it ends:
    the source of each block is either an entry [rglob] has just listed,
    which exists, or the empty string, on which the existence test
    raises. *)
Theorem raylib_copy_step_never_warns (t : path) (platform what : string)
    (fs fs' : gmap path kind) r out :
  InstallRaylib.copy_api_files E t platform fs = (r, fs', out) →
  WarnNotFound what ∉ out.
Proof.
  unfold InstallRaylib.copy_api_files, InstallRaylib.config_of. intros Hrun.
  apply bind_inv in Hrun as [([] & ? & ? & o0 & [= <- <-] & Hrun & ->) | (? & [=] & _)].
  destruct (Py.get platform InstallRaylib.PLATFORM_CONFIG) as [cfg|] eqn:Hcfg.
  2: { apply bind_inv in Hrun as [(? & ? & ? & ? & [=] & _) | (? & [= <- <-] & ->)].
       set_solver. }
  apply bind_inv in Hrun as [(? & ? & ? & o1 & [= <- <- <-] & Hrun & ->) | (? & [=] & _)].
  apply bind_inv in Hrun as [(fs0 & ? & ? & o2 & [= -> <- <-] & Hrun & ->) | (? & [=] & _)].
  assert (∀ (dirs : list path) dst w fsx r' fsy o,
            (∀ d, head dirs = Some d → is_Some (fsx !! d)) →
            InstallRaylib.copy_component E w (InstallRaylib.first_or_empty dirs) dst fsx
              = (r', fsy, o) →
            (WarnNotFound what ∉ o) ∧
            (∀ q k, fsx !! q = Some k → fsy !! q = Some k)) as Hblock.
  { intros [|d dirs] dst w fsx r' fsy o Hd Hc.
    - revert Hc. unfold InstallRaylib.copy_component, InstallRaylib.exists_method,
        mbind, M_bind, bind, raise. simpl. intros [= <- <- <-]. split; [set_solver|done].
    - simpl in Hc.
      destruct (raylib_copy_component_run _ _ _ _ _ _ _ (Hd d eq_refl) Hc) as (? & ? & _).
      done. }
  apply bind_inv in Hrun as [([] & fs1 & o3 & o4 & H1 & H2 & ->) | (? & H1 & ->)].
  - apply Hblock in H1 as [Hw1 Hk1].
    2: { intros d Hd. by apply head_rglob_exists in Hd as [? _]. }
    apply Hblock in H2 as [Hw2 _].
    2: { intros d Hd. apply head_rglob_exists in Hd as [[k Hk] _]. eauto. }
    set_solver.
  - apply Hblock in H1 as [Hw1 _].
    2: { intros d Hd. by apply head_rglob_exists in Hd as [? _]. }
    set_solver.
Qed.

End RaylibCopy.



End CopyFacts.



Lemma raylib_copy_step_never_warns_witness :
  WarnNotFound "Raylib headers" ∉
    (InstallRaylib.copy_api_files Scenario.bare Scenario.raylib_temp "linux"
       Unpacked.raylib_disk).2.
Proof.
  apply (raylib_copy_step_never_warns Scenario.bare Scenario.raylib_temp "linux"
           "Raylib headers" Unpacked.raylib_disk _ _ _ (triple_eta _)).
Defined.

Lemma try_finally_inv {A} (body : M A) (final : M unit) fs r fs' out :
  try_finally body final fs = (r, fs', out) →
  ∃ r1 fs1 out1 r2 out2,
    body fs = (r1, fs1, out1) ∧ final fs1 = (r2, fs', out2) ∧ out = out1 ++ out2 ∧
    r = match r2 with Ok _ => r1 | Raise e => Raise e end.
Proof.
  unfold try_finally. destruct (body fs) as [[r1 fs1] out1].
  destruct (final fs1) as [[[[]|e] fs2] out2] eqn:Hf; intros [= <- <- <-].
  - by exists r1, fs1, out1, (Ok ()), out2.
  - by exists r1, fs1, out1, (Raise e), out2.
Qed.

Section Dmg.
Import InstallFmodApi.
Variable E : env.

Lemma lookup_empty_dir_below (mp q : path) (fs : gmap path kind) :
  below mp q → empty_dir mp fs !! q = None.
Proof. intros Hq. unfold empty_dir. apply map_lookup_filter_None_2. right. intros ? _. simpl. auto. Qed.

(** X8. Unmounting the disk image.  When the mount point can be made and
    [hdiutil attach] returns, [hdiutil detach] is run however the copying
    ends: if it unmounts, nothing is left below the mount point
    afterwards; if the call itself raises, that exception is what
    [extract_macos_dmg] ends with. *)
Theorem dmg_detached_after_attach (a t : path) (fs fs' : gmap path kind) r out :
  fs !! t = Some Dir →
  fs !! (t ++ ["dmg_mount"]) ≠ Some File →
  raised (hdiutil_attach E a) = None →
  extract_macos_dmg E a t fs = (r, fs', out) →
  (hdiutil_detach E (t ++ ["dmg_mount"]) = Detached →
     ∀ q, below (t ++ ["dmg_mount"]) q → fs' !! q = None) ∧
  (∀ e, hdiutil_detach E (t ++ ["dmg_mount"]) = DetachRaised e → r = Raise e).
Proof.
  intros Ht Hmp Hattach Hrun. unfold extract_macos_dmg in Hrun.
  set (mp := t ++ ["dmg_mount"] : path) in *.
  apply bind_inv in Hrun as [([] & ? & ? & o0 & [= <- <-] & Hrun & ->) | (? & [=] & _)].
  apply bind_inv in Hrun as [([] & fs1 & o1 & o1' & Hmk & Hrun & ->) | (e & Hmk & ->)].
  2: { exfalso. revert Hmk. unfold mkdir, mbind, M_bind, bind, get_files, put_files, raise.
       destruct (fs !! mp) as [[]|] eqn:Hlook; [done|done|].
       assert (parent mp = t) as -> by (subst mp; unfold parent; by rewrite removelast_last).
       unfold is_dir. rewrite (bool_decide_eq_true_2 (fs !! t = Some Dir)) by done.
       by rewrite orb_true_r. }
  apply bind_inv in Hrun as [([] & fs2 & o2 & o2' & Hat & Hrun & ->) | (e & Hat & ->)].
  2: { exfalso. revert Hat. unfold perform, mbind, M_bind, bind, get_files, put_files.
       rewrite Hattach. done. }
  assert (∀ r3 fs3 o3,
            try_finally
              (fs ← get_files;
               for_each (children fs mp) (λ item,
                 fs ← get_files;
                 if is_dir fs item
                 then copytree item (t ++ [Fs.name item])
                 else copy2 item (t ++ [Fs.name item])))
              (hdiutil_detach_call E mp) fs2 = (r3, fs3, o3) →
            (hdiutil_detach E mp = Detached → ∀ q, below mp q → fs3 !! q = None) ∧
            (∀ e, hdiutil_detach E mp = DetachRaised e → r3 = Raise e)) as Hfin.
  { intros r3 fs3 o3 Htry.
    apply try_finally_inv in Htry as (rb & fsb & ob & rf & ofin & _ & Hf & _ & ->).
    revert Hf. unfold hdiutil_detach_call.
    destruct (hdiutil_detach E mp) eqn:Hdet.
    - unfold mbind, M_bind, bind, get_files, put_files. intros [= <- <- <-].
      split; [|done]. intros _ q Hq. by apply lookup_empty_dir_below.
    - done.
    - unfold raise. intros [= <- <- <-]. split; [done|]. by intros ? [= <-]. }
  apply bind_inv in Hrun as [([] & fs3 & o3 & o3' & Htry & Hrun & ->) | (e & Htry & ->)].
  - injection Hrun as <- <- <-. apply Hfin in Htry as [H1 H2]. split; [done|].
    intros e He. by specialize (H2 e He).
  - by apply Hfin in Htry.
Qed.

End Dmg.

(** The image of [Unpacked.mac] mounts with a file [README.txt]; after
    extraction it is in the temporary directory and no longer below the
    mount point. *)
Lemma dmg_detached_after_attach_witness :
  (InstallFmodApi.extract_macos_dmg Unpacked.mac
     ["work"; "fmodstudioapi20312mac-installer.dmg"] Scenario.fmod_temp
     (Scenario.disk_with Scenario.fmod_temp)).1.2
    !! (Scenario.fmod_temp ++ ["dmg_mount"; "README.txt"]) = None.
Proof.
  refine (proj1 (dmg_detached_after_attach Unpacked.mac
            ["work"; "fmodstudioapi20312mac-installer.dmg"] Scenario.fmod_temp
            (Scenario.disk_with Scenario.fmod_temp) _ _ _ _ _ _ (triple_eta _)) _ _ _).
  - vm_compute. reflexivity.
  - vm_compute. discriminate.
  - reflexivity.
  - reflexivity.
  - split; [by eexists|discriminate].
Defined.

Section Plugins.
Import InstallFmodApi Unpacked.

Lemma copied_lines_app (o1 o2 : list msg) :
  copied_lines (o1 ++ o2) = copied_lines o1 + copied_lines o2.
Proof. unfold copied_lines. by rewrite List.filter_app, length_app. Qed.

Lemma missing_lines_app (o1 o2 : list msg) :
  missing_lines (o1 ++ o2) = missing_lines o1 + missing_lines o2.
Proof. unfold missing_lines. by rewrite List.filter_app, length_app. Qed.

Lemma copy2_silent (src dst : path) (fs fs' : gmap path kind) r out :
  copy2 src dst fs = (r, fs', out) → out = [].
Proof.
  unfold copy2, mbind, M_bind, bind, get_files, put_files, raise, ret.
  destruct (fs !! src) as [[]|]; [|by intros [= <- <- <-]..].
  destruct (fs !! _) as [[]|]; [by intros [= <- <- <-]..|].
  destruct (_ || _); by intros [= <- <- <-].
Qed.

(** The loop of [copy_plugins] prints one line for each listed file it
    has dealt with; when it returns, the count is the number of files
    reported as copied and every listed file has its line. *)
Lemma copy_plugin_files_lines (paths : list string) (root dst : path) (c0 : nat)
    (fs fs' : gmap path kind) r out :
  copy_plugin_files paths root dst c0 fs = (r, fs', out) →
  Forall (λ m, is_copied_line m || is_missing_line m) out ∧
  ∀ k, r = Ok k →
    k = c0 + copied_lines out ∧ length paths = copied_lines out + missing_lines out.
Proof.
  revert c0 fs r fs' out. induction paths as [|p paths IH]; intros c0 fs r fs' out Hrun.
  - injection Hrun as <- <- <-. split; [constructor|]. intros k [= <-].
    unfold copied_lines, missing_lines. simpl. lia.
  - cbn [copy_plugin_files] in Hrun.
    apply bind_inv in Hrun as [(fs0 & ? & ? & o & [= -> <- <-] & Hrun & ->) | (? & [=] & _)].
    destruct (exists_ fs0 (join root p)).
    + apply bind_inv in Hrun as [([] & fs1 & o1 & o1' & Hcp & Hrun & ->) | (e & Hcp & ->)].
      2: { apply copy2_silent in Hcp as ->. split; [constructor|done]. }
      apply copy2_silent in Hcp as ->.
      apply bind_inv in Hrun as [([] & ? & ? & o2 & [= <- <-] & Hrun & ->) | (? & [=] & _)].
      apply IH in Hrun as [Hall Hcount]. split; [by constructor|].
      intros k Hk. destruct (Hcount k Hk) as [-> Hlen].
      cbn [app]. unfold copied_lines, missing_lines in *. simpl. lia.
    + apply bind_inv in Hrun as [([] & ? & ? & o2 & [= <- <-] & Hrun & ->) | (? & [=] & _)].
      apply IH in Hrun as [Hall Hcount]. split; [by constructor|].
      intros k Hk. destruct (Hcount k Hk) as [-> Hlen].
      cbn [app]. unfold copied_lines, missing_lines in *. simpl. lia.
Qed.

(** X9. The summary line of [copy_plugins] agrees with the lines before
    it: a run that prints "Copied k/n plugin(s)" has printed exactly [k]
    lines for copied files and [n - k] lines for files not found, so
    [k ≤ n]; and [n] is the number of files configured. *)
Theorem copied_plugins_summary (E : env) (root : path) (platform : string)
    (fs fs' : gmap path kind) r out (k n : nat) :
  copy_plugins E root platform fs = (r, fs', out) →
  CopiedPlugins k n ∈ out →
  k = copied_lines out ∧ n = copied_lines out + missing_lines out ∧
  ∃ cfg paths, Py.get platform PLATFORM_CONFIG = Some cfg ∧
    plugins (api cfg) = Some (PluginSet paths) ∧ n = length paths.
Proof.
  unfold copy_plugins, config_of. intros Hrun Hin.
  destruct (Py.get platform PLATFORM_CONFIG) as [cfg|] eqn:Hcfg.
  2: { apply bind_inv in Hrun as [(? & ? & ? & ? & [=] & _) | (? & [= <- <-] & _)].
       set_solver. }
  apply bind_inv in Hrun as [(? & ? & ? & o & [= <- <- <-] & Hrun & ->) | (? & [=] & _)].
  cbn [app] in Hin.
  destruct (plugins (api cfg)) as [[paths|dir]|] eqn:Hpl.
  - destruct paths as [|p paths].
    { injection Hrun as <- <- <-. set_solver. }
    set (ps := p :: paths) in *. clearbody ps.
    apply bind_inv in Hrun as [([] & ? & ? & o1 & [= <- <-] & Hrun & ->) | (? & [=] & _)].
    apply bind_inv in Hrun as [([] & fs1 & o2 & o2' & Hmk & Hrun & ->) | (e & Hmk & ->)].
    2: { apply mkdir_parents_run in Hmk as [-> _]. set_solver. }
    apply mkdir_parents_run in Hmk as [-> _].
    apply bind_inv in Hrun as [(c & fs2 & o3 & o3' & Hloop & Hrun & ->) | (e & Hloop & ->)].
    2: { apply copy_plugin_files_lines in Hloop as [Hall _].
         exfalso. cbn [app] in Hin. apply elem_of_cons in Hin as [[=]|Hin].
         rewrite Forall_forall in Hall. by specialize (Hall _ Hin). }
    injection Hrun as <- <- <-.
    apply copy_plugin_files_lines in Hloop as [Hall Hcount].
    destruct (Hcount c eq_refl) as [-> Hlen]. cbn [app] in Hin |- *.
    assert (CopiedPlugins k n = CopiedPlugins (0 + copied_lines o3) (length ps)) as [= -> ->].
    { apply elem_of_cons in Hin as [[=]|Hin].
      apply elem_of_app in Hin as [Hin|Hin]; [|by apply list_elem_of_singleton in Hin].
      rewrite Forall_forall in Hall. by specialize (Hall _ Hin). }
    change (CopyingPlugins (length ps) :: o3 ++ [CopiedPlugins (0 + copied_lines o3) (length ps)])
      with ([CopyingPlugins (length ps)] ++ o3 ++ [CopiedPlugins (0 + copied_lines o3) (length ps)]).
    rewrite !copied_lines_app, !missing_lines_app.
    split_and!; [unfold copied_lines; simpl; lia|unfold copied_lines, missing_lines in *; simpl; lia|].
    by exists cfg, ps.
  - exfalso. destruct dir as [|c0 dir].
    { injection Hrun as <- <- <-. set_solver. }
    apply bind_inv in Hrun as [(fs0 & ? & ? & o1 & [= -> <- <-] & Hrun & ->) | (? & [=] & _)].
    destruct (exists_ fs0 _).
    2: { injection Hrun as <- <- <-. set_solver. }
    apply bind_inv in Hrun as [([] & fs1 & o2 & o2' & Hmk & Hrun & ->) | (e & Hmk & ->)];
      apply mkdir_parents_run in Hmk as [-> _]; [|set_solver].
    apply bind_inv in Hrun as [([] & fs2 & o3 & o3' & Hcp & Hrun & ->) | (e & Hcp & ->)];
      apply copytree_silent in Hcp as ->; [|set_solver].
    apply bind_inv in Hrun as [(c & ? & ? & o4 & [= <- <- <-] & Hrun & ->) | (? & [=] & _)].
    injection Hrun as <- <- <-. set_solver.
  - injection Hrun as <- <- <-. set_solver.
Qed.

End Plugins.

(** On the disk of [Scenario] the one plugin configured for Linux is not
    in the source tree: none copied, one configured. *)
Lemma copied_plugins_summary_witness :
  0 = Unpacked.copied_lines
        (InstallFmodApi.copy_plugins Scenario.bare ["tmp"] "linux" Scenario.disk).2 ∧
  1 = Unpacked.copied_lines
        (InstallFmodApi.copy_plugins Scenario.bare ["tmp"] "linux" Scenario.disk).2
      + Unpacked.missing_lines
        (InstallFmodApi.copy_plugins Scenario.bare ["tmp"] "linux" Scenario.disk).2 ∧
  ∃ cfg paths, Py.get "linux" InstallFmodApi.PLATFORM_CONFIG = Some cfg ∧
    InstallFmodApi.plugins (InstallFmodApi.api cfg) = Some (InstallFmodApi.PluginSet paths) ∧
    1 = length paths.
Proof.
  apply (copied_plugins_summary Scenario.bare ["tmp"] "linux" Scenario.disk _ _ _ 0 1
           (triple_eta _)).
  apply list_elem_of_In. vm_compute. auto.
Defined.

Section EarlyExit.

(** X10. When the installer file exists but its name fits no row of the
    detection table, either installer prints the banner and the detection
    error and exits with status 1; nothing has been written: no temporary
    directory is made and none is cleaned up. *)
Theorem undetected_installer_exits_early (s : script) (E : env)
    (argv : list string) (fs : gmap path kind) :
  2 ≤ length argv ≤ 3 →
  fs !! installer_path E argv = Some File →
  Spec.undetected (detect_platform s (installer_path E argv)) →
  main s E argv fs =
    (Raise (SystemExit 1), fs,
     [Banner;
      ErrorIs (ValueError ("Cannot detect platform from installer: "
                           +:+ Fs.name (installer_path E argv)))]).
Proof.
  intros Hlen Ha [m Hm].
  assert (m = "Cannot detect platform from installer: "
              +:+ Fs.name (installer_path E argv)) as ->.
  { revert Hm. destruct s; simpl;
      unfold InstallFmodApi.detect_platform, InstallRaylib.detect_platform;
      repeat case_match; by intros [= <-]. }
  rewrite main_shape. unfold Shape.main.
  rewrite bool_decide_eq_false_2 by lia.
  fold (installer_path E argv).
  unfold mbind, M_bind, bind, get_files, is_file, try_except, lift, print.
  rewrite (bool_decide_eq_true_2 _ Ha). simpl. rewrite Hm. reflexivity.
Qed.

(** X11. A platform that detection returns is a key of the installer's
    own [PLATFORM_CONFIG]: the lookup at the head of the copy step cannot
    raise [KeyError] after a successful detection. *)
Theorem detected_platform_is_configured (s : script) (p : path) (platform : string) :
  detect_platform s p = Ok platform →
  match s with
  | install_fmod_api => Py.mem platform InstallFmodApi.PLATFORM_CONFIG
  | install_raylib => Py.mem platform InstallRaylib.PLATFORM_CONFIG
  end = true.
Proof.
  destruct s; simpl;
    unfold InstallFmodApi.detect_platform, InstallRaylib.detect_platform;
    repeat case_match; intros [= <-]; reflexivity.
Qed.

End EarlyExit.

Lemma undetected_installer_exits_early_witness :
  main install_raylib Scenario.bare
    ["install_raylib.py"; "fmodstudioapi20312win-installer.exe"] Scenario.disk =
    (Raise (SystemExit 1), Scenario.disk,
     [Banner;
      ErrorIs (ValueError ("Cannot detect platform from installer: "
                           +:+ "fmodstudioapi20312win-installer.exe"))]).
Proof.
  apply (undetected_installer_exits_early install_raylib Scenario.bare
           ["install_raylib.py"; "fmodstudioapi20312win-installer.exe"] Scenario.disk).
  - simpl. lia.
  - vm_compute. reflexivity.
  - eexists. vm_compute. reflexivity.
Defined.

Lemma detected_platform_is_configured_witness :
  Py.mem "mac" InstallFmodApi.PLATFORM_CONFIG = true.
Proof.
  apply (detected_platform_is_configured install_fmod_api
           ["work"; "fmodstudioapi20312mac-installer.dmg"] "mac").
  vm_compute. reflexivity.
Defined.

(* ===================================================================== *)
(** * How an installer ends *)
(* ===================================================================== *)

Section Exceptions.
Import Frame.

Lemma reo_ret {A} (a : A) : raises_exceptions_only (ret a).
Proof. by intros fs e fs' out [=]. Qed.

Lemma reo_mret {A} (a : A) : raises_exceptions_only (mret a).
Proof. apply reo_ret. Qed.

Lemma reo_raise {A} (e : exn) :
  is_Exception e = true → raises_exceptions_only (raise e : M A).
Proof. by intros He fs e' fs' out [= <- <- <-]. Qed.

Lemma reo_print (m : msg) : raises_exceptions_only (print m).
Proof. by intros fs e fs' out [=]. Qed.

Lemma reo_get_files : raises_exceptions_only get_files.
Proof. by intros fs e fs' out [=]. Qed.

Lemma reo_bind {A B} (m : M A) (k : A → M B) :
  raises_exceptions_only m → (∀ a, raises_exceptions_only (k a)) →
  raises_exceptions_only (m ≫= k).
Proof.
  intros Hm Hk fs e fs' out Hrun.
  apply bind_inv in Hrun as [(a & fs1 & o1 & o2 & H1 & H2 & _) | (e' & H1 & [= <-])].
  - by eapply Hk.
  - by eapply Hm.
Qed.

Lemma reo_try_except {A} (body : M A) catches handler :
  raises_exceptions_only body → (∀ e, raises_exceptions_only (handler e)) →
  raises_exceptions_only (try_except body catches handler).
Proof.
  intros Hb Hh fs e fs' out. unfold try_except.
  destruct (body fs) as [[[a|e'] fs1] o1] eqn:Hbody; [done|].
  destruct (catches e').
  - destruct (handler e' fs1) as [[r2 fs2] o2] eqn:Hhandler.
    intros [= -> <- <-]. by eapply Hh.
  - intros [= <- <- <-]. by eapply Hb.
Qed.

Lemma reo_try_finally {A} (body : M A) final :
  raises_exceptions_only body → raises_exceptions_only final →
  raises_exceptions_only (try_finally body final).
Proof.
  intros Hb Hf fs e fs' out Hrun.
  apply try_finally_inv in Hrun as (r1 & fs1 & o1 & r2 & o2 & H1 & H2 & _ & Hr).
  destruct r2 as [[]|e2].
  - subst r1. by eapply Hb.
  - injection Hr as ->. by eapply Hf.
Qed.

Lemma reo_for_each {A} (xs : list A) (body : A → M unit) :
  (∀ x, raises_exceptions_only (body x)) → raises_exceptions_only (for_each xs body).
Proof.
  intros Hb. induction xs as [|x xs IH]; simpl; [apply reo_ret|].
  apply reo_bind; [apply Hb|by intros _].
Qed.

Ltac reo_prim :=
  intros fs e fs' out;
  unfold mkdir, mkdir_parents, copytree, copy2, unlink, rmtree, count_entries,
    perform, mbind, M_bind, bind, get_files, put_files, raise, ret;
  repeat case_match; intros Heq; simplify_eq; done.

Lemma reo_mkdir p : raises_exceptions_only (mkdir p).
Proof. reo_prim. Qed.
Lemma reo_mkdir_parents p : raises_exceptions_only (mkdir_parents p).
Proof. reo_prim. Qed.
Lemma reo_copytree src dst : raises_exceptions_only (copytree src dst).
Proof.
  unfold copytree.
  apply reo_bind; [apply reo_get_files|intros fs].
  destruct (fs !! src) as [[]|]; [by apply reo_raise| |by apply reo_raise].
  apply reo_bind; [apply reo_mkdir_parents|intros _].
  apply reo_bind; [apply reo_get_files|intros fs1].
  apply reo_bind; [by intros ? ? ? ? [=]|intros _].
  destruct (clashes _ _ _); [by apply reo_raise|apply reo_ret].
Qed.
Lemma reo_copy2 src dst : raises_exceptions_only (copy2 src dst).
Proof. reo_prim. Qed.
Lemma reo_unlink p : raises_exceptions_only (unlink p).
Proof. reo_prim. Qed.
Lemma reo_count_entries p : raises_exceptions_only (count_entries p).
Proof. by intros fs e fs' out [=]. Qed.

Lemma reo_perform (o : outcome) (target : path) :
  (∀ e, raised o = Some e → is_Exception e = true) →
  raises_exceptions_only (perform o target).
Proof.
  intros Ho fs e fs' out.
  unfold perform, mbind, M_bind, bind, get_files, put_files, raise, ret.
  destruct (raised o) as [e'|] eqn:Hr; [|done].
  intros [= <- <- <-]. by apply Ho.
Qed.

Variable E : env.
Hypothesis HE : ordinary E.

Lemma reo_try_seven_zip cands a t :
  raises_exceptions_only (InstallFmodApi.try_seven_zip E cands a t).
Proof.
  induction cands as [|c cands IH]; simpl; [by apply reo_raise|].
  apply reo_try_except; [|by intros _].
  apply reo_bind; [|intros _; apply reo_print].
  apply reo_perform. intros e. apply HE.
Qed.

Lemma reo_extract (s : script) a t platform :
  raises_exceptions_only (extract s E a t platform).
Proof.
  destruct HE as (Hu & Hz & Ha & Hd).
  destruct s; simpl.
  - repeat case_match; [| | |apply reo_ret].
    + apply reo_bind; [apply reo_print|intros _; apply reo_try_seven_zip].
    + unfold InstallFmodApi.extract_linux_tar.
      apply reo_bind; [apply reo_print|intros _].
      apply reo_bind; [apply reo_perform, Hu|intros _; apply reo_print].
    + unfold InstallFmodApi.extract_macos_dmg.
      apply reo_bind; [apply reo_print|intros _].
      apply reo_bind; [apply reo_mkdir|intros _].
      apply reo_bind; [apply reo_perform, Ha|intros _].
      apply reo_bind; [|intros _; apply reo_print].
      apply reo_try_finally.
      * apply reo_bind; [apply reo_get_files|intros fs].
        apply reo_for_each. intros item.
        apply reo_bind; [apply reo_get_files|intros fs1].
        destruct (is_dir fs1 item); [apply reo_copytree|apply reo_copy2].
      * unfold InstallFmodApi.hdiutil_detach_call.
        destruct (hdiutil_detach E _) eqn:Hdet; [|apply reo_ret|by eapply reo_raise, Hd].
        apply reo_bind; [apply reo_get_files|intros fs]. by intros ? ? ? ? [=].
  - unfold InstallRaylib.extract_installer.
    apply reo_bind; [apply reo_print|intros _].
    apply reo_bind; [apply reo_perform, Hu|intros _; apply reo_print].
Qed.

Lemma reo_copy_plugin_files paths root dst n :
  raises_exceptions_only (InstallFmodApi.copy_plugin_files paths root dst n).
Proof.
  revert n. induction paths as [|p paths IH]; intros n; simpl; [apply reo_ret|].
  apply reo_bind; [apply reo_get_files|intros fs].
  destruct (exists_ fs _).
  - apply reo_bind; [apply reo_copy2|intros _].
    apply reo_bind; [apply reo_print|intros _; apply IH].
  - apply reo_bind; [apply reo_print|intros _; apply IH].
Qed.

Lemma reo_fmod_copy_component what src dst :
  raises_exceptions_only (InstallFmodApi.copy_component what src dst).
Proof.
  unfold InstallFmodApi.copy_component.
  apply reo_bind; [apply reo_get_files|intros fs].
  destruct (exists_ fs src); [|apply reo_print].
  apply reo_bind; [apply reo_mkdir_parents|intros _].
  apply reo_bind; [apply reo_copytree|intros _].
  apply reo_bind; [apply reo_count_entries|intros n; apply reo_print].
Qed.

Lemma reo_copy_api_files (s : script) t platform :
  raises_exceptions_only (copy_api_files s E t platform).
Proof.
  destruct s; simpl.
  - unfold InstallFmodApi.copy_api_files.
    apply reo_bind; [apply reo_print|intros _].
    apply reo_bind; [|intros cfg].
    { unfold InstallFmodApi.config_of. destruct (Py.get _ _); [apply reo_ret|by apply reo_raise]. }
    apply reo_bind; [apply reo_get_files|intros fs].
    do 4 (apply reo_bind; [apply reo_fmod_copy_component|intros _]).
    unfold InstallFmodApi.copy_plugins.
    apply reo_bind; [|intros cfg'].
    { unfold InstallFmodApi.config_of. destruct (Py.get _ _); [apply reo_ret|by apply reo_raise]. }
    destruct (InstallFmodApi.plugins _) as [[[|p ps]|[|c dir]]|]; try apply reo_print.
    + apply reo_bind; [apply reo_print|intros _].
      apply reo_bind; [apply reo_mkdir_parents|intros _].
      apply reo_bind; [apply reo_copy_plugin_files|intros n; apply reo_print].
    + apply reo_bind; [apply reo_get_files|intros fs'].
      destruct (exists_ fs' _); [|apply reo_print].
      apply reo_bind; [apply reo_mkdir_parents|intros _].
      apply reo_bind; [apply reo_copytree|intros _].
      apply reo_bind; [apply reo_count_entries|intros n; apply reo_print].
  - unfold InstallRaylib.copy_api_files.
    apply reo_bind; [apply reo_print|intros _].
    apply reo_bind; [|intros cfg].
    { unfold InstallRaylib.config_of. destruct (Py.get _ _); [apply reo_ret|by apply reo_raise]. }
    apply reo_bind; [apply reo_get_files|intros fs].
    assert (∀ what src dst,
              raises_exceptions_only (InstallRaylib.copy_component E what src dst)) as Hc.
    { intros what src dst. unfold InstallRaylib.copy_component.
      apply reo_bind; [|intros b].
      { unfold InstallRaylib.exists_method. destruct src; [|by apply reo_raise].
        apply reo_bind; [apply reo_get_files|intros ?; apply reo_ret]. }
      destruct b; [|apply reo_print].
      apply reo_bind; [apply reo_mkdir_parents|intros _].
      apply reo_bind; [destruct src; apply reo_copytree|intros _].
      apply reo_bind; [apply reo_count_entries|intros n; apply reo_print]. }
    apply reo_bind; [apply Hc|intros _; apply Hc].
Qed.

Lemma reo_install (s : script) a t platform del :
  raises_exceptions_only
    (Shape.install (extract s E) (copy_api_files s E) a t platform del).
Proof.
  unfold Shape.install.
  apply reo_bind; [apply reo_extract|intros _].
  apply reo_bind; [apply reo_copy_api_files|intros _].
  apply reo_bind; [apply reo_print|intros _].
  destruct del; [|apply reo_ret].
  apply reo_bind; [apply reo_print|intros _].
  apply reo_bind; [apply reo_unlink|intros _; apply reo_print].
Qed.

End Exceptions.

(** An installer ends with status 0 only by returning. *)
Lemma installer_returns_or_exits_1 (s : script) (E : env) (argv : list string)
    (fs fs' : gmap path kind) r out :
  Frame.ordinary E →
  main s E argv fs = (r, fs', out) → r = Ok () ∨ exit_status r = 1.
Proof.
  intros HE Hrun.
  apply script_run in Hrun
    as [(_ & Hst & _) | (pf & t & r1 & fs1 & out1 & _ & _ & _ & _ & _ & _ & Hinst & _ & _ & -> & _)].
  { by right. }
  destruct r1 as [[]|e]; simpl; [by left|].
  rewrite (reo_install E HE s _ t pf _ _ _ _ _ Hinst). by right.
Qed.

(** X19. On a machine whose tools fail in the ordinary way (with a
    subclass of [Exception]), either installer ends with status 0 or 1,
    and with status 0 only by returning from [main]: every failure of
    extraction, of the copy step or of the deletion becomes status 1. *)
Theorem installer_exit_status (s : script) (E : env) (argv : list string)
    (fs fs' : gmap path kind) r out :
  Frame.ordinary E →
  main s E argv fs = (r, fs', out) →
  (exit_status r = 0 ∨ exit_status r = 1) ∧ (exit_status r = 0 → r = Ok ()).
Proof.
  intros HE Hrun.
  destruct (installer_returns_or_exits_1 _ _ _ _ _ _ _ HE Hrun) as [-> | H1].
  - split; [by left|done].
  - split; [by right|]. intros H0. congruence.
Qed.

Lemma installer_exit_status_witness :
  (exit_status (main install_raylib Scenario.bare
                  ["install_raylib.py"; "raylib-5.5_linux_amd64.tar.gz"]
                  Scenario.disk).1.1 = 0 ∨
   exit_status (main install_raylib Scenario.bare
                  ["install_raylib.py"; "raylib-5.5_linux_amd64.tar.gz"]
                  Scenario.disk).1.1 = 1) ∧
  (exit_status (main install_raylib Scenario.bare
                  ["install_raylib.py"; "raylib-5.5_linux_amd64.tar.gz"]
                  Scenario.disk).1.1 = 0 →
   (main install_raylib Scenario.bare
      ["install_raylib.py"; "raylib-5.5_linux_amd64.tar.gz"] Scenario.disk).1.1 = Ok ()).
Proof.
  refine (installer_exit_status install_raylib Scenario.bare
            ["install_raylib.py"; "raylib-5.5_linux_amd64.tar.gz"] Scenario.disk
            _ _ _ _ (triple_eta _)).
  split_and!; simpl; intros; simplify_eq; done.
Defined.

(* ===================================================================== *)
(** * Runs of the downloaders *)
(* ===================================================================== *)

Section ProcFacts.
Import Proc.

Lemma proc_bind_inv {A B} (m : M A) (k : A → M B) w r w' out :
  (m ≫= k) w = (r, w', out) →
  (∃ a w1 out1 out2,
      m w = (Returned a, w1, out1) ∧ k a w1 = (r, w', out2) ∧ out = out1 ++ out2) ∨
  (∃ e, m w = (Raised e, w', out) ∧ r = Raised e).
Proof.
  unfold mbind, M_bind, bind.
  destruct (m w) as [[[a|e] w1] out1].
  - destruct (k a w1) as [[r2 w2] out2] eqn:Hk. intros [= <- <- <-].
    left. by exists a, w1, out1, out2.
  - intros [= <- <- <-]. right. by exists e.
Qed.

Lemma proc_try_except_inv {A} (body : M A) catches handler w r w' out :
  try_except body catches handler w = (r, w', out) →
  (∃ a, body w = (Returned a, w', out) ∧ r = Returned a) ∨
  (∃ e, body w = (Raised e, w', out) ∧ catches e = false ∧ r = Raised e) ∨
  (∃ e w1 out1 out2,
      body w = (Raised e, w1, out1) ∧ catches e = true ∧
      handler e w1 = (r, w', out2) ∧ out = out1 ++ out2).
Proof.
  unfold try_except. destruct (body w) as [[[a|e] w1] out1].
  - intros [= <- <- <-]. left. by exists a.
  - destruct (catches e) eqn:Hc.
    + destruct (handler e w1) as [[r2 w2] out2] eqn:Hh. intros [= <- <- <-].
      right; right. by exists e, w1, out1, out2.
    + intros [= <- <- <-]. right; left. by exists e.
Qed.

End ProcFacts.

(** Making a file in an existing directory keeps the file system
    well-formed. *)
Lemma wf_insert_file (fs : gmap path kind) (p : path) :
  wf fs → fs !! p = None → parent p = [] ∨ fs !! parent p = Some Dir →
  wf (<[p := File]> fs).
Proof.
  intros Hwf Hp Hparent.
  assert (∀ a : path, fs !! a = Some Dir → <[p:=File]> fs !! a = Some Dir) as Hkeep.
  { intros a Ha. rewrite lookup_insert_ne; [done|]. intros <-. congruence. }
  unfold wf. apply map_Forall_insert_2.
  - apply Forall_forall. intros [a k] Hin. simpl. apply Hkeep.
    unfold ancestors in Hin. apply list_elem_of_fmap in Hin as (n & [= -> ->] & Hn).
    apply elem_of_seq in Hn.
    destruct Hparent as [Hroot | Hdir]; [rewrite Hroot in Hn; simpl in Hn; lia|].
    destruct (decide (take (S n) (parent p) = parent p)) as [->|Hne]; [done|].
    apply (wf_above fs (parent p) _ Dir Hwf Hdir).
    + split; [apply prefix_take|done].
    + destruct (parent p); [simpl in Hn; lia|done].
  - intros q k Hq. specialize (Hwf q k Hq). simpl in Hwf.
    eapply Forall_impl; [exact Hwf|]. intros [a ?]. simpl. apply Hkeep.
Qed.

Section Tame.
Import Proc Conduct.
Variable p : path.
Variable good : Web.request → Prop.

Lemma evolves_refl (w : world) : evolves p good w w.
Proof.
  split_and!; [done|by left| |done]. exists []. by rewrite app_nil_r.
Qed.

Lemma evolves_trans (w1 w2 w3 : world) :
  evolves p good w1 w2 → evolves p good w2 w3 → evolves p good w1 w3.
Proof.
  intros (Hs1 & Hf1 & (n1 & Hn1 & Hg1) & Hw1)
         (Hs2 & Hf2 & (n2 & Hn2 & Hg2) & Hw2).
  split_and!.
  - congruence.
  - intros q. destruct (Hf1 q) as [H1 | (Hq1 & H1 & H1')],
      (Hf2 q) as [H2 | (Hq & H2 & H2')].
    + left. congruence.
    + right. split_and!; [done|congruence|done].
    + right. split_and!; [done|done|congruence].
    + congruence.
  - exists (n1 ++ n2). rewrite Hn2, Hn1, (assoc_L (++)). split; [done|].
    by apply Forall_app.
  - auto.
Qed.

Lemma tame_still {A} (m : M A) :
  (∀ w, (m w).1.2 = w) →
  (∀ w t, ResponseIs t ∈ (m w).2 → t = "No response") →
  (∀ w e, (m w).1.1 = Raised e → mild e) →
  tame p good m.
Proof.
  intros Hw Hout Hr w r w' out Hrun.
  specialize (Hw w). specialize (Hout w). specialize (Hr w).
  rewrite Hrun in Hw, Hout, Hr. simpl in *. subst w'.
  split_and!; [apply evolves_refl|done|done].
Qed.

Lemma tame_ret {A} (a : A) : tame p good (ret a).
Proof. apply tame_still; simpl; try done. intros _ t Ht. by apply elem_of_nil in Ht. Qed.

Lemma tame_mret {A} (a : A) : tame p good (mret a).
Proof. apply tame_ret. Qed.

Lemma tame_raise {A} (e : exn) : mild e → tame p good (raise e : M A).
Proof.
  intros He. apply tame_still; simpl; try done.
  - intros _ t Ht. by apply elem_of_nil in Ht.
  - by intros _ ? [= <-].
Qed.

Lemma tame_sys_exit {A} : tame p good (sys_exit 1 : M A).
Proof. apply tame_raise. split; [done|]. by intros c [= <-]. Qed.

Lemma tame_print (l : line) :
  (∀ t, l = ResponseIs t → t = "No response") → tame p good (print l).
Proof.
  intros Hl. apply tame_still; simpl; try done.
  intros _ t Ht. apply list_elem_of_singleton in Ht. by apply Hl.
Qed.

Lemma tame_bind {A B} (m : M A) (k : A → M B) :
  tame p good m → (∀ a, tame p good (k a)) → tame p good (m ≫= k).
Proof.
  intros Hm Hk w r w' out Hrun.
  apply proc_bind_inv in Hrun as [(a & w1 & o1 & o2 & H1 & H2 & ->) | (e & H1 & ->)].
  - destruct (Hm _ _ _ _ H1) as (He1 & Ho1 & _).
    destruct (Hk a _ _ _ _ H2) as (He2 & Ho2 & Hr2).
    split_and!; [by eapply evolves_trans| |done].
    intros t [Ht|Ht]%elem_of_app; eauto.
  - destruct (Hm _ _ _ _ H1) as (He1 & Ho1 & Hr1).
    split_and!; [done..|]. intros e' [= <-]. by apply Hr1.
Qed.

Lemma tame_try_except {A} (body : M A) catches handler :
  tame p good body → (∀ e, mild e → tame p good (handler e)) →
  tame p good (try_except body catches handler).
Proof.
  intros Hb Hh w r w' out Hrun.
  apply proc_try_except_inv in Hrun
    as [(a & H1 & ->) | [(e & H1 & _ & ->) | (e & w1 & o1 & o2 & H1 & _ & H2 & ->)]].
  - by apply Hb in H1.
  - by apply Hb in H1.
  - destruct (Hb _ _ _ _ H1) as (He1 & Ho1 & Hr1).
    destruct (Hh e (Hr1 e eq_refl) _ _ _ _ H2) as (He2 & Ho2 & Hr2).
    split_and!; [by eapply evolves_trans| |done].
    intros t [Ht|Ht]%elem_of_app; eauto.
Qed.

Variable respond : Web.request → Web.answer.

Lemma tame_send (r : Web.request) : good r → tame p good (send respond r).
Proof.
  intros Hr w r' w' out. unfold send.
  assert (evolves p good w (World (files w) (sent w ++ [r]) (started w))) as Hev.
  { split_and!; [done|by left| |done]. exists [r]. split; [done|by constructor]. }
  destruct (respond r); intros [= <- <- <-];
    (split_and!; [done|by intros t Ht; apply elem_of_nil in Ht|]).
  - intros e [= <-]. by split.
  - done.
Qed.

Lemma tame_raise_for_status (r : Web.response) : tame p good (raise_for_status r).
Proof.
  unfold raise_for_status. destruct (Web.ok r) eqn:Hok; [apply tame_ret|].
  apply tame_raise. split; [by intros ? [= <-]|done].
Qed.

Lemma tame_json_get (r : Web.response) (key : string) : tame p good (json_get r key).
Proof.
  unfold json_get. destruct (Web.body r); [| |apply tame_ret];
    apply tame_raise; by split.
Qed.

Lemma tame_total_size_of (r : Web.response) : tame p good (total_size_of r).
Proof.
  unfold total_size_of. destruct (Web.content_length r); [apply tame_ret| |apply tame_ret].
  apply tame_raise; by split.
Qed.

Lemma tame_write_chunks (total : Z) (chunks : list nat) (n : nat) :
  tame p good (write_chunks total chunks n).
Proof.
  revert n. induction chunks as [|c chunks IH]; intros n; simpl; [apply tame_ret|].
  case_bool_decide; [|apply IH].
  apply tame_bind; [|intros _; apply IH].
  case_bool_decide; [by apply tame_print|apply tame_ret].
Qed.

Lemma tame_report (e : exn) : mild e → tame p good (report e).
Proof.
  intros [Hh Hx]. unfold report.
  destruct e;
    repeat first [ apply tame_sys_exit | by apply tame_print
                 | apply tame_bind; [|intros _] ].
  apply tame_print. intros t [= <-]. by rewrite (Hh _ eq_refl).
Qed.

Lemma tame_open_wb : tame p good (open_wb p).
Proof.
  intros w r w' out. unfold open_wb, mbind, M_bind, bind, get_files, put_files, raise, ret.
  assert (files w !! p = None → parent p = [] ∨ files w !! parent p = Some Dir →
          evolves p good w (World (<[p:=File]> (files w)) (sent w) (started w))) as Hput.
  { intros Hnone Hparent. split_and!; simpl; [done| | |].
    - intros q. destruct (decide (q = p)) as [->|Hq].
      + right. by rewrite lookup_insert_eq.
      + left. by rewrite lookup_insert_ne.
    - exists []. by rewrite app_nil_r.
    - intros Hwf. by apply wf_insert_file. }
  assert (∀ t, ResponseIs t ∈ @nil line → t = "No response") as Hnil.
  { intros t Ht. by apply elem_of_nil in Ht. }
  simpl. destruct (files w !! p) as [[]|] eqn:Hp.
  - intros [= <- <- <-]. split_and!; [apply evolves_refl|done|done].
  - intros [= <- <- <-]. split_and!; [apply evolves_refl|done|].
    intros e [= <-]. by split.
  - case_bool_decide.
    + intros [= <- <- <-]. split_and!; [apply Hput; auto|done|done].
    + destruct (files w !! parent p) as [[]|] eqn:Hpp; intros [= <- <- <-].
      * split_and!; [apply evolves_refl|done|]. intros e [= <-]. by split.
      * split_and!; [apply Hput; auto|done|done].
      * split_and!; [apply evolves_refl|done|]. intros e [= <-]. by split.
Qed.

End Tame.

Section TameDownload.
Import Proc Conduct.
Variable E : Run.env.
Variable respond : Web.request → Web.answer.

Lemma tame_download_with_progress (good : Web.request → Prop) (url filepath : string) :
  good (Web.Request Web.GET url None None true) →
  tame (Run.Path E filepath) good (download_with_progress E respond url filepath).
Proof.
  intros Hgood. unfold download_with_progress.
  apply tame_bind; [by apply tame_send|intros resp].
  apply tame_bind; [apply tame_raise_for_status|intros _].
  apply tame_bind; [apply tame_total_size_of|intros total].
  apply tame_bind; [apply tame_open_wb|intros _].
  apply tame_bind; [apply tame_write_chunks|intros n].
  destruct (Web.broken resp); [apply tame_raise; by split|].
  apply tame_bind; [by apply tame_print|intros _; apply tame_ret].
Qed.

Lemma startswith_app (a b : string) : Py.startswith (a +:+ b) a = true.
Proof.
  induction a as [|c a IH]; simpl; [by destruct b|].
  by rewrite Ascii.eqb_refl, IH.
Qed.

Lemma tame_fmod_fetch (user password download_url filename : string) :
  tame (Run.Path E filename) (fmod_request_ok user password download_url)
    (GetFmodApiRun.fetch E respond user password download_url filename).
Proof.
  unfold GetFmodApiRun.fetch.
  apply tame_bind; [by apply tame_print|intros _].
  apply tame_bind; [apply tame_send|intros login].
  { split_and!; simpl; [|by intros [? [=]]|done].
    intros c [= <-]. split_and!; reflexivity. }
  apply tame_bind; [apply tame_raise_for_status|intros _].
  apply tame_bind; [apply tame_json_get|intros token].
  destruct (negb (Web.truthy token)).
  { apply tame_bind; [by apply tame_print|intros _; apply tame_sys_exit]. }
  apply tame_bind; [by apply tame_print|intros _].
  apply tame_bind; [by apply tame_print|intros _].
  apply tame_bind; [apply tame_send|intros link].
  { split_and!; simpl; [by intros c [=]|done|done]. }
  apply tame_bind; [apply tame_raise_for_status|intros _].
  apply tame_bind; [apply tame_json_get|intros url].
  destruct (negb (Web.truthy url)).
  { apply tame_bind; [by apply tame_print|intros _; apply tame_sys_exit]. }
  apply tame_bind; [by apply tame_print|intros _].
  apply tame_bind; [by apply tame_print|intros _].
  apply tame_bind; [apply tame_download_with_progress|intros n; by apply tame_print].
  split_and!; simpl; [by intros c [=]|by intros [? [=]]|done].
Qed.

Lemma tame_raylib_fetch (download_url filename : string) :
  tame (Run.Path E filename) raylib_request_ok
    (GetRaylibRun.fetch E respond download_url filename).
Proof.
  unfold GetRaylibRun.fetch.
  apply tame_bind; [by apply tame_print|intros _].
  apply tame_bind; [by apply tame_send|intros link].
  apply tame_bind; [apply tame_raise_for_status|intros _].
  apply tame_bind; [by apply tame_print|intros _].
  apply tame_bind; [by apply tame_print|intros _].
  apply tame_bind; [by apply tame_download_with_progress|intros n; by apply tame_print].
Qed.

End TameDownload.

Section DownloadRun.
Import Proc Conduct Downloader.
Variable E : Run.env.
Variable respond : Web.request → Web.answer.

Lemma write_chunks_run (total : Z) (chunks : list nat) (n : nat) (w : world) :
  ∃ out, write_chunks total chunks n w = (Returned (n + sum_list chunks), w, out).
Proof.
  revert n. induction chunks as [|c chunks IH]; intros n.
  - exists []. simpl. by rewrite Nat.add_0_r.
  - cbn [write_chunks sum_list sum_list_with].
    case_bool_decide as Hc.
    + destruct (IH (n + c)) as (out & Hrun).
      unfold mbind, M_bind, bind. case_bool_decide as Ht.
      * exists (Progress (n + c) total :: out). unfold print. rewrite Hrun.
        by rewrite (assoc_L Nat.add).
      * exists out. unfold ret. rewrite Hrun. by rewrite (assoc_L Nat.add).
    + subst c. destruct (IH n) as (out & Hrun).
      exists out. by rewrite Hrun.
Qed.

(** What a download that returns has done. *)
Lemma download_returned (url filepath : string) (w w' : world) (n : nat) out :
  download_with_progress E respond url filepath w = (Returned n, w', out) →
  ∃ resp, respond (Web.Request Web.GET url None None true) = Web.Answer resp ∧
    Web.ok resp = true ∧ Web.broken resp = None ∧
    n = sum_list (Web.chunks resp) ∧
    files w' !! Run.Path E filepath = Some File.
Proof.
  unfold download_with_progress. intros Hrun.
  apply proc_bind_inv in Hrun as [(resp & w1 & o1 & o1' & Hsend & Hrun & ->) | (? & _ & [=])].
  exists resp.
  assert (respond (Web.Request Web.GET url None None true) = Web.Answer resp
          ∧ files w1 = files w) as [Hresp Hfiles].
  { revert Hsend. unfold send. destruct (respond _); [done|]. by intros [= <- <- <-]. }
  apply proc_bind_inv in Hrun as [([] & w2 & o2 & o2' & Hst & Hrun & ->) | (? & _ & [=])].
  assert (Web.ok resp = true ∧ w2 = w1) as [Hok ->].
  { revert Hst. unfold raise_for_status. destruct (Web.ok resp); [|done].
    by intros [= <- <-]. }
  apply proc_bind_inv in Hrun as [(total & w3 & o3 & o3' & Htot & Hrun & ->) | (? & _ & [=])].
  assert (w3 = w1) as ->.
  { revert Htot. unfold total_size_of. destruct (Web.content_length resp);
      [by intros [= <- <-]|done|by intros [= <- <-]]. }
  apply proc_bind_inv in Hrun as [([] & w4 & o4 & o4' & Hopen & Hrun & ->) | (? & _ & [=])].
  assert (files w4 !! Run.Path E filepath = Some File) as Hfile.
  { revert Hopen. unfold open_wb, mbind, M_bind, bind, get_files, put_files, raise, ret.
    simpl. destruct (files w1 !! Run.Path E filepath) as [[]|] eqn:Hp.
    - by intros [= <- <-].
    - done.
    - case_bool_decide.
      + intros [= <- <-]. simpl. by rewrite lookup_insert_eq.
      + destruct (files w1 !! parent (Run.Path E filepath)) as [[]|]; [done| |done].
        intros [= <- <-]. simpl. by rewrite lookup_insert_eq. }
  apply proc_bind_inv in Hrun as [(n' & w5 & o5 & o5' & Hloop & Hrun & ->) | (? & _ & [=])].
  destruct (write_chunks_run total (Web.chunks resp) 0 w4) as (o & Hw).
  rewrite Hw in Hloop. injection Hloop as <- <- <-.
  destruct (Web.broken resp); [done|].
  apply proc_bind_inv in Hrun as [([] & w6 & o6 & o6' & [= <- <-] & Hrun & ->) | (? & [=] & _)].
  injection Hrun as <- <- <-. done.
Qed.

(** X12. [download_with_progress] returns the number of bytes received:
    the sum of the sizes of all chunks, the empty ones it skips included;
    the request it sent was answered with a status that is no error, the
    transfer did not break, and the file is on the disk. *)
Theorem download_counts_bytes (url filepath : string) (w w' : world) (n : nat) out :
  download_with_progress E respond url filepath w = (Returned n, w', out) →
  ∃ resp, respond (Web.Request Web.GET url None None true) = Web.Answer resp ∧
    Web.ok resp = true ∧ Web.broken resp = None ∧
    n = sum_list (Web.chunks resp) ∧
    files w' !! Run.Path E filepath = Some File ∧
    sent w' = sent w ++ [Web.Request Web.GET url None None true].
Proof.
  intros Hrun. destruct (download_returned _ _ _ _ _ _ Hrun) as (resp & H1 & H2 & H3 & H4 & H5).
  exists resp. split_and!; try done.
  revert Hrun. unfold download_with_progress. intros Hrun.
  apply proc_bind_inv in Hrun as [(resp' & w1 & o1 & o1' & Hsend & Hrun & ->) | (? & _ & [=])].
  assert (sent w1 = sent w ++ [Web.Request Web.GET url None None true]) as <-.
  { revert Hsend. unfold send. destruct (respond _); by intros [= <- <- <-]. }
  assert (tame (Run.Path E filepath) (λ _, False)
            (raise_for_status resp' ;;
             total_size ← total_size_of resp';
             open_wb (Run.Path E filepath) ;;
             downloaded ← write_chunks total_size (Web.chunks resp') 0;
             match Web.broken resp' with
             | Some m => raise (RequestException m)
             | None => print NewLine ;; ret downloaded
             end)) as Htame.
  { apply tame_bind; [apply tame_raise_for_status|intros _].
    apply tame_bind; [apply tame_total_size_of|intros total].
    apply tame_bind; [apply tame_open_wb|intros _].
    apply tame_bind; [apply tame_write_chunks|intros k].
    destruct (Web.broken resp'); [apply tame_raise; by split|].
    apply tame_bind; [by apply tame_print|intros _; apply tame_ret]. }
  destruct (Htame _ _ _ _ Hrun) as ((_ & _ & (new & -> & Hnew) & _) & _).
  destruct new as [|x new]; [by rewrite app_nil_r|].
  by apply Forall_cons in Hnew as [[] _].
Qed.

(** X13. A transfer that breaks leaves the file it has begun: when the
    request is answered without an error status, the length header is
    absent or a number and the target can be made, but the connection
    breaks after some chunks, [download_with_progress] ends in that error
    and the file is on the disk. *)
Theorem broken_download_leaves_file (url filepath m : string) (resp : Web.response)
    (w : world) :
  respond (Web.Request Web.GET url None None true) = Web.Answer resp →
  Web.ok resp = true →
  (∀ s, Web.content_length resp ≠ Web.BadLength s) →
  Web.broken resp = Some m →
  files w !! Run.Path E filepath = None →
  files w !! parent (Run.Path E filepath) = Some Dir →
  ∃ w' out,
    download_with_progress E respond url filepath w
      = (Raised (RequestException m), w', out) ∧
    files w' = <[Run.Path E filepath := File]> (files w).
Proof.
  intros Hresp Hok Hlen Hbroken Hnone Hparent.
  unfold download_with_progress, mbind, M_bind, bind, send, raise_for_status.
  rewrite Hresp, Hok. cbn [ret].
  assert (∃ total, total_size_of resp = ret total) as [total ->].
  { unfold total_size_of. destruct (Web.content_length resp) as [|s|n]; eauto.
    by destruct (Hlen s). }
  cbn [ret]. unfold open_wb, mbind, M_bind, bind, get_files, put_files. cbn [files].
  rewrite Hnone. case_bool_decide; [|rewrite Hparent].
  - match goal with |- context [write_chunks total ?c 0 ?w0] =>
      destruct (write_chunks_run total c 0 w0) as (o & ->) end.
    rewrite Hbroken. unfold raise. by eexists _, _.
  - match goal with |- context [write_chunks total ?c 0 ?w0] =>
      destruct (write_chunks_run total c 0 w0) as (o & ->) end.
    rewrite Hbroken. unfold raise. by eexists _, _.
Qed.

Lemma report_run (e : exn) (w w' : world) r out :
  report e w = (r, w', out) → r = Raised (SystemExit 1) ∧ w' = w.
Proof. unfold report. destruct e; by intros [= <- <- <-]. Qed.

Lemma fmod_fetch_returned (user password download_url filename : string)
    (w w' : world) out :
  GetFmodApiRun.fetch E respond user password download_url filename w
    = (Returned (), w', out) →
  files w' !! Run.Path E filename = Some File ∧
  ∃ n, DownloadComplete filename n ∈ out.
Proof.
  unfold GetFmodApiRun.fetch. intros Hrun.
  apply proc_bind_inv in Hrun as [([] & w1 & o1 & o1' & _ & Hrun & ->) | (? & _ & [=])].
  apply proc_bind_inv in Hrun as [(login & w2 & o2 & o2' & _ & Hrun & ->) | (? & _ & [=])].
  apply proc_bind_inv in Hrun as [([] & w3 & o3 & o3' & _ & Hrun & ->) | (? & _ & [=])].
  apply proc_bind_inv in Hrun as [(token & w4 & o4 & o4' & _ & Hrun & ->) | (? & _ & [=])].
  destruct (negb (Web.truthy token)).
  { by apply proc_bind_inv in Hrun as [(? & ? & ? & ? & _ & [=] & _) | (? & _ & [=])]. }
  apply proc_bind_inv in Hrun as [([] & w5 & o5 & o5' & _ & Hrun & ->) | (? & _ & [=])].
  apply proc_bind_inv in Hrun as [([] & w6 & o6 & o6' & _ & Hrun & ->) | (? & _ & [=])].
  apply proc_bind_inv in Hrun as [(link & w7 & o7 & o7' & _ & Hrun & ->) | (? & _ & [=])].
  apply proc_bind_inv in Hrun as [([] & w8 & o8 & o8' & _ & Hrun & ->) | (? & _ & [=])].
  apply proc_bind_inv in Hrun as [(url & w9 & o9 & o9' & _ & Hrun & ->) | (? & _ & [=])].
  destruct (negb (Web.truthy url)).
  { by apply proc_bind_inv in Hrun as [(? & ? & ? & ? & _ & [=] & _) | (? & _ & [=])]. }
  apply proc_bind_inv in Hrun as [([] & w10 & o10 & o10' & _ & Hrun & ->) | (? & _ & [=])].
  apply proc_bind_inv in Hrun as [([] & w11 & o11 & o11' & _ & Hrun & ->) | (? & _ & [=])].
  apply proc_bind_inv in Hrun as [(n & w12 & o12 & o12' & Hdl & Hrun & ->) | (? & _ & [=])].
  injection Hrun as <- <-.
  apply download_returned in Hdl as (resp & _ & _ & _ & _ & Hfile).
  split; [done|]. exists n. set_solver.
Qed.

Lemma raylib_fetch_returned (download_url filename : string) (w w' : world) out :
  GetRaylibRun.fetch E respond download_url filename w = (Returned (), w', out) →
  files w' !! Run.Path E filename = Some File ∧
  ∃ n, DownloadComplete filename n ∈ out.
Proof.
  unfold GetRaylibRun.fetch. intros Hrun.
  apply proc_bind_inv in Hrun as [([] & w1 & o1 & o1' & _ & Hrun & ->) | (? & _ & [=])].
  apply proc_bind_inv in Hrun as [(link & w2 & o2 & o2' & _ & Hrun & ->) | (? & _ & [=])].
  apply proc_bind_inv in Hrun as [([] & w3 & o3 & o3' & _ & Hrun & ->) | (? & _ & [=])].
  apply proc_bind_inv in Hrun as [([] & w5 & o5 & o5' & _ & Hrun & ->) | (? & _ & [=])].
  apply proc_bind_inv in Hrun as [([] & w6 & o6 & o6' & _ & Hrun & ->) | (? & _ & [=])].
  apply proc_bind_inv in Hrun as [(n & w12 & o12 & o12' & Hdl & Hrun & ->) | (? & _ & [=])].
  injection Hrun as <- <-.
  apply download_returned in Hdl as (resp & _ & _ & _ & _ & Hfile).
  split; [done|]. exists n. set_solver.
Qed.

End DownloadRun.

Section DownloaderMain.
Import Proc Conduct Downloader.
Variable E : Run.env.
Variable respond : Web.request → Web.answer.

Lemma tame_weaken {A} (p : path) (good good' : Web.request → Prop) (m : M A) :
  (∀ r, good r → good' r) → tame p good m → tame p good' m.
Proof.
  intros Hgg Hm w r w' out Hrun.
  destruct (Hm _ _ _ _ Hrun) as ((Hs & Hf & (new & Hn & Hg) & Hw) & Ho & Hr).
  split; [|done]. split_and!; [done|done| |done]. exists new. split; [done|].
  eapply Forall_impl; [exact Hg|done].
Qed.

(** The two views of the file name: as [main] computes it step by step
    and as [main_filename] gives it. *)
Lemma fmod_filename_steps (platform v : string) :
  Py.mem platform GetFmodApi.PLATFORM_CONFIG = true →
  ∃ config filename,
    Py.get platform GetFmodApi.PLATFORM_CONFIG = Some config ∧
    Py.format (GetFmodApi.filename config) v = Some filename ∧
    GetFmodApi.main_filename platform v = Some filename.
Proof.
  unfold GetFmodApi.main_filename. intros Hmem. rewrite Hmem. cbn [negb].
  revert Hmem. unfold Py.mem, GetFmodApi.PLATFORM_CONFIG. cbn [Py.get].
  repeat case_match; intros Hm;
    first [ by (apply bool_decide_eq_true in Hm; destruct Hm)
          | eexists _, _; (split; [reflexivity|]); split; reflexivity ].
Qed.

Lemma raylib_filename_steps (platform v : string) :
  Py.mem platform GetRaylib.PLATFORM_CONFIG = true →
  ∃ config filename,
    Py.get platform GetRaylib.PLATFORM_CONFIG = Some config ∧
    Py.format (GetRaylib.filename config) v = Some filename ∧
    GetRaylib.main_filename platform v = Some filename.
Proof.
  unfold GetRaylib.main_filename. intros Hmem. rewrite Hmem. cbn [negb].
  revert Hmem. unfold Py.mem, GetRaylib.PLATFORM_CONFIG. cbn [Py.get].
  repeat case_match; intros Hm;
    first [ by (apply bool_decide_eq_true in Hm; destruct Hm)
          | eexists _, _; (split; [reflexivity|]); split; reflexivity ].
Qed.

Lemma tame_downloader_main (d : downloader) (argv : list string) (p : path) :
  (∀ f, filename d argv = Some f → p = Run.Path E f) →
  tame p (request_ok d argv) (main d E respond argv).
Proof.
  intros Hp. destruct d; simpl in *.
  - unfold GetFmodApiRun.main. case_bool_decide.
    { apply tame_bind; [by apply tame_print|intros _; apply tame_sys_exit]. }
    destruct (Py.mem (argv !!! 3) GetFmodApi.PLATFORM_CONFIG) eqn:Hmem; cbn [negb].
    2: { apply tame_bind; [by apply tame_print|intros _].
         apply tame_bind; [by apply tame_print|intros _; apply tame_sys_exit]. }
    destruct (fmod_filename_steps _ (argv !!! 4) Hmem) as (config & f & -> & -> & Hf).
    rewrite (Hp f Hf).
    apply tame_try_except; [|intros e; apply tame_report].
    eapply tame_weaken; [|apply tame_fmod_fetch].
    intros r (Ha & Hb & Hc). split_and!; [done| |done].
    intros Hr. rewrite (Hb Hr). apply startswith_app.
  - unfold GetRaylibRun.main. case_bool_decide.
    { apply tame_bind; [by apply tame_print|intros _; apply tame_sys_exit]. }
    destruct (Py.mem (argv !!! 1) GetRaylib.PLATFORM_CONFIG) eqn:Hmem; cbn [negb].
    2: { apply tame_bind; [by apply tame_print|intros _].
         apply tame_bind; [by apply tame_print|intros _; apply tame_sys_exit]. }
    destruct (raylib_filename_steps _ (argv !!! 2) Hmem) as (config & f & -> & -> & Hf).
    rewrite (Hp f Hf).
    apply tame_try_except; [|intros e; apply tame_report].
    apply tame_raylib_fetch.
Qed.

(** A path other than a given one. *)
Lemma other_path (q : path) : q ++ ["x"] ≠ q.
Proof.
  intros Heq. apply (f_equal length) in Heq. rewrite length_app in Heq. simpl in Heq. lia.
Qed.


(** A downloader ends with status 0 only by returning. *)
Lemma downloader_returns_or_exits_1 (d : downloader) (argv : list string)
    (w w' : world) r out :
  main d E respond argv w = (r, w', out) → r = Returned () ∨ exit_status r = 1.
Proof.
  intros Hrun.
  assert (∃ p, ∀ f, filename d argv = Some f → p = Run.Path E f) as [p Hp].
  { destruct (filename d argv) as [f|]; [exists (Run.Path E f)|exists []]; [|done].
    by intros ? [= <-]. }
  eapply (tame_downloader_main d argv p Hp) in Hrun as (_ & _ & Hr).
  destruct r as [[]|e]; [by left|right].
  destruct (Hr e eq_refl) as [_ Hx]. destruct e; try done.
  simpl. by apply Hx.
Qed.

(** What a downloader that returns has done. *)
Lemma downloader_returned (d : downloader) (argv : list string)
    (w w' : world) out :
  main d E respond argv w = (Returned (), w', out) →
  ∃ f n, length argv = argc d ∧ filename d argv = Some f ∧
    files w' !! Run.Path E f = Some File ∧ DownloadComplete f n ∈ out.
Proof.
  intros Hrun. destruct d; simpl in *.
  - unfold GetFmodApiRun.main in Hrun. case_bool_decide as Hlen; [done|].
    destruct (Py.mem (argv !!! 3) GetFmodApi.PLATFORM_CONFIG) eqn:Hmem;
      cbn [negb] in Hrun; [|done].
    destruct (fmod_filename_steps _ (argv !!! 4) Hmem) as (config & f & Hc & Hfm & Hf).
    rewrite Hc, Hfm in Hrun.
    apply proc_try_except_inv in Hrun
      as [([] & H1 & _) | [(e & _ & _ & [=]) | (e & w1 & o1 & o2 & _ & _ & H2 & _)]].
    2: { by apply report_run in H2 as [[=] _]. }
    apply fmod_fetch_returned in H1 as [Hfile [n Hn]]. by exists f, n.
  - unfold GetRaylibRun.main in Hrun. case_bool_decide as Hlen; [done|].
    destruct (Py.mem (argv !!! 1) GetRaylib.PLATFORM_CONFIG) eqn:Hmem;
      cbn [negb] in Hrun; [|done].
    destruct (raylib_filename_steps _ (argv !!! 2) Hmem) as (config & f & Hc & Hfm & Hf).
    rewrite Hc, Hfm in Hrun.
    apply proc_try_except_inv in Hrun
      as [([] & H1 & _) | [(e & _ & _ & [=]) | (e & w1 & o1 & o2 & _ & _ & H2 & _)]].
    2: { by apply report_run in H2 as [[=] _]. }
    apply raylib_fetch_returned in H1 as [Hfile [n Hn]]. by exists f, n.
Qed.


(** X15. The credentials of [get_fmod_api.py] stay at home: of the
    requests a run sends, only the login request (a POST to the login
    address) carries the user name and password given on the command
    line; a token is sent only to the address that hands out download
    links; and the streamed request for the file, whose address the
    server has chosen, carries neither.  [get_raylib.py] sends no
    credentials at all. *)
Theorem credentials_stay_home (d : downloader) (argv : list string)
    (w w' : world) r out :
  main d E respond argv w = (r, w', out) →
  ∃ new, sent w' = sent w ++ new ∧ ∀ req, req ∈ new → request_ok d argv req.
Proof.
  intros Hrun.
  assert (∃ p, ∀ f, filename d argv = Some f → p = Run.Path E f) as [p Hp].
  { destruct (filename d argv) as [f|]; [exists (Run.Path E f)|exists []]; [|done].
    by intros ? [= <-]. }
  eapply (tame_downloader_main d argv p Hp) in Hrun as ((_ & _ & (new & Hn & Hg) & _) & _).
  exists new. split; [done|]. by apply Forall_forall.
Qed.

(** X16. What either downloader prints about the response after an HTTP
    error is always "No response", never the text of the response: the
    error comes from [raise_for_status], so its response is not [ok], and
    a response that is not [ok] counts as false in the test
    [if e.response]. *)
Theorem http_error_prints_no_response (d : downloader) (argv : list string)
    (w w' : world) r out :
  main d E respond argv w = (r, w', out) →
  ∀ t, ResponseIs t ∈ out → t = "No response".
Proof.
  intros Hrun.
  assert (∃ p, ∀ f, filename d argv = Some f → p = Run.Path E f) as [p Hp].
  { destruct (filename d argv) as [f|]; [exists (Run.Path E f)|exists []]; [|done].
    by intros ? [= <-]. }
  by eapply (tame_downloader_main d argv p Hp) in Hrun as (_ & Ho & _).
Qed.

(** X17. A downloader that ends with status 0 was given the right number
    of arguments and a platform of its table, has printed the completion
    line, and has left the file under the computed name in the working
    directory. *)
Theorem downloader_success (d : downloader) (argv : list string)
    (w w' : world) r out :
  main d E respond argv w = (r, w', out) →
  exit_status r = 0 →
  ∃ f n, length argv = argc d ∧ filename d argv = Some f ∧
    files w' !! Run.Path E f = Some File ∧ DownloadComplete f n ∈ out.
Proof.
  intros Hrun Hst.
  destruct (downloader_returns_or_exits_1 _ _ _ _ _ _ Hrun) as [-> | H1]; [|congruence].
  by eapply downloader_returned.
Qed.

(** X18. A downloader given the wrong number of arguments, or a platform
    that is not in its table, prints its usage or the list of platforms
    and exits with status 1 before anything else happens: no request is
    sent and the file system is not touched. *)
Theorem downloader_rejects (d : downloader) (argv : list string) (w : world) :
  length argv ≠ argc d ∨ supported d argv = false →
  main d E respond argv w =
    (Raised (SystemExit 1), w,
     if bool_decide (length argv ≠ argc d) then [DownloaderUsage]
     else [Unsupported (platform d argv); Supported ["mac"; "linux"; "windows"]]).
Proof.
  intros Hbad. destruct d; simpl in *.
  - unfold GetFmodApiRun.main. case_bool_decide as Hlen; [done|].
    destruct Hbad as [? | Hs]; [done|]. by rewrite Hs.
  - unfold GetRaylibRun.main. case_bool_decide as Hlen; [done|].
    destruct Hbad as [? | Hs]; [done|]. by rewrite Hs.
Qed.

End DownloaderMain.

(* ===================================================================== *)
(** * Runs of the orchestrators *)
(* ===================================================================== *)

Section SetupRun.
Import Proc Conduct Orchestrator Tools.
Variable E : Run.env.
Variable respond : Web.request → Web.answer.

Lemma get_script_program (o : orchestrator) :
  Py.get (get_script o) (scripts E respond)
    = Some (run_main (Downloader.main (downloader o) E respond)).
Proof. by destruct o. Qed.

Lemma install_script_program (o : orchestrator) :
  Py.get (install_script o) (scripts E respond)
    = Some (run_installer (Script.main (installer o) E)).
Proof. by destruct o. Qed.

Lemma run_command_inv (script_name : string) (args : list string)
    (program : Proc.program) (w w' : world) r out :
  Py.get script_name (scripts E respond) = Some program →
  run_command E respond script_name args w = (r, w', out) →
  ∃ code, program (script_name :: args) (at_start script_name args w) = (code, w', out) ∧
    ((code = 0 ∧ r = Returned ()) ∨
     (code ≠ 0 ∧ r = Raised (RuntimeError (script_name +:+ " failed with exit code "
                                           +:+ pretty code)))).
Proof.
  intros Hget. unfold run_command, subprocess_run, mbind, M_bind, bind. rewrite Hget.
  fold (at_start script_name args w).
  destruct (program _ _) as [[code w1] out1].
  case_bool_decide as Hcode.
  - intros [= <- <- <-]. exists code. rewrite app_nil_r. split; [done|]. by right.
  - intros [= <- <- <-]. exists code. rewrite app_nil_r. split; [done|]. left.
    split; [|done]. by destruct (decide (code = 0)).
Qed.

(** A run of an orchestrator, step by step. *)
Lemma setup_run (o : orchestrator) (argv : list string) (w w' : world) r out :
  main o E respond argv w = (r, w', out) →
  (length argv < argc o ∧ w' = w ∧ r = Raised (SystemExit 1) ∧ out = [SetupUsage]) ∨
  (argc o ≤ length argv ∧
   ∃ code1 w1 out1,
     run_main (Downloader.main (downloader o) E respond)
       (get_script o :: download_args o argv)
       (at_start (get_script o) (download_args o argv) w) = (code1, w1, out1) ∧
     ((code1 ≠ 0 ∧ w' = w1 ∧ r = Raised (SystemExit 1) ∧
       out = header o argv ++ out1 ++
             [SetupFailed (RuntimeError (get_script o +:+ " failed with exit code "
                                         +:+ pretty code1))]) ∨
      (code1 = 0 ∧ installer_name o argv = None ∧ w' = w1 ∧
       r = Raised (SystemExit 1) ∧
       out = header o argv ++ out1 ++
             [Step2; SetupFailed (ValueError ("Unknown platform: " +:+ platform o argv))]) ∨
      (code1 = 0 ∧ ∃ name code2 out2,
         installer_name o argv = Some name ∧
         run_installer (Script.main (installer o) E)
           (install_script o :: install_args o argv name)
           (at_start (install_script o) (install_args o argv name) w1)
           = (code2, w', out2) ∧
         ((code2 = 0 ∧ r = Returned () ∧
           out = header o argv ++ out1 ++ [Step2] ++ out2 ++
                 [SetupComplete (delete_installer o argv) name]) ∨
          (code2 ≠ 0 ∧ r = Raised (SystemExit 1) ∧
           out = header o argv ++ out1 ++ [Step2] ++ out2 ++
                 [SetupFailed (RuntimeError (install_script o
                    +:+ " failed with exit code " +:+ pretty code2))]))))).
Proof.
  intros Hrun.
  assert (∀ body : M unit,
    (if bool_decide (length argv < argc o) then print SetupUsage ;; sys_exit 1
     else print (SetupHeader (platform o argv) (version o argv) (delete_installer o argv)) ;;
          try_except
            (print Step1 ;;
             run_command E respond (get_script o) (download_args o argv) ;;
             print Step2 ;;
             match installer_name o argv with
             | None => raise (ValueError ("Unknown platform: " +:+ platform o argv))
             | Some name =>
                 run_command E respond (install_script o) (install_args o argv name) ;;
                 print (SetupComplete (delete_installer o argv) name)
             end)
            is_Exception
            (λ e, print (SetupFailed e) ;; sys_exit 1)) = main o E respond argv) as Hshape.
  { intros _. by destruct o. }
  rewrite <- (Hshape (ret ())) in Hrun. clear Hshape.
  case_bool_decide as Hlen.
  { left. injection Hrun as <- <- <-. done. }
  right. split; [lia|].
  apply proc_bind_inv in Hrun as [([] & ? & ? & o0 & [= <- <-] & Hrun & ->) | (? & [=] & _)].
  apply proc_try_except_inv in Hrun
    as [([] & Hbody & ->) | [(e & Hbody & Hc & ->) | (e & w1 & o1 & o2 & Hbody & Hc & Hh & ->)]].
  - (* both steps returned *)
    apply proc_bind_inv in Hbody as [([] & ? & ? & o1 & [= <- <-] & Hbody & ->) | (? & [=] & _)].
    apply proc_bind_inv in Hbody as [([] & w1 & o2 & o3 & Hget & Hbody & ->) | (? & _ & [=])].
    apply (run_command_inv _ _ _ _ _ _ _ (get_script_program o)) in Hget
      as (code1 & Hget & [[-> _] | [_ [=]]]).
    exists 0, w1, o2. split; [done|]. right; right. split; [done|].
    apply proc_bind_inv in Hbody as [([] & ? & ? & o4 & [= <- <-] & Hbody & ->) | (? & [=] & _)].
    destruct (installer_name o argv) as [name|]; [|done].
    apply proc_bind_inv in Hbody as [([] & w2 & o5 & o6 & Hinst & Hbody & ->) | (? & _ & [=])].
    injection Hbody as <- <-.
    apply (run_command_inv _ _ _ _ _ _ _ (install_script_program o)) in Hinst
      as (code2 & Hinst & [[-> _] | [_ [=]]]).
    exists name, 0, o5. split; [done|]. split; [done|]. left. by split_and!.
  - (* nothing but an exception is raised in the body *)
    exfalso.
    apply proc_bind_inv in Hbody as [([] & ? & ? & o1 & [= <- <-] & Hbody & ->) | (? & [=] & _)].
    apply proc_bind_inv in Hbody as [([] & w1 & o2 & o3 & Hget & Hbody & ->) | (? & Hget & [= <-])].
    2: { apply (run_command_inv _ _ _ _ _ _ _ (get_script_program o)) in Hget
           as (code1 & Hget & [[_ [=]] | [_ [= ->]]]). done. }
    apply proc_bind_inv in Hbody as [([] & ? & ? & o4 & [= <- <-] & Hbody & ->) | (? & [=] & _)].
    destruct (installer_name o argv) as [name|]; [|by injection Hbody as <- <- <-].
    apply proc_bind_inv in Hbody as [([] & w2 & o5 & o6 & Hinst & [=] & _) | (? & Hinst & [= <-])].
    apply (run_command_inv _ _ _ _ _ _ _ (install_script_program o)) in Hinst
      as (code2 & Hinst & [[_ [=]] | [_ [= ->]]]). done.
  - injection Hh as <- <- <-.
    apply proc_bind_inv in Hbody as [([] & ? & ? & o3 & [= <- <-] & Hbody & ->) | (? & [=] & _)].
    apply proc_bind_inv in Hbody as [([] & w2 & o4 & o5 & Hget & Hbody & ->) | (? & Hget & [= <-])].
    2: { apply (run_command_inv _ _ _ _ _ _ _ (get_script_program o)) in Hget
           as (code1 & Hget & [[_ [=]] | [Hne [= ->]]]).
         exists code1, w1, o3. split; [done|]. left. by split_and!. }
    apply (run_command_inv _ _ _ _ _ _ _ (get_script_program o)) in Hget
      as (code1 & Hget & [[-> _] | [_ [=]]]).
    exists 0, w2, o4. split; [done|]. right.
    apply proc_bind_inv in Hbody as [([] & ? & ? & o6 & [= <- <-] & Hbody & ->) | (? & [=] & _)].
    destruct (installer_name o argv) as [name|].
    2: { left. injection Hbody as <- <- <-. split_and!; try done.
         unfold header. cbn [app]. by rewrite <- !(assoc_L (++)). }
    right. split; [done|].
    apply proc_bind_inv in Hbody as [([] & w3 & o7 & o8 & Hinst & [=] & _) | (? & Hinst & [= <-])].
    apply (run_command_inv _ _ _ _ _ _ _ (install_script_program o)) in Hinst
      as (code2 & Hinst & [[_ [=]] | [Hne [= ->]]]).
    exists name, code2, o6. split; [done|]. split; [done|]. right. split_and!; try done.
    unfold header. cbn [app]. by rewrite <- !(assoc_L (++)).
Qed.

End SetupRun.

Section SetupTheorems.
Import Proc Conduct Orchestrator Tools.
Variable E : Run.env.
Variable respond : Web.request → Web.answer.

(** The downloader as the orchestrator starts it. *)
Lemma download_step (o : orchestrator) (argv : list string) (w w1 : world)
    (code1 : nat) out1 :
  run_main (Downloader.main (downloader o) E respond)
    (get_script o :: download_args o argv)
    (at_start (get_script o) (download_args o argv) w) = (code1, w1, out1) →
  started w1 = started w ++ [(get_script o, download_args o argv)] ∧
  (wf (files w) → wf (files w1)) ∧
  (code1 = 0 ∨ code1 = 1) ∧
  (code1 = 0 →
     ∃ f, Downloader.filename (downloader o) (get_script o :: download_args o argv) = Some f ∧
          files w1 !! Run.Path E f = Some File).
Proof.
  unfold run_main.
  destruct (Downloader.main _ _ _ _ _) as [[r1 w1'] out1'] eqn:Hrun.
  intros [= <- <- <-].
  assert (∃ p, ∀ f, Downloader.filename (downloader o)
                      (get_script o :: download_args o argv) = Some f →
                    p = Run.Path E f) as [p Hp].
  { destruct (Downloader.filename _ _) as [f|]; [exists (Run.Path E f)|exists []]; [|done].
    by intros ? [= <-]. }
  pose proof Hrun as Hrun'.
  eapply (tame_downloader_main E respond _ _ p Hp) in Hrun' as ((Hs & _ & _ & Hwf) & _ & _).
  split_and!; [done|done| |].
  - destruct (downloader_returns_or_exits_1 _ _ _ _ _ _ _ _ Hrun) as [-> | H1]; auto.
  - intros H0.
    destruct (downloader_returns_or_exits_1 _ _ _ _ _ _ _ _ Hrun) as [-> | H1]; [|congruence].
    apply downloader_returned in Hrun as (f & n & _ & Hf & Hfile & _). eauto.
Qed.

(** When both have a name for a platform, the orchestrator and its
    downloader have the same. *)
Lemma names_agree (o : orchestrator) (argv : list string) (name f : string) :
  installer_name o argv = Some name →
  Downloader.filename (downloader o) (get_script o :: download_args o argv) = Some f →
  name = f.
Proof.
  destruct o; simpl.
  - unfold SetupFmodApi.installer_name, GetFmodApi.main_filename, Py.mem.
    generalize (argv !!! 3) (argv !!! 4). intros pf v. simpl.
    destruct (String.eqb_spec pf "windows") as [->|?]; [by intros [= <-] [= <-]|].
    destruct (String.eqb_spec pf "linux") as [->|?]; [by intros [= <-] [= <-]|].
    destruct (String.eqb_spec pf "apple") as [->|?]; [by intros _ [=]|done].
  - rewrite setup_raylib_agrees. congruence.
Qed.

(** X20. When the downloader ends with a status other than 0, the
    orchestrator reports that status, exits with status 1 and leaves the
    world as the downloader left it: the installer is not started. *)
Theorem setup_stops_after_failed_download (o : orchestrator) (argv : list string)
    (w w1 : world) (code1 : nat) out1 :
  argc o ≤ length argv →
  run_main (Downloader.main (downloader o) E respond)
    (get_script o :: download_args o argv)
    (at_start (get_script o) (download_args o argv) w) = (code1, w1, out1) →
  code1 ≠ 0 →
  main o E respond argv w =
    (Raised (SystemExit 1), w1,
     header o argv ++ out1 ++
     [SetupFailed (RuntimeError (get_script o +:+ " failed with exit code "
                                 +:+ pretty code1))]) ∧
  started w1 = started w ++ [(get_script o, download_args o argv)].
Proof.
  intros Hlen Hget Hcode.
  split; [|by apply download_step in Hget as (? & _)].
  destruct (main o E respond argv w) as [[r w'] out] eqn:Hrun.
  apply setup_run in Hrun
    as [(? & _) | (_ & c & w1' & o1 & Hget' & Hcases)]; [lia|].
  rewrite Hget in Hget'. injection Hget' as <- <- <-.
  destruct Hcases as [(_ & -> & -> & ->) | [(? & _) | (? & _)]]; done.
Qed.

(** X21. [setup_fmod_api.py] cannot succeed for a platform other than
    [windows] and [linux], macOS under either of its names included: it
    ends with status 1, and the installer is never started. *)
Theorem setup_fmod_needs_windows_or_linux (argv : list string) (w w' : world) r out :
  platform setup_fmod_api argv ≠ "windows" →
  platform setup_fmod_api argv ≠ "linux" →
  main setup_fmod_api E respond argv w = (r, w', out) →
  exit_status r = 1 ∧
  ∀ c, c ∈ started w' → c ∈ started w ∨ c.1 = "get_fmod_api.py".
Proof.
  intros Hw Hl Hrun.
  apply setup_run in Hrun
    as [(_ & -> & -> & _) | (_ & c & w1 & o1 & Hget & Hcases)]; [by split; [|auto]|].
  pose proof (download_step _ _ _ _ _ _ Hget) as (Hst & _ & _ & Hok).
  assert (∀ c, c ∈ started w1 → c ∈ started w ∨ c.1 = "get_fmod_api.py") as Hstarted.
  { intros c0. rewrite Hst. intros [? | ->%list_elem_of_singleton]%elem_of_app; auto. }
  destruct Hcases as [(_ & -> & -> & _) | [(_ & _ & -> & -> & _) | (-> & name & c2 & o2 & Hname & _)]];
    [done..|].
  exfalso. destruct (Hok eq_refl) as (f & Hf & _).
  revert Hname Hf Hw Hl. simpl.
  unfold SetupFmodApi.installer_name, GetFmodApi.main_filename, Py.mem.
  generalize (argv !!! 3) (argv !!! 4). intros pf v. simpl.
  destruct (String.eqb_spec pf "windows") as [->|?]; [done|].
  destruct (String.eqb_spec pf "linux") as [->|?]; [done|].
  destruct (String.eqb_spec pf "apple") as [->|?]; [by intros _ [=]|done].
Qed.

(** X22. An orchestrator that ends with status 0, on a machine whose
    tools fail in the ordinary way and a well-formed file system: both
    children were started, in order, and no other process; the name the
    orchestrator gave the installer is the name the downloader wrote;
    the completion line was printed; and the downloaded installer is
    gone afterwards exactly when [--delete-installer] was given. *)
Theorem setup_success (o : orchestrator) (argv : list string) (w w' : world) r out :
  Frame.ordinary E →
  wf (files w) →
  main o E respond argv w = (r, w', out) →
  exit_status r = 0 →
  ∃ name,
    installer_name o argv = Some name ∧
    Downloader.filename (downloader o) (get_script o :: download_args o argv) = Some name ∧
    started w' = started w ++ [(get_script o, download_args o argv);
                               (install_script o, install_args o argv name)] ∧
    SetupComplete (delete_installer o argv) name ∈ out ∧
    files w' !! Run.Path E name =
      (if delete_installer o argv then None else Some File).
Proof.
  intros HE Hwf Hrun Hst.
  apply setup_run in Hrun
    as [(_ & _ & -> & _) | (_ & c & w1 & o1 & Hget & Hcases)]; [done|].
  pose proof (download_step _ _ _ _ _ _ Hget) as (Hst1 & Hwf1 & _ & Hok).
  destruct Hcases
    as [(_ & _ & -> & _) | [(_ & _ & _ & -> & _) | (-> & name & c2 & o2 & Hname & Hinst & Hc2)]];
    [done..|].
  destruct Hc2 as [(-> & -> & ->) | (_ & -> & _)]; [|done].
  destruct (Hok eq_refl) as (f & Hf & Hfile).
  pose proof (names_agree _ _ _ _ Hname Hf) as <-.
  exists name. split; [done|]. split; [done|].
  revert Hinst. unfold run_installer. cbn [files sent started at_start].
  destruct (Script.main _ _ _ _) as [[r2 fs2] out2] eqn:Hmain.
  intros [= Hr2 <- <-]. cbn [files started].
  split_and!.
  - by rewrite Hst1, <- (assoc_L (++)).
  - set_solver.
  - destruct (installer_returns_or_exits_1 _ _ _ _ _ _ _ HE Hmain) as [-> | H1]; [|congruence].
    assert (installer_path E (install_script o :: install_args o argv name)
            = Run.Path E name) as Ha by done.
    destruct (script_run_installer _ _ _ _ _ _ _ (Hwf1 Hwf) Hmain)
      as [[Hkept Hdel] | (Hgone & Hdel & _)].
    + by rewrite Ha.
    + rewrite Ha in Hkept. specialize (Hdel eq_refl).
      revert Hdel. unfold Script.delete_installer, install_args.
      destruct (delete_installer o argv); [done|]. by rewrite Hkept.
    + rewrite Ha in Hgone.
      revert Hdel. unfold Script.delete_installer, install_args.
      destruct (delete_installer o argv); [by rewrite Hgone|done].
Qed.

(** X23. The processes an orchestrator starts, however it ends: none, or
    the downloader alone, or the downloader and then the installer, the
    latter only when the downloader has ended with status 0 and the
    platform has a name in [installer_patterns]; and the exit status is 0
    or 1. *)
Theorem setup_starts_in_order (o : orchestrator) (argv : list string)
    (w w' : world) r out :
  main o E respond argv w = (r, w', out) →
  (exit_status r = 0 ∨ exit_status r = 1) ∧
  (started w' = started w ∨
   started w' = started w ++ [(get_script o, download_args o argv)] ∨
   ∃ name w1 out1,
     installer_name o argv = Some name ∧
     run_main (Downloader.main (downloader o) E respond)
       (get_script o :: download_args o argv)
       (at_start (get_script o) (download_args o argv) w) = (0, w1, out1) ∧
     started w' = started w ++ [(get_script o, download_args o argv);
                                (install_script o, install_args o argv name)]).
Proof.
  intros Hrun.
  apply setup_run in Hrun
    as [(_ & -> & -> & _) | (_ & c & w1 & o1 & Hget & Hcases)]; [by split; [right|left]|].
  pose proof (download_step _ _ _ _ _ _ Hget) as (Hst1 & _ & _ & _).
  destruct Hcases
    as [(_ & -> & -> & _) | [(_ & _ & -> & -> & _) | (-> & name & c2 & o2 & Hname & Hinst & Hc2)]].
  - split; [by right|]. by right; left.
  - split; [by right|]. by right; left.
  - split; [destruct Hc2 as [(_ & -> & _) | (_ & -> & _)]; [by left|by right]|].
    right; right. exists name, w1, o1. split_and!; [done..|].
    revert Hinst. unfold run_installer. cbn [files sent started at_start].
    destruct (Script.main _ _ _ _) as [[r2 fs2] out2].
    intros [= _ <- _]. cbn [started]. by rewrite Hst1, <- (assoc_L (++)).
Qed.


End SetupTheorems.

(* ===================================================================== *)
(** * The downloaders and the orchestrators at work *)
(* ===================================================================== *)

Section Witnesses.
Import Proc Conduct.


Lemma returned_eta {A B C} (x : ended A * B * C) (a : A) :
  x.1.1 = Returned a → x = (Returned a, x.1.2, x.2).
Proof. destruct x as [[[] ?] ?]; simpl; by intros [= ->]. Qed.

(** Three chunks of 8, 0 and 4 bytes: 12 bytes are counted. *)
Lemma download_counts_bytes_witness :
  ∃ resp,
    Online.serving (Web.Request Web.GET "https://cdn.example/file" None None true)
      = Web.Answer resp ∧
    Web.ok resp = true ∧ Web.broken resp = None ∧
    12 = sum_list (Web.chunks resp) ∧
    files (download_with_progress Scenario.bare Online.serving
             "https://cdn.example/file" "sdk.tar.gz" Online.fresh).1.2
      !! Run.Path Scenario.bare "sdk.tar.gz" = Some File ∧
    sent (download_with_progress Scenario.bare Online.serving
            "https://cdn.example/file" "sdk.tar.gz" Online.fresh).1.2
      = sent Online.fresh
        ++ [Web.Request Web.GET "https://cdn.example/file" None None true].
Proof.
  apply (download_counts_bytes Scenario.bare Online.serving
           "https://cdn.example/file" "sdk.tar.gz" Online.fresh _ 12
           (download_with_progress Scenario.bare Online.serving
              "https://cdn.example/file" "sdk.tar.gz" Online.fresh).2).
  apply returned_eta. vm_compute. reflexivity.
Defined.

Lemma broken_download_leaves_file_witness :
  ∃ w' out,
    download_with_progress Scenario.bare Online.breaking
      "https://cdn.example/file" "sdk.tar.gz" Online.fresh
      = (Raised (RequestException "Connection broken"), w', out) ∧
    files w' = <[Run.Path Scenario.bare "sdk.tar.gz" := File]> (files Online.fresh).
Proof.
  eapply (broken_download_leaves_file Scenario.bare Online.breaking
            "https://cdn.example/file" "sdk.tar.gz" "Connection broken").
  - reflexivity.
  - reflexivity.
  - intros s. discriminate.
  - reflexivity.
  - vm_compute. reflexivity.
  - vm_compute. reflexivity.
Defined.


Lemma credentials_stay_home_witness :
  ∃ new,
    sent (Downloader.main Downloader.get_fmod_api Scenario.bare Online.serving
            ["get_fmod_api.py"; "me@example.com"; "secret"; "linux"; "20312"]
            Online.fresh).1.2 = sent Online.fresh ++ new ∧
    ∀ req, req ∈ new →
      request_ok Downloader.get_fmod_api
        ["get_fmod_api.py"; "me@example.com"; "secret"; "linux"; "20312"] req.
Proof.
  refine (credentials_stay_home Scenario.bare Online.serving Downloader.get_fmod_api
            ["get_fmod_api.py"; "me@example.com"; "secret"; "linux"; "20312"]
            Online.fresh _ _ _ (triple_eta _)).
Defined.

(** The login is refused with status 401 and the text "bad credentials";
    the text is not what is printed. *)
Lemma http_error_prints_no_response_witness :
  ResponseIs "No response" ∈
    (Downloader.main Downloader.get_fmod_api Scenario.bare Online.refusing
       ["get_fmod_api.py"; "me@example.com"; "secret"; "linux"; "20312"]
       Online.fresh).2 ∧
  ResponseIs "bad credentials" ∉
    (Downloader.main Downloader.get_fmod_api Scenario.bare Online.refusing
       ["get_fmod_api.py"; "me@example.com"; "secret"; "linux"; "20312"]
       Online.fresh).2.
Proof.
  split.
  - apply list_elem_of_In. vm_compute. auto.
  - intros Hin.
    discriminate (http_error_prints_no_response Scenario.bare Online.refusing
                    Downloader.get_fmod_api
                    ["get_fmod_api.py"; "me@example.com"; "secret"; "linux"; "20312"]
                    Online.fresh _ _ _ (triple_eta _) _ Hin).
Defined.

Lemma downloader_success_witness :
  ∃ f n, length ["get_raylib.py"; "linux"; "5.5"] = Downloader.argc Downloader.get_raylib ∧
    Downloader.filename Downloader.get_raylib ["get_raylib.py"; "linux"; "5.5"] = Some f ∧
    files (Downloader.main Downloader.get_raylib Scenario.bare Online.serving
             ["get_raylib.py"; "linux"; "5.5"] Online.fresh).1.2
      !! Run.Path Scenario.bare f = Some File ∧
    DownloadComplete f n ∈
      (Downloader.main Downloader.get_raylib Scenario.bare Online.serving
         ["get_raylib.py"; "linux"; "5.5"] Online.fresh).2.
Proof.
  refine (downloader_success Scenario.bare Online.serving Downloader.get_raylib
            ["get_raylib.py"; "linux"; "5.5"] Online.fresh _ _ _ (triple_eta _) _).
  vm_compute. reflexivity.
Defined.

(** The audio-SDK downloader does not know the platform [apple]. *)
Lemma downloader_rejects_witness :
  Downloader.main Downloader.get_fmod_api Scenario.bare Online.serving
    ["get_fmod_api.py"; "me@example.com"; "secret"; "apple"; "20312"] Online.fresh =
    (Raised (SystemExit 1), Online.fresh,
     if bool_decide (length ["get_fmod_api.py"; "me@example.com"; "secret"; "apple"; "20312"]
                     ≠ Downloader.argc Downloader.get_fmod_api)
     then [DownloaderUsage]
     else [Unsupported (Downloader.platform Downloader.get_fmod_api
                          ["get_fmod_api.py"; "me@example.com"; "secret"; "apple"; "20312"]);
           Supported ["mac"; "linux"; "windows"]]).
Proof.
  apply (downloader_rejects Scenario.bare Online.serving Downloader.get_fmod_api
           ["get_fmod_api.py"; "me@example.com"; "secret"; "apple"; "20312"] Online.fresh).
  right. vm_compute. reflexivity.
Defined.

(** The login is refused: the downloader ends with status 1 and so does
    the orchestrator. *)
Lemma setup_stops_after_failed_download_witness :
  Orchestrator.main Orchestrator.setup_fmod_api Scenario.bare Online.refusing
    ["setup_fmod_api.py"; "me@example.com"; "secret"; "linux"; "20312"] Online.fresh =
    (Raised (SystemExit 1),
     (run_main (Downloader.main Downloader.get_fmod_api Scenario.bare Online.refusing)
        ["get_fmod_api.py"; "me@example.com"; "secret"; "linux"; "20312"]
        (Orchestrator.at_start "get_fmod_api.py" ["me@example.com"; "secret"; "linux"; "20312"]
           Online.fresh)).1.2,
     Orchestrator.header Orchestrator.setup_fmod_api
       ["setup_fmod_api.py"; "me@example.com"; "secret"; "linux"; "20312"] ++
     (run_main (Downloader.main Downloader.get_fmod_api Scenario.bare Online.refusing)
        ["get_fmod_api.py"; "me@example.com"; "secret"; "linux"; "20312"]
        (Orchestrator.at_start "get_fmod_api.py" ["me@example.com"; "secret"; "linux"; "20312"]
           Online.fresh)).2 ++
     [SetupFailed (RuntimeError ("get_fmod_api.py" +:+ " failed with exit code "
                                 +:+ pretty 1))]) ∧
  started (run_main (Downloader.main Downloader.get_fmod_api Scenario.bare Online.refusing)
        ["get_fmod_api.py"; "me@example.com"; "secret"; "linux"; "20312"]
        (Orchestrator.at_start "get_fmod_api.py" ["me@example.com"; "secret"; "linux"; "20312"]
           Online.fresh)).1.2
    = started Online.fresh
      ++ [("get_fmod_api.py", ["me@example.com"; "secret"; "linux"; "20312"])].
Proof.
  apply (setup_stops_after_failed_download Scenario.bare Online.refusing Orchestrator.setup_fmod_api
           ["setup_fmod_api.py"; "me@example.com"; "secret"; "linux"; "20312"]
           Online.fresh _ 1).
  - simpl. lia.
  - apply (triple_eta (run_main (Downloader.main Downloader.get_fmod_api Scenario.bare Online.refusing)
        ["get_fmod_api.py"; "me@example.com"; "secret"; "linux"; "20312"]
        (Orchestrator.at_start "get_fmod_api.py" ["me@example.com"; "secret"; "linux"; "20312"]
           Online.fresh))).
  - discriminate.
Defined.

(** For [mac] the download works and the orchestrator then has no name
    for the platform. *)
Lemma setup_fmod_needs_windows_or_linux_witness :
  exit_status (Orchestrator.main Orchestrator.setup_fmod_api Scenario.bare Online.serving
                 ["setup_fmod_api.py"; "me@example.com"; "secret"; "mac"; "20312"]
                 Online.fresh).1.1 = 1 ∧
  ∀ c, c ∈ started (Orchestrator.main Orchestrator.setup_fmod_api Scenario.bare Online.serving
                      ["setup_fmod_api.py"; "me@example.com"; "secret"; "mac"; "20312"]
                      Online.fresh).1.2 →
       c ∈ started Online.fresh ∨ c.1 = "get_fmod_api.py".
Proof.
  refine (setup_fmod_needs_windows_or_linux Scenario.bare Online.serving
            ["setup_fmod_api.py"; "me@example.com"; "secret"; "mac"; "20312"]
            Online.fresh _ _ _ _ _ (triple_eta _)).
  - vm_compute. discriminate.
  - vm_compute. discriminate.
Defined.

Lemma ordinary_unpacking : Frame.ordinary Online.unpacking.
Proof. split_and!; simpl; intros; simplify_eq; done. Qed.

(** The graphics library is set up with [--delete-installer]: the
    archive is downloaded, unpacked, copied and deleted. *)
Lemma setup_success_witness :
  ∃ name,
    Orchestrator.installer_name Orchestrator.setup_raylib
      ["setup_raylib.py"; "linux"; "5.5"; "--delete-installer"] = Some name ∧
    Downloader.filename Downloader.get_raylib
      ("get_raylib.py" :: Orchestrator.download_args Orchestrator.setup_raylib
         ["setup_raylib.py"; "linux"; "5.5"; "--delete-installer"]) = Some name ∧
    started (Orchestrator.main Orchestrator.setup_raylib Online.unpacking Online.serving
               ["setup_raylib.py"; "linux"; "5.5"; "--delete-installer"]
               Online.fresh).1.2
      = started Online.fresh
        ++ [("get_raylib.py",
             Orchestrator.download_args Orchestrator.setup_raylib
               ["setup_raylib.py"; "linux"; "5.5"; "--delete-installer"]);
            ("install_raylib.py",
             Orchestrator.install_args Orchestrator.setup_raylib
               ["setup_raylib.py"; "linux"; "5.5"; "--delete-installer"] name)] ∧
    SetupComplete
      (Orchestrator.delete_installer Orchestrator.setup_raylib
         ["setup_raylib.py"; "linux"; "5.5"; "--delete-installer"]) name
      ∈ (Orchestrator.main Orchestrator.setup_raylib Online.unpacking Online.serving
           ["setup_raylib.py"; "linux"; "5.5"; "--delete-installer"] Online.fresh).2 ∧
    files (Orchestrator.main Orchestrator.setup_raylib Online.unpacking Online.serving
             ["setup_raylib.py"; "linux"; "5.5"; "--delete-installer"]
             Online.fresh).1.2 !! Run.Path Online.unpacking name =
      (if Orchestrator.delete_installer Orchestrator.setup_raylib
            ["setup_raylib.py"; "linux"; "5.5"; "--delete-installer"]
       then None else Some File).
Proof.
  refine (setup_success Online.unpacking Online.serving Orchestrator.setup_raylib
            ["setup_raylib.py"; "linux"; "5.5"; "--delete-installer"] Online.fresh
            _ _ _ ordinary_unpacking _ (triple_eta _) _).
  - apply (bool_decide_eq_true_1 (wf (files Online.fresh))). vm_compute. reflexivity.
  - vm_compute. reflexivity.
Defined.

Lemma setup_starts_in_order_witness :
  (exit_status (Orchestrator.main Orchestrator.setup_raylib Online.unpacking Online.serving
                  ["setup_raylib.py"; "linux"; "5.5"] Online.fresh).1.1 = 0 ∨
   exit_status (Orchestrator.main Orchestrator.setup_raylib Online.unpacking Online.serving
                  ["setup_raylib.py"; "linux"; "5.5"] Online.fresh).1.1 = 1) ∧
  (started (Orchestrator.main Orchestrator.setup_raylib Online.unpacking Online.serving
              ["setup_raylib.py"; "linux"; "5.5"] Online.fresh).1.2
     = started Online.fresh ∨
   started (Orchestrator.main Orchestrator.setup_raylib Online.unpacking Online.serving
              ["setup_raylib.py"; "linux"; "5.5"] Online.fresh).1.2
     = started Online.fresh
       ++ [("get_raylib.py", Orchestrator.download_args Orchestrator.setup_raylib ["setup_raylib.py"; "linux"; "5.5"])] ∨
   ∃ name w1 out1,
     Orchestrator.installer_name Orchestrator.setup_raylib ["setup_raylib.py"; "linux"; "5.5"] = Some name ∧
     run_main (Downloader.main Downloader.get_raylib Online.unpacking Online.serving)
       ("get_raylib.py" :: Orchestrator.download_args Orchestrator.setup_raylib ["setup_raylib.py"; "linux"; "5.5"])
       (Orchestrator.at_start "get_raylib.py"
          (Orchestrator.download_args Orchestrator.setup_raylib ["setup_raylib.py"; "linux"; "5.5"]) Online.fresh)
       = (0, w1, out1) ∧
     started (Orchestrator.main Orchestrator.setup_raylib Online.unpacking Online.serving
                ["setup_raylib.py"; "linux"; "5.5"] Online.fresh).1.2
       = started Online.fresh
         ++ [("get_raylib.py", Orchestrator.download_args Orchestrator.setup_raylib ["setup_raylib.py"; "linux"; "5.5"]);
             ("install_raylib.py",
              Orchestrator.install_args Orchestrator.setup_raylib ["setup_raylib.py"; "linux"; "5.5"] name)]).
Proof.
  refine (setup_starts_in_order Online.unpacking Online.serving Orchestrator.setup_raylib
            ["setup_raylib.py"; "linux"; "5.5"] Online.fresh _ _ _ (triple_eta _)).
Defined.


End Witnesses.
